(** * Wallet provisioning and on-chain allowance orchestration

    A shallow embedding of the wallet provisioner
    ([intentkit/core/agent/wallet.py]), of the custodial adapter
    ([intentkit/clients/cdp.py]) and of the Safe allowance orchestrator,
    with the properties of the specification proved over it.

    Asynchronous calls are sequential here: every [await] is a step of a
    state-and-exception monad over an explicit world (the agent-data store,
    the memoised clients and the trace of external calls). *)

From Stdlib Require Import ZArith Bool List Lia.
From stdpp Require Import gmap strings list.

Set Warnings "-register-all".

Local Open Scope string_scope.
Local Open Scope Z_scope.

(** ** Python values *)

(** What [json.loads] produces. *)
Inductive Json :=
| JNull
| JBool (b : bool)
| JNum (z : Z)
| JStr (s : string)
| JList (l : list Json)
| JDict (kv : list (string * Json)).

(** Truth value of a Python object in a condition. *)
Definition truthy (v : Json) : bool :=
  match v with
  | JNull => false
  | JBool b => b
  | JNum z => negb (z =? 0)
  | JStr s => negb (String.eqb s EmptyString)
  | JList l => match l with [] => false | _ => true end
  | JDict kv => match kv with [] => false | _ => true end
  end.

(** Truth value of a [str | None] attribute. *)
Definition truthy_str (o : option string) : bool :=
  match o with
  | None => false
  | Some s => negb (String.eqb s EmptyString)
  end.

Definition of_opt_str (o : option string) : Json :=
  match o with
  | None => JNull
  | Some s => JStr s
  end.

(** [a or b]: the first operand when it is true, the second otherwise. *)
Definition py_or (a b : Json) : Json := if truthy a then a else b.

(** [d.get(k)] on a dictionary given as its items. *)
Fixpoint dict_get (kv : list (string * Json)) (k : string) : Json :=
  match kv with
  | [] => JNull
  | (k', v) :: rest => if String.eqb k' k then v else dict_get rest k
  end.

(** [s == v] for a string [s] and any object [v]: only an equal string is
    equal. *)
Definition str_eq_json (s : string) (v : Json) : bool :=
  match v with
  | JStr s' => String.eqb s s'
  | _ => false
  end.

(** [a == b] on [str | None]. *)
Definition opt_str_eqb (a b : option string) : bool :=
  match a, b with
  | None, None => true
  | Some x, Some y => String.eqb x y
  | _, _ => false
  end.

(** ** Exceptions *)

Inductive Exc :=
| IntentKitAPIError (status : Z) (key : string)
| ValueError (msg : string)
| JSONDecodeError
| AttributeError
| InvalidOperation
| ExternalError (what : string).

(** ** Decimal quantization of a spending limit *)

(** A finite float as [str] prints it and [Decimal] reads it back:
    [coef * 10 ^ exp], so [100.0] is [1000 * 10 ^ -1] and [4e-07] is
    [4 * 10 ^ -7]. *)
Record PyFloat := { coef : Z; exp : Z }.

(** A Python [float]: a finite value, an infinity ([str] gives "inf" or
    "-inf") or a nan ([str] gives "nan"). *)
Inductive Float :=
| Finite (x : PyFloat)
| Infinity (negative : bool)
| NaN.

(** A [Decimal] as [quantize] returns it here: a whole number of
    millionths, or the quiet [Decimal("NaN")]. *)
Inductive Decimal :=
| Millionths (m : Z)
| DecimalNaN.

Definition half_even (n d : Z) : Z :=
  let q := n / d in
  let r := n mod d in
  if 2 * r <? d then q
  else if d <? 2 * r then q + 1
  else if Z.even q then q else q + 1.

(** The value rounded to a whole number of millionths (ROUND_HALF_EVEN,
    the rounding of the default context), sign apart from magnitude. *)
Definition to_millionths (x : PyFloat) : Z :=
  if 0 <=? exp x + 6 then coef x * 10 ^ (exp x + 6)
  else Z.sgn (coef x) * half_even (Z.abs (coef x)) (10 ^ (- (exp x + 6))).

(** Precision of the default decimal context. *)
Definition context_prec : Z := 28.

(** [Decimal(str(x)).quantize(Decimal("0.000001"))]: the result as a
    number of millionths; [quantize] signals InvalidOperation when the
    coefficient of the result has more digits than the context
    precision. *)
Definition quantize (x : PyFloat) : Exc + Z :=
  let m := to_millionths x in
  if Z.abs m <? 10 ^ context_prec then inr m else inl InvalidOperation.

(** [Decimal(str(x)).quantize(Decimal("0.000001"))] on any float: a nan
    goes through [quantize] as a quiet NaN, without a signal, and an
    infinity cannot be quantized to a finite exponent (InvalidOperation). *)
Definition quantize_float (x : Float) : Exc + Decimal :=
  match x with
  | Finite x => match quantize x with
                | inl e => inl e
                | inr m => inr (Millionths m)
                end
  | Infinity _ => inl InvalidOperation
  | NaN => inr DecimalNaN
  end.

(** The conditional expression around it: [None] stays [None]. *)
Definition quantize_opt (o : option Float) : Exc + option Decimal :=
  match o with
  | None => inr None
  | Some x => match quantize_float x with
              | inl e => inl e
              | inr d => inr (Some d)
              end
  end.

(** [a != b] on [Decimal]: a NaN is different from every value, itself
    included. *)
Definition decimal_ne (a b : Decimal) : bool :=
  match a, b with
  | Millionths x, Millionths y => negb (x =? y)
  | _, _ => true
  end.

(** [old_limit != new_limit] on [Decimal | None]. *)
Definition limit_ne (a b : option Decimal) : bool :=
  match a, b with
  | None, None => false
  | Some x, Some y => decimal_ne x y
  | _, _ => true
  end.

(** ** A state and exception monad *)

Definition M (S A : Type) : Type := S -> (Exc + A) * S.

Definition ret {S A} (a : A) : M S A := fun s => (inr a, s).

Definition raise {S A} (e : Exc) : M S A := fun s => (inl e, s).

Definition bind {S A B} (m : M S A) (k : A -> M S B) : M S B :=
  fun s =>
    match m s with
    | (inl e, s') => (inl e, s')
    | (inr a, s') => k a s'
    end.

Definition lift {S A} (r : Exc + A) : M S A := fun s => (r, s).

Definition gets {S A} (f : S -> A) : M S A := fun s => (inr (f s), s).

Definition modify {S} (f : S -> S) : M S unit := fun s => (inr tt, f s).

Notation "'let!' x ':=' m 'in' k" := (bind m (fun x => k))
  (at level 10, x name, m at level 100, k at level 200, only parsing).
Notation "'do!' m 'in' k" := (bind m (fun _ => k))
  (at level 10, m at level 100, k at level 200, only parsing).

(** ** Data model *)

(** The fields of [Agent] that the provisioner and the adapters read. *)
Record Agent := {
  agent_id : string;
  wallet_provider : option string;
  weekly_spending_limit : option Float;
  network_id : option string;
  cdp_network_id : option string;
  readonly_wallet_address : option string;
  owner : option string
}.

(** The wallet record of an agent ([AgentData]). *)
Record AgentData := {
  data_id : string;
  evm_wallet_address : option string;
  cdp_wallet_data : option string;
  privy_wallet_data : option string;
  native_wallet_data : option string
}.

Inductive Field := FEvmWalletAddress | FPrivyWalletData | FNativeWalletData.

(** The result of [bip39_seed_to_eth_keys]. *)
Record EthKeys := {
  keys_private_key : string;
  keys_public_key : string;
  keys_address : string
}.

Record PrivyWallet := { pw_id : string; pw_address : string }.

(** A wallet dictionary that carries the agent's address next to its other
    items. *)
Record WalletDict := { wd_address : string; wd_items : list (string * Json) }.

Record CdpEvmServerWalletProviderConfig := {
  cfg_api_key_id : option string;
  cfg_api_key_secret : option string;
  cfg_network_id : option string;
  cfg_address : option string;
  cfg_wallet_secret : option string
}.

(** A [CdpClient] object: its agent id and its two memo fields. *)
Record CdpClient := {
  _agent_id : string;
  _wallet_provider : option CdpEvmServerWalletProviderConfig;
  _wallet_provider_config : option CdpEvmServerWalletProviderConfig
}.

(** Calls that leave the process, and writes to the agent-data store, in
    the order they are made. *)
Inductive Event :=
| EvPatch (id : string) (fields : list (Field * option string))
| EvSave (record : AgentData)
| EvCdpImportAccount (name pk : string)
| EvCdpCreateAccount (name : string)
| EvCdpClose
| EvCdpWalletProvider (config : CdpEvmServerWalletProviderConfig)
| EvCreateKeyQuorum (user_ids : list string) (public_keys : option (list string))
    (threshold : Z) (display_name : string)
| EvCreateWallet (owner_key_quorum_id : string)
| EvCreatePrivySafeWallet (id : string) (network : Json) (rpc_url : option string)
    (limit : option Float) (wallet_id wallet_address : Json)
| EvCreateNativeWallet (network : string).

Definition is_cdp_creation (e : Event) : bool :=
  match e with
  | EvCdpImportAccount _ _ | EvCdpCreateAccount _ => true
  | _ => false
  end.

Definition is_safe_orchestration (e : Event) : bool :=
  match e with
  | EvCreatePrivySafeWallet _ _ _ _ _ _ => true
  | _ => false
  end.

Definition is_privy_creation (e : Event) : bool :=
  match e with
  | EvCreateKeyQuorum _ _ _ _ | EvCreateWallet _ => true
  | _ => false
  end.

(** Configuration, libraries and services outside the repository. A
    service answers from the calls made so far and its arguments, and may
    raise. *)
Record Env := {
  config_cdp_api_key_id : option string;
  config_cdp_api_key_secret : option string;
  config_cdp_wallet_secret : option string;
  (** [config.chain_provider]; the function is
      [get_chain_config(network_id).rpc_url], [None] when it raises. *)
  config_chain_provider : option (Json -> option string);
  (** [json.loads], [None] for JSONDecodeError. *)
  json_loads : string -> option Json;
  json_dumps : Json -> string;
  (** BIP32 master key, path m/44'/60'/0'/0/0, checksum address. *)
  bip39_seed_to_eth_keys : Json -> Exc + EthKeys;
  cdp_import_account : list Event -> string -> string -> Exc + unit;
  cdp_create_account : list Event -> string -> Exc + string;
  cdp_close : list Event -> Exc + unit;
  (** [agent_data.save()], a write to the database, which may fail. *)
  agent_data_save : list Event -> AgentData -> Exc + unit;
  (** The two constructors of [coinbase_agentkit]: the configuration is
      validated, and the provider loads the account of the address from the
      service. *)
  CdpEvmServerWalletProviderConfig_init :
    CdpEvmServerWalletProviderConfig -> Exc + unit;
  CdpEvmServerWalletProvider_init :
    list Event -> CdpEvmServerWalletProviderConfig -> Exc + unit;
  privy_authorization_public_keys : list string;
  privy_create_key_quorum :
    list Event -> list string -> option (list string) -> Z -> string -> Exc + string;
  privy_create_wallet : list Event -> string -> Exc + PrivyWallet;
  create_privy_safe_wallet :
    list Event -> string -> Json -> option string -> option Float -> Json -> Json ->
    Exc + WalletDict;
  create_native_wallet : list Event -> string -> Exc + WalletDict
}.

Record World := {
  store : gmap string AgentData;
  agents : gmap string Agent;
  _clients : gmap string CdpClient;
  trace : list Event
}.

Definition emit (e : Event) : M World unit :=
  modify (fun w => {| store := store w; agents := agents w;
                      _clients := _clients w; trace := trace w ++ [e] |}).

Definition set_store (f : gmap string AgentData -> gmap string AgentData) : M World unit :=
  modify (fun w => {| store := f (store w); agents := agents w;
                      _clients := _clients w; trace := trace w |}).

Definition set_clients (f : gmap string CdpClient -> gmap string CdpClient) : M World unit :=
  modify (fun w => {| store := store w; agents := agents w;
                      _clients := f (_clients w); trace := trace w |}).

(** An external call: recorded, then answered from the history before
    it. *)
Definition call {A} (e : Event) (answer : list Event -> Exc + A) : M World A :=
  let! h := gets trace in
  do! emit e in
  lift (answer h).

(** ** The persistent agent-wallet store *)

Definition empty_data (id : string) : AgentData :=
  {| data_id := id; evm_wallet_address := None; cdp_wallet_data := None;
     privy_wallet_data := None; native_wallet_data := None |}.

(** The id is the key of the table: the row read under an id carries
    it. *)
Definition lookup_data (st : gmap string AgentData) (id : string) : AgentData :=
  match st !! id with
  | Some r =>
      {| data_id := id; evm_wallet_address := evm_wallet_address r;
         cdp_wallet_data := cdp_wallet_data r;
         privy_wallet_data := privy_wallet_data r;
         native_wallet_data := native_wallet_data r |}
  | None => empty_data id
  end.

(** Modelled from the spec: [AgentData.get] is missing ([models/agent_data.py]
    is not among the sources); section 6 gives [get(agent_id) -> record |
    absent], and every caller reads attributes of the result at once, so an
    absent record reads as the empty record of that id. *)
Definition AgentData_get (id : string) : M World AgentData :=
  gets (fun w => lookup_data (store w) id).

Definition set_field (r : AgentData) (f : Field * option string) : AgentData :=
  match fst f with
  | FEvmWalletAddress =>
      {| data_id := data_id r; evm_wallet_address := snd f;
         cdp_wallet_data := cdp_wallet_data r;
         privy_wallet_data := privy_wallet_data r;
         native_wallet_data := native_wallet_data r |}
  | FPrivyWalletData =>
      {| data_id := data_id r; evm_wallet_address := evm_wallet_address r;
         cdp_wallet_data := cdp_wallet_data r;
         privy_wallet_data := snd f;
         native_wallet_data := native_wallet_data r |}
  | FNativeWalletData =>
      {| data_id := data_id r; evm_wallet_address := evm_wallet_address r;
         cdp_wallet_data := cdp_wallet_data r;
         privy_wallet_data := privy_wallet_data r;
         native_wallet_data := snd f |}
  end.

(** Modelled from the spec: [AgentData.patch] is missing; section 6 gives
    [patch(agent_id, partial_fields) -> record], applied atomically with no
    cross-field validation. *)
Definition AgentData_patch (id : string) (fields : list (Field * option string))
  : M World AgentData :=
  let! old := AgentData_get id in
  let new := fold_left set_field fields old in
  do! emit (EvPatch id fields) in
  do! set_store (insert id new) in
  ret new.

(** Modelled from the spec: [AgentData.save] is missing; it persists the
    record under its id (section 4.2, the address is persisted before the
    adapter returns). The write is a call to the database: when it raises,
    nothing is persisted. *)
Definition AgentData_save (E : Env) (r : AgentData) : M World unit :=
  do! call (EvSave r) (fun h => agent_data_save E h r) in
  set_store (insert (data_id r) r).

(** ** The custodial wallet adapter ([clients/cdp.py]) *)

Definition set_evm_wallet_address (r : AgentData) (a : option string) : AgentData :=
  set_field r (FEvmWalletAddress, a).

(** [a or b] on [str | None]. *)
Definition or_str (a b : option string) : option string :=
  if truthy_str a then a else b.

Definition bad_wallet_data : Exc :=
  ValueError "Bad wallet data, seed does not match default_address_id".

Definition invalid_wallet_data : Exc := ValueError "Invalid wallet data format".

(** The migration attempt of [get_wallet_provider]: from a version 1
    [cdp_wallet_data] with a seed, the address to adopt; otherwise the
    address is left as it is. *)
Definition migrate_v1 (E : Env) (agent : Agent) (agent_data : AgentData)
    (address : option string) : M World (option string) :=
  if truthy_str (cdp_wallet_data agent_data) then
    match json_loads E (default EmptyString (cdp_wallet_data agent_data)) with
    | None => raise JSONDecodeError
    | Some (JDict wallet_data) =>
        if truthy (dict_get wallet_data "default_address_id")
           && truthy (dict_get wallet_data "seed") then
          let! keys := lift (bip39_seed_to_eth_keys E (dict_get wallet_data "seed")) in
          if negb (str_eq_json (keys_address keys) (dict_get wallet_data "default_address_id"))
          then raise bad_wallet_data
          else
            do! call (EvCdpImportAccount (agent_id agent) (keys_private_key keys))
                  (fun h => cdp_import_account E h (agent_id agent) (keys_private_key keys)) in
            ret (Some (keys_address keys))
        else ret address
    | Some _ => raise invalid_wallet_data
    end
  else ret address.

(** The world after further calls and writes were recorded. *)
Definition logged (w : World) (events : list Event) : World :=
  {| store := store w; agents := agents w; _clients := _clients w;
     trace := trace w ++ events |}.

(** A client once [_wallet_provider_config] is assigned, and once
    [_wallet_provider] is assigned too. *)
Definition with_config (self : CdpClient) (config : CdpEvmServerWalletProviderConfig)
  : CdpClient :=
  {| _agent_id := _agent_id self;
     _wallet_provider := _wallet_provider self;
     _wallet_provider_config := Some config |}.

Definition with_provider (self : CdpClient) (config : CdpEvmServerWalletProviderConfig)
  : CdpClient :=
  {| _agent_id := _agent_id self;
     _wallet_provider := Some config;
     _wallet_provider_config := Some config |}.

(** A method of a [CdpClient] runs on the object and on the world: the
    object is part of the state, so that what the method assigns to it
    stays assigned when a later statement raises. *)
Definition in_world {A} (m : M World A) : M (CdpClient * World) A :=
  fun s =>
    match m (snd s) with
    | (r, w') => (r, (fst s, w'))
    end.

Definition set_wallet_provider_config (config : CdpEvmServerWalletProviderConfig)
  : M (CdpClient * World) unit :=
  modify (fun s =>
    ({| _agent_id := _agent_id (fst s);
        _wallet_provider := _wallet_provider (fst s);
        _wallet_provider_config := Some config |}, snd s)).

Definition set_wallet_provider (provider : CdpEvmServerWalletProviderConfig)
  : M (CdpClient * World) unit :=
  modify (fun s =>
    ({| _agent_id := _agent_id (fst s);
        _wallet_provider := Some provider;
        _wallet_provider_config := _wallet_provider_config (fst s) |}, snd s)).

(** Lines 82 to 122: the record has no address yet. *)
Definition create_or_migrate (E : Env) (agent : Agent) (agent_data : AgentData)
    (address : option string) : M World (option string) :=
  let! address := migrate_v1 E agent agent_data address in
  let! address :=
    if negb (truthy_str address) then
      let! new_account :=
        call (EvCdpCreateAccount (agent_id agent))
          (fun h => cdp_create_account E h (agent_id agent)) in
      ret (Some new_account)
    else ret address in
  do! call EvCdpClose (cdp_close E) in
  do! AgentData_save E (set_evm_wallet_address agent_data address) in
  ret address.

(** The configuration of lines 125 to 131. *)
Definition provider_config (E : Env) (agent : Agent) (address : option string)
  : CdpEvmServerWalletProviderConfig :=
  {| cfg_api_key_id := config_cdp_api_key_id E;
     cfg_api_key_secret := config_cdp_api_key_secret E;
     cfg_network_id := or_str (network_id agent) (cdp_network_id agent);
     cfg_address := address;
     cfg_wallet_secret := config_cdp_wallet_secret E |}.

(** Lines 125 to 133: the configuration is built and assigned, then the
    provider is built on it and assigned. A provider is given by the
    configuration it was built on. *)
Definition build_wallet_provider (E : Env) (config : CdpEvmServerWalletProviderConfig)
  : M (CdpClient * World) CdpEvmServerWalletProviderConfig :=
  do! lift (CdpEvmServerWalletProviderConfig_init E config) in
  do! set_wallet_provider_config config in
  do! in_world (call (EvCdpWalletProvider config)
                  (fun h => CdpEvmServerWalletProvider_init E h config)) in
  do! set_wallet_provider config in
  ret config.

(** [get_wallet_provider] below its memo test, once the agent is read. *)
Definition load_wallet_provider (E : Env) (agent : Agent)
  : M (CdpClient * World) CdpEvmServerWalletProviderConfig :=
  let! self := gets fst in
  let! agent_data := in_world (AgentData_get (_agent_id self)) in
  let address := evm_wallet_address agent_data in
  let! address :=
    if negb (truthy_str address) then
      in_world (create_or_migrate E agent agent_data address)
    else ret address in
  build_wallet_provider E (provider_config E agent address).

(** [CdpClient.get_wallet_provider]; the agent comes from the skill store,
    and reading an attribute of an absent agent raises. *)
Definition get_wallet_provider (E : Env)
  : M (CdpClient * World) CdpEvmServerWalletProviderConfig :=
  let! self := gets fst in
  match _wallet_provider self with
  | Some provider => ret provider
  | None =>
      let! agent := gets (fun s => agents (snd s) !! _agent_id self) in
      match agent with
      | None => raise AttributeError
      | Some agent => load_wallet_provider E agent
      end
  end.

Definition new_client (id : string) : CdpClient :=
  {| _agent_id := id; _wallet_provider := None; _wallet_provider_config := None |}.

(** [get_cdp_client]: one client per agent id, kept in [_clients]. *)
Definition get_cdp_client (id : string) : M World CdpClient :=
  let! known := gets (fun w => _clients w !! id) in
  match known with
  | Some client => ret client
  | None =>
      do! set_clients (insert id (new_client id)) in
      ret (new_client id)
  end.

(** A method run on the client that [_clients] holds under [id]: the table
    holds the object itself, so it holds what the method assigned, also
    when the method raised. *)
Definition on_client {A} (id : string) (client : CdpClient) (m : M (CdpClient * World) A)
  : M World A :=
  fun w =>
    match m (client, w) with
    | (r, (client', w')) =>
        (r, {| store := store w'; agents := agents w';
               _clients := <[id := client']> (_clients w'); trace := trace w' |})
    end.

(** The memoised client of an agent asked for its provider. *)
Definition client_wallet_provider (E : Env) (id : string)
  : M World CdpEvmServerWalletProviderConfig :=
  let! client := get_cdp_client id in
  on_client id client (get_wallet_provider E).

(** Modelled from the spec: [intentkit.wallets.cdp.get_wallet_provider],
    which the provisioner calls with the agent, is missing; section 4.2
    gives [get_or_create(agent)] with one memoised adapter per agent id,
    which is the client above run on the agent it is given. *)
Definition get_cdp_wallet_provider (E : Env) (agent : Agent)
  : M World CdpEvmServerWalletProviderConfig :=
  let! client := get_cdp_client (agent_id agent) in
  on_client (agent_id agent) client
    (match _wallet_provider client with
     | Some provider => ret provider
     | None => load_wallet_provider E agent
     end).

(** ** The wallet provisioner ([core/agent/wallet.py]) *)

Definition provider_is (p : option string) (s : string) : bool :=
  opt_str_eqb p (Some s).

Definition wallet_provider_change_not_allowed : Exc :=
  IntentKitAPIError 400 "WalletProviderChangeNotAllowed".

(** [old_wallet_provider is not None and old_wallet_provider != "none"]. *)
Definition provider_was_set (old_wallet_provider : option string) : bool :=
  match old_wallet_provider with
  | None => false
  | Some o => negb (String.eqb o "none")
  end.

(** The RPC URL of a network: it stays [None] without a chain provider or
    when the lookup raises. *)
Definition chain_rpc_url (E : Env) (network : Json) : option string :=
  match config_chain_provider E with
  | Some get_chain_config => get_chain_config network
  | None => None
  end.

(** [d.get(k)] on any parsed value: only a dictionary has the method. *)
Definition py_get (v : Json) (k : string) : Exc + Json :=
  match v with
  | JDict kv => inr (dict_get kv k)
  | _ => inl AttributeError
  end.

Definition base_mainnet : string := "base-mainnet".

(** The literal [0.0]. *)
Definition float_zero : Float := Finite {| coef := 0; exp := -1 |}.

(** The dictionary of a wallet with its address under [key]. *)
Definition wallet_json (key : string) (wd : WalletDict) : Json :=
  JDict ((key, JStr (wd_address wd)) :: wd_items wd).

(** The owner checks, the key quorum and the Privy wallet that the "safe"
    and "privy" branches both create. *)
Definition create_owner_wallet (E : Env) (agent : Agent) : M World (string * PrivyWallet) :=
  if negb (truthy_str (owner agent)) then
    raise (IntentKitAPIError 400 "PrivyUserIdMissing")
  else if negb (String.prefix "did:privy:" (default EmptyString (owner agent))) then
    raise (IntentKitAPIError 400 "PrivyUserIdInvalid")
  else
    let user := default EmptyString (owner agent) in
    let server_public_keys := privy_authorization_public_keys E in
    let public_keys :=
      match server_public_keys with [] => None | _ => Some server_public_keys end in
    let display_name := String.append "intentkit:" (String.substring 0 40 (agent_id agent)) in
    let! owner_key_quorum_id :=
      call (EvCreateKeyQuorum [user] public_keys 1 display_name)
        (fun h => privy_create_key_quorum E h [user] public_keys 1 display_name) in
    let! privy_wallet :=
      call (EvCreateWallet owner_key_quorum_id)
        (fun h => privy_create_wallet E h owner_key_quorum_id) in
    ret (owner_key_quorum_id, privy_wallet).

Definition call_create_privy_safe_wallet (E : Env) (id : string) (network : Json)
    (rpc_url : option string) (limit : option Float) (wallet_id wallet_address : Json)
  : M World WalletDict :=
  call (EvCreatePrivySafeWallet id network rpc_url limit wallet_id wallet_address)
    (fun h => create_privy_safe_wallet E h id network rpc_url limit wallet_id wallet_address).

(** Lines 59 to 113: the provider is unchanged. *)
Definition unchanged_provider (E : Env) (agent : Agent)
    (old_limit new_limit : option Decimal)
  : M World AgentData :=
  let current_wallet_provider := wallet_provider agent in
  if (provider_is current_wallet_provider "safe"
      || provider_is current_wallet_provider "privy")
     && limit_ne old_limit new_limit then
    let! agent_data := AgentData_get (agent_id agent) in
    if truthy_str (privy_wallet_data agent_data)
       && provider_is current_wallet_provider "safe" then
      let privy_wallet_data :=
        match json_loads E (default EmptyString (privy_wallet_data agent_data)) with
        | Some v => v
        | None => JDict []
        end in
      let! existing_privy_wallet_id := lift (py_get privy_wallet_data "privy_wallet_id") in
      let! existing_privy_wallet_address :=
        lift (py_get privy_wallet_data "privy_wallet_address") in
      if truthy existing_privy_wallet_id && truthy existing_privy_wallet_address then
        let! stored_network := lift (py_get privy_wallet_data "network_id") in
        let network :=
          py_or (py_or (of_opt_str (network_id agent)) stored_network) (JStr base_mainnet) in
        let rpc_url := chain_rpc_url E network in
        let limit :=
          match weekly_spending_limit agent with
          | Some l => Some l
          | None => Some float_zero
          end in
        let! wallet_data :=
          call_create_privy_safe_wallet E (agent_id agent) network rpc_url limit
            existing_privy_wallet_id existing_privy_wallet_address in
        AgentData_patch (agent_id agent)
          [(FEvmWalletAddress, Some (wd_address wallet_data));
           (FPrivyWalletData,
            Some (json_dumps E (wallet_json "smart_wallet_address" wallet_data)))]
      else AgentData_get (agent_id agent)
    else AgentData_get (agent_id agent)
  else AgentData_get (agent_id agent).

(** Lines 143 to 156: the wallet id and address of a partial record. *)
Definition partial_privy_wallet (E : Env) (agent_data : AgentData) : M World (Json * Json) :=
  if truthy_str (privy_wallet_data agent_data) then
    match json_loads E (default EmptyString (privy_wallet_data agent_data)) with
    | None => ret (JNull, JNull)
    | Some partial_data =>
        let! existing_privy_wallet_id := lift (py_get partial_data "privy_wallet_id") in
        let! existing_privy_wallet_address :=
          lift (py_get partial_data "privy_wallet_address") in
        ret (existing_privy_wallet_id, existing_privy_wallet_address)
    end
  else ret (JNull, JNull).

(** Lines 131 to 216: the "safe" branch. *)
Definition provision_safe (E : Env) (agent : Agent) (agent_data : AgentData)
  : M World AgentData :=
  let network := default base_mainnet (or_str (network_id agent) (Some base_mainnet)) in
  let rpc_url := chain_rpc_url E (JStr network) in
  let! existing := partial_privy_wallet E agent_data in
  let! existing :=
    if negb (truthy (fst existing)) then
      let! created := create_owner_wallet E agent in
      let owner_key_quorum_id := fst created in
      let privy_wallet := snd created in
      let partial_wallet_data :=
        JDict [("privy_wallet_id", JStr (pw_id privy_wallet));
               ("privy_wallet_address", JStr (pw_address privy_wallet));
               ("owner_key_quorum_id", JStr owner_key_quorum_id);
               ("network_id", JStr network);
               ("status", JStr "privy_created")] in
      do! AgentData_patch (agent_id agent)
            [(FPrivyWalletData, Some (json_dumps E partial_wallet_data))] in
      ret (JStr (pw_id privy_wallet), JStr (pw_address privy_wallet))
    else ret existing in
  let! wallet_data :=
    call_create_privy_safe_wallet E (agent_id agent) (JStr network) rpc_url
      (weekly_spending_limit agent) (fst existing) (snd existing) in
  AgentData_patch (agent_id agent)
    [(FEvmWalletAddress, Some (wd_address wallet_data));
     (FPrivyWalletData,
      Some (json_dumps E (wallet_json "smart_wallet_address" wallet_data)))].

(** Lines 217 to 264: the "privy" branch. *)
Definition provision_privy (E : Env) (agent : Agent) : M World AgentData :=
  let! created := create_owner_wallet E agent in
  let owner_key_quorum_id := fst created in
  let privy_wallet := snd created in
  let wallet_data :=
    JDict [("privy_wallet_id", JStr (pw_id privy_wallet));
           ("privy_wallet_address", JStr (pw_address privy_wallet));
           ("owner_key_quorum_id", JStr owner_key_quorum_id);
           ("network_id",
            JStr (default base_mainnet (or_str (network_id agent) (Some base_mainnet))));
           ("provider", JStr "privy");
           ("status", JStr "created")] in
  AgentData_patch (agent_id agent)
    [(FEvmWalletAddress, Some (pw_address privy_wallet));
     (FPrivyWalletData, Some (json_dumps E wallet_data))].

(** Lines 265 to 280: the "native" branch. *)
Definition provision_native (E : Env) (agent : Agent) : M World AgentData :=
  let network := default base_mainnet (or_str (network_id agent) (Some base_mainnet)) in
  let! wallet_data :=
    call (EvCreateNativeWallet network) (fun h => create_native_wallet E h network) in
  AgentData_patch (agent_id agent)
    [(FEvmWalletAddress, Some (wd_address wallet_data));
     (FNativeWalletData, Some (json_dumps E (wallet_json "address" wallet_data)))].

(** Lines 115 to 282: no provider was set before. *)
Definition provision_new (E : Env) (agent : Agent) : M World AgentData :=
  let current_wallet_provider := wallet_provider agent in
  let! agent_data := AgentData_get (agent_id agent) in
  if truthy_str (evm_wallet_address agent_data) then ret agent_data
  else if truthy_str (config_cdp_api_key_id E)
          && provider_is current_wallet_provider "cdp" then
    do! get_cdp_wallet_provider E agent in
    AgentData_get (agent_id agent)
  else if provider_is current_wallet_provider "readonly" then
    AgentData_patch (agent_id agent)
      [(FEvmWalletAddress, readonly_wallet_address agent)]
  else if provider_is current_wallet_provider "safe" then
    provision_safe E agent agent_data
  else if provider_is current_wallet_provider "privy" then
    provision_privy E agent
  else if provider_is current_wallet_provider "native" then
    provision_native E agent
  else ret agent_data.

Definition process_agent_wallet (E : Env) (agent : Agent)
    (old_wallet_provider : option string) (old_weekly_spending_limit : option Float)
  : M World AgentData :=
  let current_wallet_provider := wallet_provider agent in
  let! old_limit := lift (quantize_opt old_weekly_spending_limit) in
  let! new_limit := lift (quantize_opt (weekly_spending_limit agent)) in
  if provider_was_set old_wallet_provider
     && negb (opt_str_eqb old_wallet_provider current_wallet_provider) then
    raise wallet_provider_change_not_allowed
  else if provider_was_set old_wallet_provider
          && opt_str_eqb old_wallet_provider current_wallet_provider then
    unchanged_provider E agent old_limit new_limit
  else provision_new E agent.

(** A computation is [stored] for an id when the record it returns is the
    one the store then holds for this id. *)
Definition stored (id : string) (m : M World AgentData) : Prop :=
  forall w r w', m w = (inr r, w') -> lookup_data (store w') id = r.

(** ** The Safe allowance orchestrator *)

(** [intentkit/wallets/privy_safe.py] is not among the sources: its tests
    ([tests/wallets/test_safe_deployment_nonce.py]) and sections 4.3, 4.4
    and 6 of the specification are. The definitions of this module follow
    them, over a chain on which a Safe transaction applies when it
    carries the Safe's next nonce and reverts otherwise (glossary,
    "Nonce"). *)
Module PrivySafe.

(** An entry of the chain registry, with the fields the tests give it. *)
Record ChainConfig := {
  chain_id : Z;
  name : string;
  safe_tx_service_url : string;
  usdc_address : string;
  safe_singleton_address : string;
  allowance_module_address : string
}.

(** A deployed Safe. *)
Record Safe := {
  module_enabled : bool;
  nonce : Z;
  allowance : gmap string Z
}.

Definition fresh_safe : Safe :=
  {| module_enabled := false; nonce := 0; allowance := ∅ |}.

Inductive Call :=
| IsDeployed (network safe : string)
| DeploySafe (network owner safe : string)
| IsModuleEnabled (network safe : string)
| GetSafeNonce (network safe : string)
| Erc20Decimals (network token : string)
| EnableAllowanceModule (network safe : string) (nonce : Z)
| SetSpendingLimit (network safe token : string) (allowance_amount nonce : Z).

Definition is_enable (c : Call) : bool :=
  match c with EnableAllowanceModule _ _ _ => true | _ => false end.

Definition is_set_limit (c : Call) : bool :=
  match c with SetSpendingLimit _ _ _ _ _ => true | _ => false end.

Definition is_nonce_query (c : Call) : bool :=
  match c with GetSafeNonce _ _ => true | _ => false end.

(** The transactions that consume a nonce of the Safe. *)
Definition is_safe_tx (c : Call) : bool := is_enable c || is_set_limit c.

(** The chains, by network id and address, and the calls made to them. A
    deployment that is sent becomes visible after [latency] more waits. *)
Record Chain := {
  safes : gmap (string * string) Safe;
  pending : gmap (string * string) nat;
  erc20 : gmap (string * string) Z;
  decimals_cache : gmap (string * string) Z;
  latency : nat;
  calls : list Call
}.

Record SafeEnv := {
  CHAIN_CONFIGS : gmap string ChainConfig;
  (** The Safe address of an owner under a singleton, with the fixed salt. *)
  predict_safe_address : string -> string -> string;
  tx_hash : Call -> string;
  (** The fixed number of polls for a deployment. *)
  max_polls : nat
}.

Definition chain_config_missing : Exc := IntentKitAPIError 500 "ChainConfigMissing".
Definition irrecoverable_chain_error : Exc := ExternalError "IrrecoverableChainError".

Definition add_call (c : Call) (ch : Chain) : Chain :=
  {| safes := safes ch; pending := pending ch; erc20 := erc20 ch;
     decimals_cache := decimals_cache ch; latency := latency ch;
     calls := calls ch ++ [c] |}.

Definition upd_safes (f : gmap (string * string) Safe -> gmap (string * string) Safe)
    (ch : Chain) : Chain :=
  {| safes := f (safes ch); pending := pending ch; erc20 := erc20 ch;
     decimals_cache := decimals_cache ch; latency := latency ch;
     calls := calls ch |}.

Definition upd_pending (f : gmap (string * string) nat -> gmap (string * string) nat)
    (ch : Chain) : Chain :=
  {| safes := safes ch; pending := f (pending ch); erc20 := erc20 ch;
     decimals_cache := decimals_cache ch; latency := latency ch;
     calls := calls ch |}.

Definition upd_decimals_cache (f : gmap (string * string) Z -> gmap (string * string) Z)
    (ch : Chain) : Chain :=
  {| safes := safes ch; pending := pending ch; erc20 := erc20 ch;
     decimals_cache := f (decimals_cache ch); latency := latency ch;
     calls := calls ch |}.

Definition log (c : Call) : M Chain unit := modify (add_call c).

Definition set_safes (f : gmap (string * string) Safe -> gmap (string * string) Safe)
  : M Chain unit := modify (upd_safes f).

Definition set_pending (f : gmap (string * string) nat -> gmap (string * string) nat)
  : M Chain unit := modify (upd_pending f).

Definition set_decimals_cache (f : gmap (string * string) Z -> gmap (string * string) Z)
  : M Chain unit := modify (upd_decimals_cache f).

(** Modelled from the spec: the chain RPC provider of section 6,
    [call(contract, method, args)] for the deployment check. *)
Definition is_deployed (network safe : string) : M Chain bool :=
  do! log (IsDeployed network safe) in
  gets (fun ch => bool_decide (is_Some (safes ch !! (network, safe)))).

(** Modelled from the spec: section 6, [call] for the module-enabled check;
    an address without a Safe has no module. *)
Definition _is_module_enabled (network safe : string) : M Chain bool :=
  do! log (IsModuleEnabled network safe) in
  gets (fun ch => match safes ch !! (network, safe) with
                  | Some s => module_enabled s
                  | None => false
                  end).

(** Modelled from the spec: section 6, [get_next_nonce(address) -> int]. *)
Definition _get_safe_nonce (network safe : string) : M Chain Z :=
  do! log (GetSafeNonce network safe) in
  let! s := gets (fun ch => safes ch !! (network, safe)) in
  match s with
  | Some s => ret (nonce s)
  | None => raise irrecoverable_chain_error
  end.

(** Modelled from the spec: section 4.4, the decimal precision of a token
    by on-chain query, cached per token and network. *)
Definition _get_erc20_decimals (network token : string) : M Chain Z :=
  let! cached := gets (fun ch => decimals_cache ch !! (network, token)) in
  match cached with
  | Some d => ret d
  | None =>
      do! log (Erc20Decimals network token) in
      let! d := gets (fun ch => erc20 ch !! (network, token)) in
      match d with
      | Some d =>
          do! set_decimals_cache (insert (network, token) d) in
          ret d
      | None => raise irrecoverable_chain_error
      end
  end.

(** The precision [set_safe_token_spending_limit] works with: the one it
    is given, else the cached one, else the one on chain. *)
Definition resolve_decimals (ch : Chain) (token_decimals : option Z)
    (network token : string) : option Z :=
  match token_decimals with
  | Some d => Some d
  | None =>
      match decimals_cache ch !! (network, token) with
      | Some d => Some d
      | None => erc20 ch !! (network, token)
      end
  end.

(** Modelled from the spec: a Safe transaction signed and sent with an
    explicit nonce (section 6, [sign_and_send]); it applies [effect] and
    takes the Safe to the next nonce, or reverts. *)
Definition send_safe_tx (E : SafeEnv) (c : Call) (network safe : string) (n : Z)
    (effect : Safe -> Safe) : M Chain string :=
  do! log c in
  let! s := gets (fun ch => safes ch !! (network, safe)) in
  match s with
  | Some s =>
      if nonce s =? n then
        let s' := effect s in
        do! set_safes (insert (network, safe)
                         {| module_enabled := module_enabled s';
                            nonce := n + 1;
                            allowance := allowance s' |}) in
        ret (tx_hash E c)
      else raise irrecoverable_chain_error
  | None => raise irrecoverable_chain_error
  end.

(** Modelled from the spec: section 4.3 step 3, the "enable module"
    transaction. *)
Definition _enable_allowance_module (E : SafeEnv) (network safe : string) (n : Z)
  : M Chain string :=
  send_safe_tx E (EnableAllowanceModule network safe n) network safe n
    (fun s => {| module_enabled := true; nonce := nonce s; allowance := allowance s |}).

(** Modelled from the spec: section 4.4, the "set limit" transaction; it
    replaces the limit of that token. *)
Definition _set_spending_limit (E : SafeEnv) (network safe token : string)
    (allowance_amount n : Z) : M Chain string :=
  send_safe_tx E (SetSpendingLimit network safe token allowance_amount n) network safe n
    (fun s => {| module_enabled := module_enabled s; nonce := nonce s;
                 allowance := <[token := allowance_amount]> (allowance s) |}).

(** Modelled from the spec: section 4.4, the human-readable amount in the
    smallest unit of the token, by integer arithmetic on its decimal
    digits; digits below the smallest unit are dropped. *)
Definition to_smallest_unit (amount : PyFloat) (decimals : Z) : Z :=
  if 0 <=? exp amount + decimals then coef amount * 10 ^ (exp amount + decimals)
  else Z.quot (coef amount) (10 ^ (- (exp amount + decimals))).

Record LimitResult := {
  allowance_module_enabled : bool;
  spending_limit_configured : bool;
  tx_hashes : list (string * string);
  next_nonce : Z
}.

(** Modelled from the spec: the nonce sequencer of sections 2 and 4.3; the
    nonce established in this call, or the chain's, asked once. *)
Definition current_nonce (network safe : string) (local : option Z) : M Chain Z :=
  match local with
  | Some n => ret n
  | None => _get_safe_nonce network safe
  end.

(** Modelled from the spec: [set_safe_token_spending_limit] is missing;
    section 4.4, [set_token_limit(safe_address, token_address,
    human_amount, nonce?)], with the optional [token_decimals] that its
    tests pass. *)
Definition set_safe_token_spending_limit (E : SafeEnv) (safe_address token_address : string)
    (spending_limit : PyFloat) (token_decimals : option Z) (network_id : string)
    (nonce : option Z) : M Chain LimitResult :=
  let! decimals :=
    match token_decimals with
    | Some d => ret d
    | None => _get_erc20_decimals network_id token_address
    end in
  let allowance_amount := to_smallest_unit spending_limit decimals in
  let! enabled := _is_module_enabled network_id safe_address in
  let! n := current_nonce network_id safe_address nonce in
  let! enabling :=
    if enabled then ret ([], n)
    else
      let! tx := _enable_allowance_module E network_id safe_address n in
      ret ([("enable_module", tx)], n + 1) in
  let! tx :=
    _set_spending_limit E network_id safe_address token_address allowance_amount
      (snd enabling) in
  ret {| allowance_module_enabled := true;
         spending_limit_configured := true;
         tx_hashes := fst enabling ++ [("set_spending_limit", tx)];
         next_nonce := snd enabling + 1 |}.

(** Modelled from the spec: section 4.3 step 2, the deployment transaction
    of a Safe; it is on chain after [latency] waits. *)
Definition _deploy_safe (E : SafeEnv) (network owner safe : string) : M Chain string :=
  do! log (DeploySafe network owner safe) in
  let! l := gets latency in
  do! match l with
      | O => set_safes (insert (network, safe) fresh_safe)
      | S _ => set_pending (insert (network, safe) l)
      end in
  ret (tx_hash E (DeploySafe network owner safe)).

(** Modelled from the spec: section 5, one backoff delay of the bounded
    poll; a pending deployment gets one step closer. *)
Definition sleep (network safe : string) : M Chain unit :=
  let! p := gets (fun ch => pending ch !! (network, safe)) in
  match p with
  | Some (S (S d)) => set_pending (insert (network, safe) (S d))
  | Some _ =>
      do! set_pending (delete (network, safe)) in
      set_safes (insert (network, safe) fresh_safe)
  | None => ret tt
  end.

(** Modelled from the spec: section 4.3 step 2, the bounded poll for the
    confirmation of a deployment. *)
Fixpoint _wait_for_safe_deployed (polls : nat) (network safe : string) : M Chain unit :=
  match polls with
  | O => raise irrecoverable_chain_error
  | S polls' =>
      let! deployed := is_deployed network safe in
      if deployed then ret tt
      else
        do! sleep network safe in
        _wait_for_safe_deployed polls' network safe
  end.

Record DeployResult := {
  smart_wallet_address : string;
  status : string;
  deployment_tx_hash : option string;
  limit : LimitResult
}.

(** Modelled from the spec: [deploy_safe_with_allowance] is missing;
    section 4.3, [deploy_with_allowance]. Steps 3 and 4 are the limit
    setter of section 4.4, called once on the reference stablecoin of the
    registry: with nonce 0 for a Safe this call deployed, with the chain's
    nonce, asked once, for a Safe that was deployed before. *)
Definition deploy_safe_with_allowance (E : SafeEnv) (privy_wallet_address network_id : string)
    (weekly_spending_limit_usdc : PyFloat) : M Chain DeployResult :=
  match CHAIN_CONFIGS E !! network_id with
  | None => raise chain_config_missing
  | Some chain_config =>
      let safe_address :=
        predict_safe_address E privy_wallet_address (safe_singleton_address chain_config) in
      let! deployed := is_deployed network_id safe_address in
      let! started :=
        if deployed then
          let! n := _get_safe_nonce network_id safe_address in
          ret (None, n)
        else
          let! tx := _deploy_safe E network_id privy_wallet_address safe_address in
          do! _wait_for_safe_deployed (max_polls E) network_id safe_address in
          ret (Some tx, 0) in
      let! result :=
        set_safe_token_spending_limit E safe_address (usdc_address chain_config)
          weekly_spending_limit_usdc None network_id (Some (snd started)) in
      ret {| smart_wallet_address := safe_address;
             status := "limit_configured";
             deployment_tx_hash := fst started;
             limit := result |}
  end.

(** ** What a run leaves in the list of calls *)

(** The calls that resolving the precision adds. *)
Definition decimals_calls (ch : Chain) (token_decimals : option Z)
    (network token : string) : list Call :=
  match token_decimals with
  | Some _ => []
  | None =>
      match decimals_cache ch !! (network, token) with
      | Some _ => []
      | None => [Erc20Decimals network token]
      end
  end.

(** The calls a run of the limit setter makes on a Safe in a given
    state. *)
Definition limit_calls (ch : Chain) (s : Safe) (safe token : string) (amount : Z)
    (token_decimals : option Z) (network : string) (n : option Z) : list Call :=
  (decimals_calls ch token_decimals network token
   ++ [IsModuleEnabled network safe]
   ++ match n with None => [GetSafeNonce network safe] | Some _ => [] end
   ++ (if module_enabled s then [] else [EnableAllowanceModule network safe (nonce s)])
   ++ [SetSpendingLimit network safe token amount
         (if module_enabled s then nonce s else nonce s + 1)])%list.

(** What the deployment and its confirmation change between two chains:
    the Safe is there, fresh, and the calls added are polls and the
    deployment itself. *)
Definition deployed_from (network owner safe : string) (ch ch' : Chain) : Prop :=
  safes ch' = <[(network, safe) := fresh_safe]> (safes ch) /\
  erc20 ch' = erc20 ch /\
  decimals_cache ch' = decimals_cache ch /\
  exists new,
    calls ch' = (calls ch ++ new)%list /\
    forall f : Call -> bool,
      f (IsDeployed network safe) = false ->
      f (DeploySafe network owner safe) = false ->
      List.filter f new = [].

End PrivySafe.

(** ** The rest of [core/agent/wallet.py] *)

(** The arguments of the key quorum of an owner: its display name, the
    server keys when there are some, and the call itself. *)
Definition owner_display_name (agent : Agent) : string :=
  String.append "intentkit:" (String.substring 0 40 (agent_id agent)).

Definition owner_public_keys (E : Env) : option (list string) :=
  match privy_authorization_public_keys E with
  | [] => None
  | _ => Some (privy_authorization_public_keys E)
  end.

Definition owner_quorum_event (E : Env) (agent : Agent) : Event :=
  EvCreateKeyQuorum [default EmptyString (owner agent)] (owner_public_keys E) 1
    (owner_display_name agent).

(** The network of a "safe" agent: its own, else "base-mainnet". *)
Definition safe_network (agent : Agent) : string :=
  default base_mainnet (or_str (network_id agent) (Some base_mainnet)).

(** The wallet data written once the Privy wallet exists and before the
    Safe is deployed (lines 187 to 193). *)
Definition partial_wallet_data (agent : Agent) (owner_key_quorum_id : string)
    (privy_wallet : PrivyWallet) : Json :=
  JDict [("privy_wallet_id", JStr (pw_id privy_wallet));
         ("privy_wallet_address", JStr (pw_address privy_wallet));
         ("owner_key_quorum_id", JStr owner_key_quorum_id);
         ("network_id", JStr (safe_network agent));
         ("status", JStr "privy_created")].

(** The call of the orchestrator for a "safe" agent on a given wallet. *)
Definition safe_wallet_event (E : Env) (agent : Agent) (wallet_id wallet_address : Json)
  : Event :=
  EvCreatePrivySafeWallet (agent_id agent) (JStr (safe_network agent))
    (chain_rpc_url E (JStr (safe_network agent))) (weekly_spending_limit agent)
    wallet_id wallet_address.

(** The write that ends the "safe" branch. *)
Definition safe_wallet_fields (E : Env) (wallet_data : WalletDict)
  : list (Field * option string) :=
  [(FEvmWalletAddress, Some (wd_address wallet_data));
   (FPrivyWalletData,
    Some (json_dumps E (wallet_json "smart_wallet_address" wallet_data)))].

(** The world once the Privy wallet of a "safe" agent is created and
    recorded. *)
Definition checkpoint (E : Env) (agent : Agent) (q : string) (pw : PrivyWallet) (w : World)
  : World :=
  {| store :=
       <[agent_id agent :=
           set_field (lookup_data (store w) (agent_id agent))
             (FPrivyWalletData, Some (json_dumps E (partial_wallet_data agent q pw)))]>
         (store w);
     agents := agents w;
     _clients := _clients w;
     trace := trace w ++
       [owner_quorum_event E agent; EvCreateWallet q;
        EvPatch (agent_id agent)
          [(FPrivyWalletData, Some (json_dumps E (partial_wallet_data agent q pw)))]] |}.

(** The record has no version 1 wallet to migrate: no [cdp_wallet_data],
    or a dictionary that lacks a seed or a [default_address_id]. *)
Definition has_no_seed (E : Env) (agent_data : AgentData) : bool :=
  if truthy_str (cdp_wallet_data agent_data) then
    match json_loads E (default EmptyString (cdp_wallet_data agent_data)) with
    | Some (JDict wallet_data) =>
        negb (truthy (dict_get wallet_data "default_address_id")
              && truthy (dict_get wallet_data "seed"))
    | _ => false
    end
  else true.

(** TypeError, as the interpreter raises it for a subscript or a hash of
    an object of the wrong type. *)
Definition type_error : Exc := ExternalError "TypeError".

(** [v[k]] for a string key [k]: the item of a dictionary, KeyError when
    the dictionary has no such key, TypeError on anything else. *)
Inductive Subscript :=
| Found (v : Json)
| KeyError
| NotSubscriptable.

Fixpoint dict_find (kv : list (string * Json)) (k : string) : option Json :=
  match kv with
  | [] => None
  | (k', v) :: rest => if String.eqb k' k then Some v else dict_find rest k
  end.

Definition py_subscript (v : Json) (k : string) : Subscript :=
  match v with
  | JDict kv => match dict_find kv k with
                | Some x => Found x
                | None => KeyError
                end
  | _ => NotSubscriptable
  end.

(** [CHAIN_CONFIGS.get(network_id)], as the RPC URL of the entry found:
    the table has string keys, and a list or a dictionary cannot be hashed. *)
Definition chain_configs_get (CHAIN_CONFIGS : gmap string (option string)) (network : Json)
  : Exc + option (option string) :=
  match network with
  | JStr s => inr (CHAIN_CONFIGS !! s)
  | JList _ | JDict _ => inl type_error
  | _ => inr None
  end.

Definition rpc_url_not_configured : Exc := IntentKitAPIError 500 "RpcUrlNotConfigured".

(** [_resolve_safe_rpc_url]: the URL stored with the wallet, else the one
    of the chain provider, else the one of [CHAIN_CONFIGS] (the table of
    [intentkit.wallets.privy], here by its [rpc_url] column). *)
Definition _resolve_safe_rpc_url (E : Env) (CHAIN_CONFIGS : gmap string (option string))
    (network : Json) (privy_wallet_data : list (string * Json)) : Exc + Json :=
  let rpc_url := dict_get privy_wallet_data "rpc_url" in
  let rpc_url :=
    if negb (truthy rpc_url) then
      match chain_rpc_url E network with
      | Some url => JStr url
      | None => rpc_url
      end
    else rpc_url in
  match
    (if negb (truthy rpc_url) then
       match chain_configs_get CHAIN_CONFIGS network with
       | inl e => inl e
       | inr (Some (Some url)) => inr (if truthy (JStr url) then JStr url else rpc_url)
       | inr _ => inr rpc_url
       end
     else inr rpc_url)
  with
  | inl e => inl e
  | inr rpc_url => if negb (truthy rpc_url) then inl rpc_url_not_configured else inr rpc_url
  end.

(** The keyword arguments of the call of [set_safe_token_spending_limit]
    that ends [set_agent_safe_token_spending_limit]. *)
Record SetLimitCall := {
  arg_privy_wallet_id : Json;
  arg_privy_wallet_address : Json;
  arg_safe_address : Json;
  arg_token_address : string;
  arg_spending_limit : Float;
  arg_network_id : Json;
  arg_rpc_url : Json
}.

(** Lines 320 to 365 of [set_agent_safe_token_spending_limit]: the checks,
    which only read the agent table and the store, and the arguments they
    lead to. *)
Definition safe_limit_call (E : Env) (CHAIN_CONFIGS : gmap string (option string))
    (id token_address : string) (spending_limit : Float) (w : World)
  : Exc + SetLimitCall :=
  match agents w !! id with
  | None => inl (IntentKitAPIError 404 "AgentNotFound")
  | Some agent =>
      if negb (provider_is (wallet_provider agent) "safe") then
        inl (IntentKitAPIError 400 "SafeWalletRequired")
      else
        let agent_data := lookup_data (store w) id in
        if negb (truthy_str (privy_wallet_data agent_data)) then
          inl (IntentKitAPIError 400 "PrivyWalletDataMissing")
        else
          match json_loads E (default EmptyString (privy_wallet_data agent_data)) with
          | None => inl (IntentKitAPIError 500 "PrivyWalletDataInvalid")
          | Some privy_wallet_data =>
              match py_subscript privy_wallet_data "privy_wallet_id",
                    py_subscript privy_wallet_data "privy_wallet_address",
                    py_subscript privy_wallet_data "smart_wallet_address" with
              | Found privy_wallet_id, Found privy_wallet_address, Found safe_address =>
                  let kv := match privy_wallet_data with JDict kv => kv | _ => [] end in
                  let network :=
                    py_or (py_or (dict_get kv "network_id") (of_opt_str (network_id agent)))
                      (JStr base_mainnet) in
                  match _resolve_safe_rpc_url E CHAIN_CONFIGS network kv with
                  | inl e => inl e
                  | inr rpc_url =>
                      inr {| arg_privy_wallet_id := privy_wallet_id;
                             arg_privy_wallet_address := privy_wallet_address;
                             arg_safe_address := safe_address;
                             arg_token_address := token_address;
                             arg_spending_limit := spending_limit;
                             arg_network_id := network;
                             arg_rpc_url := rpc_url |}
                  end
              | NotSubscriptable, _, _ => inl type_error
              | _, _, _ => inl (IntentKitAPIError 500 "PrivyWalletDataIncomplete")
              end
          end
  end.

(** [set_agent_safe_token_spending_limit], over any state that holds the
    world, with the limit setter it ends in as a parameter. *)
Definition set_agent_safe_token_spending_limit {S R} (E : Env)
    (CHAIN_CONFIGS : gmap string (option string)) (world_of : S -> World)
    (set_safe_token_spending_limit : SetLimitCall -> M S R)
    (id token_address : string) (spending_limit : Float) : M S R :=
  let! args :=
    (fun s => (safe_limit_call E CHAIN_CONFIGS id token_address spending_limit (world_of s),
               s)) in
  set_safe_token_spending_limit args.

(** ** The rest of [clients/cdp.py] *)

(** [CdpClient.get_provider_config]. *)
Definition get_provider_config (E : Env)
  : M (CdpClient * World) (option CdpEvmServerWalletProviderConfig) :=
  let! self := gets fst in
  match _wallet_provider_config self with
  | Some _ => ret (_wallet_provider_config self)
  | None =>
      do! get_wallet_provider E in
      gets (fun s => _wallet_provider_config (fst s))
  end.

(** ** The Web3 client cache ([wallets/web3.py]) *)

Module Web3.

(** An [AsyncWeb3] client by what it is built from: the endpoint and the
    retry configuration of its provider. *)
Record AsyncWeb3 := {
  endpoint : option string;
  retry_errors : list string;
  retries : Z
}.

(** The module cache, and the networks the chain provider was asked
    for. *)
Record State := {
  _async_web3_client_cache : gmap string AsyncWeb3;
  asked : list string
}.

(** [get_async_web3_client]; [chain_provider] is [config.chain_provider],
    as the function from a network id to the [rpc_url] of its chain
    configuration, which may raise. *)
Definition get_async_web3_client (chain_provider : option (string -> Exc + option string))
    (network_id : string) : M State AsyncWeb3 :=
  let! cached := gets (fun s => _async_web3_client_cache s !! network_id) in
  match cached with
  | Some client => ret client
  | None =>
      match chain_provider with
      | None => raise AttributeError
      | Some get_chain_config =>
          do! modify (fun s => {| _async_web3_client_cache := _async_web3_client_cache s;
                                  asked := asked s ++ [network_id] |}) in
          let! rpc_url := lift (get_chain_config network_id) in
          let web3_client :=
            {| endpoint := rpc_url;
               retry_errors := ["aiohttp.ClientError"; "asyncio.TimeoutError"; "TimeoutError"];
               retries := 5 |} in
          do! modify (fun s => {| _async_web3_client_cache :=
                                    <[network_id := web3_client]> (_async_web3_client_cache s);
                                  asked := asked s |}) in
          ret web3_client
      end
  end.

End Web3.

(** ** The CDP skills ([skills/cdp/__init__.py]) *)

Module CdpSkills.

(** The three skill instances of the module. *)
Inductive CDPBaseTool := CDPGetBalance | CDPGetWalletDetails | CDPNativeTransfer.

Definition _cache : gmap string CDPBaseTool :=
  {[ "cdp_get_balance" := CDPGetBalance;
     "cdp_get_wallet_details" := CDPGetWalletDetails;
     "cdp_native_transfer" := CDPNativeTransfer ]}.

(** One turn of the loop of [get_skills]. *)
Definition add_skill (is_private : bool) (tools : list CDPBaseTool)
    (item : string * string) : list CDPBaseTool :=
  let skill_name := fst item in
  let state := snd item in
  if String.eqb state "disabled" then tools
  else if String.eqb state "public" || (String.eqb state "private" && is_private) then
    match _cache !! skill_name with
    | Some tool => tools ++ [tool]
    | None => tools
    end
  else tools.

(** [get_skills], on the items of [config["states"]] in their order. *)
Definition get_skills (states : list (string * string)) (is_private : bool)
  : list CDPBaseTool :=
  fold_left (add_skill is_private) states [].

(** A state that lets a skill through: "public", or "private" for a
    private caller. *)
Definition lets_through (is_private : bool) (state : string) : bool :=
  String.eqb state "public" || (String.eqb state "private" && is_private).

End CdpSkills.

(** ** Measuring a quantized limit *)

(** The exact value of [x] counted in units of [10 ^ e], for [e <= exp x]. *)
Definition in_units (e : Z) (x : PyFloat) : Z := coef x * 10 ^ (exp x - e).

(** [abs(x - m * 0.000001) <= 0.0000005] on the exact decimal value. *)
Definition within_half_a_millionth (x : PyFloat) (m : Z) : Prop :=
  let e := Z.min (exp x) (-6) in
  2 * Z.abs (in_units e x - m * 10 ^ (-6 - e)) <= 10 ^ (-6 - e).

(** [abs(a - b) <= 0.000001] on the exact decimal values. *)
Definition differ_by_at_most_a_millionth (a b : PyFloat) : Prop :=
  let e := Z.min (Z.min (exp a) (exp b)) (-6) in
  Z.abs (in_units e a - in_units e b) <= 10 ^ (-6 - e).

(** [abs(x) <= 9999999999999999999999.999999], the largest value with 28
    digits and six decimals. *)
Definition fits_the_context (x : PyFloat) : Prop :=
  let e := Z.min (exp x) (-6) in
  Z.abs (in_units e x) <= (10 ^ context_prec - 1) * 10 ^ (-6 - e).

(** ** Sample configurations *)

(** An environment whose services answer with fixed values. *)
Definition sample_env (cdp_key : option string) : Env :=
  {| config_cdp_api_key_id := cdp_key;
     config_cdp_api_key_secret := Some "secret";
     config_cdp_wallet_secret := Some "wallet-secret";
     config_chain_provider := Some (fun _ => Some "http://rpc.url");
     json_loads := fun s =>
       if String.eqb s "privy" then
         Some (JDict [("privy_wallet_id", JStr "privy-wallet-1");
                      ("privy_wallet_address", JStr "0x01");
                      ("network_id", JStr "base-mainnet")])
       else if String.eqb s "v1-good" then
         Some (JDict [("default_address_id", JStr "0xA1"); ("seed", JStr "5eed")])
       else if String.eqb s "v1-bad" then
         Some (JDict [("default_address_id", JStr "0xB2"); ("seed", JStr "5eed")])
       else None;
     json_dumps := fun _ => "dumped";
     bip39_seed_to_eth_keys := fun _ =>
       inr {| keys_private_key := "0xpk"; keys_public_key := "0xpub";
              keys_address := "0xA1" |};
     cdp_import_account := fun _ _ _ => inr tt;
     cdp_create_account := fun _ _ => inr "0xC3";
     cdp_close := fun _ => inr tt;
     agent_data_save := fun _ _ => inr tt;
     CdpEvmServerWalletProviderConfig_init := fun _ => inr tt;
     CdpEvmServerWalletProvider_init := fun _ _ => inr tt;
     privy_authorization_public_keys := [];
     privy_create_key_quorum := fun _ _ _ _ _ => inr "quorum-1";
     privy_create_wallet := fun _ _ =>
       inr {| pw_id := "privy-wallet-1"; pw_address := "0x01" |};
     create_privy_safe_wallet := fun _ _ _ _ _ _ _ =>
       inr {| wd_address := "0x02"; wd_items := [("status", JStr "limit_configured")] |};
     create_native_wallet := fun _ _ =>
       inr {| wd_address := "0x04"; wd_items := [] |} |}.

Definition sample_agent (provider : string) (limit : option Float) : Agent :=
  {| agent_id := "agent-123";
     wallet_provider := Some provider;
     weekly_spending_limit := limit;
     network_id := Some "base-mainnet";
     cdp_network_id := None;
     readonly_wallet_address := Some "0x05";
     owner := Some "did:privy:user_1" |}.

Definition sample_data (evm cdp privy : option string) : AgentData :=
  {| data_id := "agent-123"; evm_wallet_address := evm; cdp_wallet_data := cdp;
     privy_wallet_data := privy; native_wallet_data := None |}.

Definition sample_world (provider : string) (limit : option Float) (r : AgentData) : World :=
  {| store := {[ "agent-123" := r ]};
     agents := {[ "agent-123" := sample_agent provider limit ]};
     _clients := ∅;
     trace := [] |}.

Definition empty_world : World :=
  {| store := ∅; agents := ∅; _clients := ∅; trace := [] |}.

(** [100.0], [200.0], [4e-07], [6e-07] and [1e+22] as [str] prints them. *)
Definition f100 : PyFloat := {| coef := 1000; exp := -1 |}.
Definition f200 : PyFloat := {| coef := 2000; exp := -1 |}.
Definition f4e_07 : PyFloat := {| coef := 4; exp := -7 |}.
Definition f6e_07 : PyFloat := {| coef := 6; exp := -7 |}.
Definition f1e22 : PyFloat := {| coef := 1; exp := 22 |}.

(** The chain registry entry, the addresses and the transaction hashes of
    the tests of the orchestrator. *)
Definition test_chain_config : PrivySafe.ChainConfig :=
  {| PrivySafe.chain_id := 123;
     PrivySafe.name := "Test Chain";
     PrivySafe.safe_tx_service_url := "http://safe.tx";
     PrivySafe.usdc_address := "0xA0b86991c6218b36c1d19D4a2e9Eb0cE3606eB48";
     PrivySafe.safe_singleton_address := "0xfb1bffC9d739B8D520DaF37dF666da4C687191EA";
     PrivySafe.allowance_module_address := "0xCFbFaC74C26F8647cBDb8c5caf80BB5b32E43134" |}.

Definition test_safe_address : string := "0x00000000000000000000000000000000000000Aa".
Definition test_owner_address : string := "0x0000000000000000000000000000000000000000".
Definition test_token : string := "0x1111111111111111111111111111111111111111".

Definition test_safe_env : PrivySafe.SafeEnv :=
  {| PrivySafe.CHAIN_CONFIGS := {[ "test-network" := test_chain_config ]};
     PrivySafe.predict_safe_address := fun _ _ => test_safe_address;
     PrivySafe.tx_hash := fun c =>
       match c with
       | PrivySafe.DeploySafe _ _ _ => "0xDeployTx"
       | PrivySafe.EnableAllowanceModule _ _ _ => "0xEnableTx"
       | PrivySafe.SetSpendingLimit _ _ _ _ _ => "0xLimitTx"
       | _ => EmptyString
       end;
     PrivySafe.max_polls := 5 |}.

(** A chain with at most one Safe, at the test address, and two tokens of
    six decimals. *)
Definition test_chain (safe : option PrivySafe.Safe) (latency : nat) : PrivySafe.Chain :=
  {| PrivySafe.safes :=
       match safe with
       | Some s => {[ ("test-network", test_safe_address) := s ]}
       | None => ∅
       end;
     PrivySafe.pending := ∅;
     PrivySafe.erc20 :=
       {[ ("test-network", PrivySafe.usdc_address test_chain_config) := 6;
          ("test-network", test_token) := 6 ]};
     PrivySafe.decimals_cache := ∅;
     PrivySafe.latency := latency;
     PrivySafe.calls := [] |}.

Definition test_safe (enabled : bool) (n : Z) : PrivySafe.Safe :=
  {| PrivySafe.module_enabled := enabled; PrivySafe.nonce := n;
     PrivySafe.allowance := ∅ |}.

(** [abs(a - b) < 0.000001] on the exact decimal values. *)
Definition differ_by_less_than_a_millionth (a b : PyFloat) : Prop :=
  let e := Z.min (Z.min (exp a) (exp b)) (-6) in
  Z.abs (coef a * 10 ^ (exp a - e) - coef b * 10 ^ (exp b - e)) < 10 ^ (-6 - e).

(** An environment whose Safe orchestration fails until it has been tried
    once, and whose [json.loads] reads back the partial wallet data that
    [json.dumps] wrote. *)
Definition sample_partial_data : Json :=
  partial_wallet_data (sample_agent "safe" (Some (Finite f100))) "quorum-1"
    {| pw_id := "privy-wallet-1"; pw_address := "0x01" |}.

Definition recovering_env : Env :=
  {| config_cdp_api_key_id := None;
     config_cdp_api_key_secret := None;
     config_cdp_wallet_secret := None;
     config_chain_provider := None;
     json_loads := fun s => if String.eqb s "partial" then Some sample_partial_data else None;
     json_dumps := fun v =>
       match v with
       | JDict (("privy_wallet_id", _) :: _) => "partial"
       | _ => "complete"
       end;
     bip39_seed_to_eth_keys := fun _ => inl (ValueError "no seed");
     cdp_import_account := fun _ _ _ => inr tt;
     cdp_create_account := fun _ _ => inr "0xC3";
     cdp_close := fun _ => inr tt;
     agent_data_save := fun _ _ => inr tt;
     CdpEvmServerWalletProviderConfig_init := fun _ => inr tt;
     CdpEvmServerWalletProvider_init := fun _ _ => inr tt;
     privy_authorization_public_keys := ["server-key"];
     privy_create_key_quorum := fun _ _ _ _ _ => inr "quorum-1";
     privy_create_wallet := fun _ _ =>
       inr {| pw_id := "privy-wallet-1"; pw_address := "0x01" |};
     create_privy_safe_wallet := fun h _ _ _ _ _ _ =>
       if existsb is_safe_orchestration h then
         inr {| wd_address := "0x02"; wd_items := [("status", JStr "limit_configured")] |}
       else inl (ExternalError "IrrecoverableChainError");
     create_native_wallet := fun _ _ => inr {| wd_address := "0x04"; wd_items := [] |} |}.

(** An environment in which every [cdp_wallet_data] reads as a dictionary
    with a seed and nothing else. *)
Definition seed_only_env : Env :=
  {| config_cdp_api_key_id := Some "key";
     config_cdp_api_key_secret := Some "secret";
     config_cdp_wallet_secret := Some "wallet-secret";
     config_chain_provider := None;
     json_loads := fun _ => Some (JDict [("seed", JStr "5eed")]);
     json_dumps := fun _ => "dumped";
     bip39_seed_to_eth_keys := fun _ =>
       inr {| keys_private_key := "0xpk"; keys_public_key := "0xpub";
              keys_address := "0xA1" |};
     cdp_import_account := fun _ _ _ => inr tt;
     cdp_create_account := fun _ _ => inr "0xC3";
     cdp_close := fun _ => inr tt;
     agent_data_save := fun _ _ => inr tt;
     CdpEvmServerWalletProviderConfig_init := fun _ => inr tt;
     CdpEvmServerWalletProvider_init := fun _ _ => inr tt;
     privy_authorization_public_keys := [];
     privy_create_key_quorum := fun _ _ _ _ _ => inr "quorum-1";
     privy_create_wallet := fun _ _ => inr {| pw_id := "w"; pw_address := "0x01" |};
     create_privy_safe_wallet := fun _ _ _ _ _ _ _ =>
       inr {| wd_address := "0x02"; wd_items := [] |};
     create_native_wallet := fun _ _ => inr {| wd_address := "0x04"; wd_items := [] |} |}.

(** An environment whose service has no account to load when the provider
    is built. *)
Definition failing_provider_env : Env :=
  {| config_cdp_api_key_id := Some "key";
     config_cdp_api_key_secret := Some "secret";
     config_cdp_wallet_secret := Some "wallet-secret";
     config_chain_provider := None;
     json_loads := fun _ => None;
     json_dumps := fun _ => "dumped";
     bip39_seed_to_eth_keys := fun _ => inl (ValueError "unused");
     cdp_import_account := fun _ _ _ => inr tt;
     cdp_create_account := fun _ _ => inr "0xC3";
     cdp_close := fun _ => inr tt;
     agent_data_save := fun _ _ => inr tt;
     CdpEvmServerWalletProviderConfig_init := fun _ => inr tt;
     CdpEvmServerWalletProvider_init := fun _ _ => inl (ExternalError "account not found");
     privy_authorization_public_keys := [];
     privy_create_key_quorum := fun _ _ _ _ _ => inr "quorum-1";
     privy_create_wallet := fun _ _ => inr {| pw_id := "w"; pw_address := "0x01" |};
     create_privy_safe_wallet := fun _ _ _ _ _ _ _ =>
       inr {| wd_address := "0x02"; wd_items := [] |};
     create_native_wallet := fun _ _ => inr {| wd_address := "0x04"; wd_items := [] |} |}.

(** The wallet data, the environment and the world of
    [test_set_agent_safe_token_spending_limit_success]. *)
Definition test_wallet_data : list (string * Json) :=
  [("privy_wallet_id", JStr "privy-wallet-1");
   ("privy_wallet_address", JStr "0x0000000000000000000000000000000000000001");
   ("smart_wallet_address", JStr "0x0000000000000000000000000000000000000002");
   ("network_id", JStr "base-mainnet");
   ("rpc_url", JStr "http://rpc.url")].

Definition test_limit_env : Env :=
  {| config_cdp_api_key_id := None;
     config_cdp_api_key_secret := None;
     config_cdp_wallet_secret := None;
     config_chain_provider := None;
     json_loads := fun s =>
       if String.eqb s "safe-data" then Some (JDict test_wallet_data) else None;
     json_dumps := fun _ => "dumped";
     bip39_seed_to_eth_keys := fun _ => inl (ValueError "unused");
     cdp_import_account := fun _ _ _ => inr tt;
     cdp_create_account := fun _ _ => inr "0xC3";
     cdp_close := fun _ => inr tt;
     agent_data_save := fun _ _ => inr tt;
     CdpEvmServerWalletProviderConfig_init := fun _ => inr tt;
     CdpEvmServerWalletProvider_init := fun _ _ => inr tt;
     privy_authorization_public_keys := [];
     privy_create_key_quorum := fun _ _ _ _ _ => inr "quorum-1";
     privy_create_wallet := fun _ _ => inr {| pw_id := "w"; pw_address := "0x01" |};
     create_privy_safe_wallet := fun _ _ _ _ _ _ _ =>
       inr {| wd_address := "0x02"; wd_items := [] |};
     create_native_wallet := fun _ _ => inr {| wd_address := "0x04"; wd_items := [] |} |}.

Definition test_limit_world : World :=
  sample_world "safe" (Some (Finite f200)) (sample_data (Some "0xsafe") None (Some "safe-data")).

(** [123.45]. *)
Definition f123_45 : PyFloat := {| coef := 12345; exp := -2 |}.

(** The errors that [set_agent_safe_token_spending_limit] raises before
    it calls the limit setter. *)
Definition safe_limit_errors : list Exc :=
  [IntentKitAPIError 404 "AgentNotFound";
   IntentKitAPIError 400 "SafeWalletRequired";
   IntentKitAPIError 400 "PrivyWalletDataMissing";
   IntentKitAPIError 500 "PrivyWalletDataInvalid";
   IntentKitAPIError 500 "PrivyWalletDataIncomplete";
   type_error;
   rpc_url_not_configured].

(** * Properties *)

Example quantize_100 : quantize f100 = inr 100000000.
Proof. reflexivity. Qed.

Example quantize_tie_down : quantize {| coef := 5; exp := -7 |} = inr 0.
Proof. reflexivity. Qed.

Example quantize_tie_up : quantize {| coef := 15; exp := -7 |} = inr 2.
Proof. reflexivity. Qed.

Example quantize_negative : quantize {| coef := -26; exp := -7 |} = inr (-3).
Proof. reflexivity. Qed.

Example quantize_too_large : quantize f1e22 = inl InvalidOperation.
Proof. reflexivity. Qed.

(** ** Comparisons *)

Lemma opt_str_eqb_eq (a b : option string) : opt_str_eqb a b = true <-> a = b.
Proof.
  destruct a as [x|], b as [y|]; simpl; try (split; congruence).
  rewrite String.eqb_eq. split; congruence.
Qed.

Lemma opt_str_eqb_neq (a b : option string) : opt_str_eqb a b = false <-> a <> b.
Proof.
  rewrite <- opt_str_eqb_eq. destruct (opt_str_eqb a b); split; congruence.
Qed.

Lemma provider_was_set_true (old : option string) :
  provider_was_set old = true <-> exists o, old = Some o /\ o <> "none".
Proof.
  destruct old as [o|]; simpl.
  - rewrite negb_true_iff, String.eqb_neq. split.
    + intros H. exists o. auto.
    + intros (o' & [= <-] & H). exact H.
  - split; [discriminate | intros (o & [=] & _)].
Qed.

Lemma provider_was_set_false (old : option string) :
  provider_was_set old = false <-> old = None \/ old = Some "none".
Proof.
  destruct old as [o|]; simpl.
  - rewrite negb_false_iff, String.eqb_eq. split.
    + intros ->. now right.
    + intros [[=] | [= ->]]. reflexivity.
  - split; auto.
Qed.

(** A limit is equal to itself, unless it is a NaN. *)
Lemma limit_ne_refl (q : option Decimal) :
  q <> Some DecimalNaN -> limit_ne q q = false.
Proof.
  destruct q as [[m|]|]; simpl; intros H;
    [now rewrite Z.eqb_refl | now destruct H | reflexivity].
Qed.

Lemma limit_ne_false (a b : option Decimal) : limit_ne a b = false -> a = b.
Proof.
  destruct a as [[x|]|], b as [[y|]|]; simpl; try congruence.
  rewrite negb_false_iff, Z.eqb_eq. congruence.
Qed.

Lemma limit_ne_neq (a b : option Decimal) : a <> b -> limit_ne a b = true.
Proof.
  intros H. destruct (limit_ne a b) eqn:Hl; [reflexivity|].
  apply limit_ne_false in Hl. contradiction.
Qed.

(** Only a nan quantizes to a NaN. *)
Lemma quantize_opt_nan o :
  quantize_opt o = inr (Some DecimalNaN) <-> o = Some NaN.
Proof.
  destruct o as [[x|b|]|]; simpl; try (split; congruence).
  destruct (quantize x); split; congruence.
Qed.

(** ** The provisioner, step by step *)

(** The function after its two quantizations. *)
Lemma process_agent_wallet_quantized E agent old old_limit w oq nq :
  quantize_opt old_limit = inr oq ->
  quantize_opt (weekly_spending_limit agent) = inr nq ->
  process_agent_wallet E agent old old_limit w =
    (if provider_was_set old && negb (opt_str_eqb old (wallet_provider agent)) then
       raise wallet_provider_change_not_allowed
     else if provider_was_set old && opt_str_eqb old (wallet_provider agent) then
       unchanged_provider E agent oq nq
     else provision_new E agent) w.
Proof.
  intros Ho Hn. unfold process_agent_wallet, bind, lift. now rewrite Ho, Hn.
Qed.

(** A call that returns a record quantized both limits. *)
Lemma process_agent_wallet_returns E agent old old_limit w r w' :
  process_agent_wallet E agent old old_limit w = (inr r, w') ->
  exists oq nq,
    quantize_opt old_limit = inr oq /\
    quantize_opt (weekly_spending_limit agent) = inr nq.
Proof.
  unfold process_agent_wallet, bind, lift.
  destruct (quantize_opt old_limit) as [e|oq]; [discriminate|].
  destruct (quantize_opt (weekly_spending_limit agent)) as [e|nq]; [discriminate|].
  eauto.
Qed.

(** C2 (as amended): a provider that was set and differs from the
    current one is refused with WalletProviderChangeNotAllowed when both
    limits quantize; the world is the one before the call, so nothing was
    called and nothing was written. *)
Theorem provider_change_rejected E agent o old_limit w oq nq :
  o <> "none" ->
  Some o <> wallet_provider agent ->
  quantize_opt old_limit = inr oq ->
  quantize_opt (weekly_spending_limit agent) = inr nq ->
  process_agent_wallet E agent (Some o) old_limit w
  = (inl wallet_provider_change_not_allowed, w).
Proof.
  intros Hnone Hne Ho Hn.
  rewrite (process_agent_wallet_quantized _ _ _ _ _ _ _ Ho Hn).
  assert (Hset : provider_was_set (Some o) = true)
    by (apply provider_was_set_true; eauto).
  apply opt_str_eqb_neq in Hne. now rewrite Hset, Hne.
Qed.

Lemma provider_change_rejected_witness :
  process_agent_wallet (sample_env None) (sample_agent "readonly" (Some (Finite f100)))
    (Some "cdp") (Some (Finite f200)) empty_world
  = (inl wallet_provider_change_not_allowed, empty_world).
Proof.
  apply (provider_change_rejected _ _ "cdp" _ _ (Some (Millionths 200000000)) (Some (Millionths 100000000)));
    [discriminate | discriminate | reflexivity | reflexivity].
Defined.

(** A limit of 1e+22 makes the second quantization raise before the
    provider test is reached. *)
Lemma provider_change_unquantizable :
  ~ (forall E agent o old_limit w,
        o <> "none" -> Some o <> wallet_provider agent ->
        fst (process_agent_wallet E agent (Some o) old_limit w)
        = inl wallet_provider_change_not_allowed).
Proof.
  intros H.
  specialize (H (sample_env None) (sample_agent "readonly" (Some (Finite f1e22))) "cdp" None
                empty_world ltac:(discriminate) ltac:(discriminate)).
  vm_compute in H. discriminate H.
Qed.

(** ** Reading and writing the store *)

Lemma bind_inr {S A B} (m : M S A) (k : A -> M S B) s b s' :
  bind m k s = (inr b, s') ->
  exists a s1, m s = (inr a, s1) /\ k a s1 = (inr b, s').
Proof.
  unfold bind. destruct (m s) as [[e|a] s1]; [discriminate|]. eauto.
Qed.

Lemma AgentData_get_run id w :
  AgentData_get id w = (inr (lookup_data (store w) id), w).
Proof. reflexivity. Qed.

Lemma lookup_data_id (st : gmap string AgentData) id : data_id (lookup_data st id) = id.
Proof. unfold lookup_data. now destruct (st !! id). Qed.

Lemma set_fields_id fields r : data_id (fold_left set_field fields r) = data_id r.
Proof.
  revert r. induction fields as [|[f v] fields IH]; intros r; [reflexivity|].
  simpl. rewrite IH. now destruct f.
Qed.

Lemma lookup_data_insert id r (st : gmap string AgentData) :
  data_id r = id -> lookup_data (<[id := r]> st) id = r.
Proof.
  intros <-. unfold lookup_data. rewrite lookup_insert_eq. now destruct r.
Qed.

Lemma AgentData_patch_run id fields w :
  AgentData_patch id fields w =
    (inr (fold_left set_field fields (lookup_data (store w) id)),
     {| store := <[id := fold_left set_field fields (lookup_data (store w) id)]> (store w);
        agents := agents w; _clients := _clients w;
        trace := trace w ++ [EvPatch id fields] |}).
Proof. reflexivity. Qed.

Lemma stored_get id : stored id (AgentData_get id).
Proof. intros w r w' [= <- <-]. reflexivity. Qed.

Lemma stored_patch id fields : stored id (AgentData_patch id fields).
Proof.
  intros w r w'. rewrite AgentData_patch_run. intros [= <- <-]. simpl.
  apply lookup_data_insert. rewrite set_fields_id. apply lookup_data_id.
Qed.

Lemma stored_bind {A} id (m : M World A) k :
  (forall a, stored id (k a)) -> stored id (bind m k).
Proof.
  intros Hk w r w' H. apply bind_inr in H as (a & w1 & _ & H). eapply Hk, H.
Qed.

Lemma stored_if id (b : bool) m1 m2 :
  stored id m1 -> stored id m2 -> stored id (if b then m1 else m2).
Proof. now destruct b. Qed.

Lemma stored_raise id e : stored id (raise e).
Proof. intros w r w' [=]. Qed.

Lemma stored_unchanged_provider E agent oq nq :
  stored (agent_id agent) (unchanged_provider E agent oq nq).
Proof.
  unfold unchanged_provider.
  apply stored_if; [|apply stored_get].
  apply stored_bind; intros data.
  apply stored_if; [|apply stored_get].
  do 2 (apply stored_bind; intros ?).
  apply stored_if; [|apply stored_get].
  do 2 (apply stored_bind; intros ?).
  apply stored_patch.
Qed.

Lemma stored_provision_new E agent : stored (agent_id agent) (provision_new E agent).
Proof.
  intros w r w'. unfold provision_new.
  intros H. apply bind_inr in H as (data & w1 & Hget & H).
  rewrite AgentData_get_run in Hget. injection Hget as <- <-.
  revert H. set (data := lookup_data (store w) (agent_id agent)).
  destruct (truthy_str (evm_wallet_address data)); [now intros [= <- <-]|].
  destruct (_ && _).
  { apply stored_bind; intros ?. apply stored_get. }
  destruct (provider_is _ "readonly"); [apply stored_patch|].
  destruct (provider_is _ "safe").
  { unfold provision_safe. do 3 (apply stored_bind; intros ?). apply stored_patch. }
  destruct (provider_is _ "privy").
  { unfold provision_privy. apply stored_bind; intros ?. apply stored_patch. }
  destruct (provider_is _ "native").
  { unfold provision_native. apply stored_bind; intros ?. apply stored_patch. }
  now intros [= <- <-].
Qed.

(** The record a call returns is the record of the agent in the store it
    leaves. *)
Lemma process_agent_wallet_stored E agent old old_limit :
  stored (agent_id agent) (process_agent_wallet E agent old old_limit).
Proof.
  unfold process_agent_wallet.
  do 2 (apply stored_bind; intros ?).
  apply stored_if; [apply stored_raise|].
  apply stored_if; [apply stored_unchanged_provider | apply stored_provision_new].
Qed.

(** ** No change, no action *)

Lemma unchanged_provider_same_limit E agent oq nq w :
  limit_ne oq nq = false ->
  unchanged_provider E agent oq nq w
  = (inr (lookup_data (store w) (agent_id agent)), w).
Proof.
  intros H. unfold unchanged_provider. rewrite H, andb_false_r. reflexivity.
Qed.

(** A "privy" agent is never reconfigured. *)
Lemma unchanged_provider_privy E agent oq nq w :
  wallet_provider agent = Some "privy" ->
  unchanged_provider E agent oq nq w
  = (inr (lookup_data (store w) (agent_id agent)), w).
Proof.
  intros Hp. unfold unchanged_provider, provider_is. rewrite Hp. simpl.
  destruct (limit_ne oq nq); [|reflexivity].
  unfold bind. rewrite AgentData_get_run. now rewrite andb_false_r.
Qed.

Lemma unchanged_provider_other E agent oq nq w :
  wallet_provider agent <> Some "safe" ->
  wallet_provider agent <> Some "privy" ->
  unchanged_provider E agent oq nq w
  = (inr (lookup_data (store w) (agent_id agent)), w).
Proof.
  intros Hs Hp. unfold unchanged_provider, provider_is.
  apply opt_str_eqb_neq in Hs, Hp. rewrite Hs, Hp. reflexivity.
Qed.

Lemma provision_new_has_address E agent w :
  truthy_str (evm_wallet_address (lookup_data (store w) (agent_id agent))) = true ->
  provision_new E agent w = (inr (lookup_data (store w) (agent_id agent)), w).
Proof.
  intros H. unfold provision_new, bind. rewrite AgentData_get_run, H. reflexivity.
Qed.

(** ** The custodial adapter *)

Lemma str_eq_json_true s v : str_eq_json s v = true <-> v = JStr s.
Proof.
  destruct v; simpl; try (split; congruence).
  rewrite String.eqb_eq. split; congruence.
Qed.

Lemma str_eq_json_false s v : str_eq_json s v = false <-> v <> JStr s.
Proof.
  rewrite <- str_eq_json_true. destruct (str_eq_json s v); split; congruence.
Qed.

(** One client per agent id: asking again gives the same client and
    changes nothing. *)
Lemma get_cdp_client_memoised id w client w1 :
  get_cdp_client id w = (inr client, w1) ->
  get_cdp_client id w1 = (inr client, w1).
Proof.
  unfold get_cdp_client, bind, gets, set_clients, modify, ret.
  destruct (_clients w !! id) as [c|] eqn:Hc.
  - intros [= <- <-]. now rewrite Hc.
  - intros [= <- <-]. simpl. now rewrite lookup_insert_eq.
Qed.

(** *** The methods of a client, step by step *)

Lemma in_world_run {A} (m : M World A) self w :
  in_world m (self, w) = (fst (m w), (self, snd (m w))).
Proof. unfold in_world. cbn [fst snd]. now destruct (m w). Qed.

Lemma call_run {A} e (answer : list Event -> Exc + A) w :
  call e answer w =
    (answer (trace w),
     {| store := store w; agents := agents w; _clients := _clients w;
        trace := trace w ++ [e] |}).
Proof. unfold call, bind, gets, emit, modify, lift. simpl. now destruct (answer _). Qed.

Lemma AgentData_save_run E r w :
  AgentData_save E r w =
    match agent_data_save E (trace w) r with
    | inl e => (inl e, logged w [EvSave r])
    | inr _ =>
        (inr tt, {| store := <[data_id r := r]> (store w); agents := agents w;
                    _clients := _clients w; trace := trace w ++ [EvSave r] |})
    end.
Proof.
  unfold AgentData_save, bind. rewrite call_run.
  now destruct (agent_data_save E (trace w) r).
Qed.

(** The two constructors: the configuration is assigned once it is built,
    the provider once it is built. *)
Lemma build_wallet_provider_run E config self w :
  build_wallet_provider E config (self, w) =
    match CdpEvmServerWalletProviderConfig_init E config with
    | inl e => (inl e, (self, w))
    | inr _ =>
        match CdpEvmServerWalletProvider_init E (trace w) config with
        | inl e => (inl e, (with_config self config, logged w [EvCdpWalletProvider config]))
        | inr _ =>
            (inr config, (with_provider self config, logged w [EvCdpWalletProvider config]))
        end
    end.
Proof.
  unfold build_wallet_provider, bind at 1, lift.
  destruct (CdpEvmServerWalletProviderConfig_init E config); [reflexivity|].
  unfold bind at 1, set_wallet_provider_config, modify. cbn [fst snd].
  unfold bind at 1. rewrite in_world_run, call_run. cbn [fst snd].
  destruct (CdpEvmServerWalletProvider_init E (trace w) config); reflexivity.
Qed.

Lemma load_wallet_provider_run E agent self w :
  load_wallet_provider E agent (self, w) =
    let data := lookup_data (store w) (_agent_id self) in
    if truthy_str (evm_wallet_address data) then
      build_wallet_provider E (provider_config E agent (evm_wallet_address data)) (self, w)
    else
      match create_or_migrate E agent data (evm_wallet_address data) w with
      | (inl e, w') => (inl e, (self, w'))
      | (inr address, w') =>
          build_wallet_provider E (provider_config E agent address) (self, w')
      end.
Proof.
  unfold load_wallet_provider, bind at 1, gets. cbn [fst].
  unfold bind at 1. rewrite in_world_run, AgentData_get_run. cbn [fst snd]. cbv zeta.
  destruct (truthy_str (evm_wallet_address _)); cbn [negb].
  - reflexivity.
  - unfold bind at 1. rewrite in_world_run.
    destruct (create_or_migrate E agent _ _ w) as [[e|address] w']; reflexivity.
Qed.

Lemma get_wallet_provider_memo E self w p :
  _wallet_provider self = Some p ->
  get_wallet_provider E (self, w) = (inr p, (self, w)).
Proof. intros H. unfold get_wallet_provider, bind, gets. cbn [fst]. now rewrite H. Qed.

Lemma get_wallet_provider_no_agent E self w :
  _wallet_provider self = None ->
  agents w !! _agent_id self = None ->
  get_wallet_provider E (self, w) = (inl AttributeError, (self, w)).
Proof.
  intros H Ha. unfold get_wallet_provider, bind at 1, gets. cbn [fst]. rewrite H.
  unfold bind at 1. cbn [snd]. now rewrite Ha.
Qed.

Lemma get_wallet_provider_load E self w agent :
  _wallet_provider self = None ->
  agents w !! _agent_id self = Some agent ->
  get_wallet_provider E (self, w) = load_wallet_provider E agent (self, w).
Proof.
  intros H Ha. unfold get_wallet_provider, bind at 1, gets. cbn [fst]. rewrite H.
  unfold bind at 1. cbn [snd]. now rewrite Ha.
Qed.

(** With an address in the record the adapter goes straight to the
    constructors: it creates and imports nothing and does not write. *)
Lemma load_wallet_provider_has_address E agent self w :
  truthy_str (evm_wallet_address (lookup_data (store w) (_agent_id self))) = true ->
  load_wallet_provider E agent (self, w)
  = build_wallet_provider E
      (provider_config E agent (evm_wallet_address (lookup_data (store w) (_agent_id self))))
      (self, w).
Proof. intros H. rewrite load_wallet_provider_run. cbv zeta. now rewrite H. Qed.

(** What the constructors leave, whatever they answer. *)
Lemma build_wallet_provider_effects E config self w res self' w' :
  build_wallet_provider E config (self, w) = (res, (self', w')) ->
  store w' = store w /\
  List.filter is_cdp_creation (trace w') = List.filter is_cdp_creation (trace w) /\
  (CdpEvmServerWalletProviderConfig_init E config = inr tt ->
   CdpEvmServerWalletProvider_init E (trace w) config = inr tt ->
   res = inr config /\ _wallet_provider self' = Some config).
Proof.
  rewrite build_wallet_provider_run.
  destruct (CdpEvmServerWalletProviderConfig_init E config) as [e|[]].
  { intros [= <- <- <-]. repeat split; discriminate. }
  destruct (CdpEvmServerWalletProvider_init E (trace w) config) as [e|[]];
    intros [= <- <- <-]; cbn [logged store trace];
    rewrite List.filter_app, app_nil_r; repeat split; discriminate.
Qed.

(** C1 (as amended): once a call has returned a record with an address, a
    second call with the same agent configuration (the provider it names as
    the previous one is the current one, or none was set; the previous
    limit is the current limit), for a limit that is not a nan or an agent
    that is not a "safe" agent, returns that record and leaves the world as
    it was, so no service is called and nothing is written. And
    [get_wallet_provider] then returns its memoised provider with the world
    untouched, or goes to the constructors with the stored address: it
    leaves the store as it is and calls neither [create_account] nor
    [import_account], and when the two constructors succeed it returns the
    provider of the stored address. *)
Theorem provisioning_idempotent E agent old0 limit0 w r w1 old :
  process_agent_wallet E agent old0 limit0 w = (inr r, w1) ->
  truthy_str (evm_wallet_address r) = true ->
  old = None \/ old = Some "none" \/ old = wallet_provider agent ->
  weekly_spending_limit agent <> Some NaN \/ wallet_provider agent <> Some "safe" ->
  process_agent_wallet E agent old (weekly_spending_limit agent) w1 = (inr r, w1)
  /\ forall self,
       _agent_id self = agent_id agent ->
       match _wallet_provider self with
       | Some p => get_wallet_provider E (self, w1) = (inr p, (self, w1))
       | None =>
           match agents w1 !! agent_id agent with
           | None => get_wallet_provider E (self, w1) = (inl AttributeError, (self, w1))
           | Some stored_agent =>
               let config := provider_config E stored_agent (evm_wallet_address r) in
               exists res self' w2,
                 get_wallet_provider E (self, w1) = (res, (self', w2)) /\
                 store w2 = store w1 /\
                 List.filter is_cdp_creation (trace w2)
                 = List.filter is_cdp_creation (trace w1) /\
                 (CdpEvmServerWalletProviderConfig_init E config = inr tt ->
                  CdpEvmServerWalletProvider_init E (trace w1) config = inr tt ->
                  res = inr config /\ _wallet_provider self' = Some config)
           end
       end.
Proof.
  intros Hfirst Haddr Hold Hnan.
  pose proof (process_agent_wallet_stored _ _ _ _ _ _ _ Hfirst) as Hr.
  destruct (process_agent_wallet_returns _ _ _ _ _ _ _ Hfirst) as (oq & nq & _ & Hn).
  split.
  - rewrite (process_agent_wallet_quantized _ _ _ _ _ _ _ Hn Hn).
    destruct (provider_was_set old) eqn:Hset; simpl.
    + assert (Heq : old = wallet_provider agent).
      { apply provider_was_set_true in Hset as (o & -> & Hne).
        destruct Hold as [[=] | [[= ->] | Heq]]; [now destruct Hne | exact Heq]. }
      apply opt_str_eqb_eq in Heq. rewrite Heq. simpl.
      destruct (limit_ne nq nq) eqn:Hl.
      * assert (Hq : nq = Some DecimalNaN).
        { destruct nq as [[m|]|]; simpl in Hl;
            [now rewrite Z.eqb_refl in Hl | reflexivity | discriminate]. }
        subst nq. apply quantize_opt_nan in Hn.
        destruct Hnan as [Hnan | Hsafe]; [contradiction|].
        destruct (wallet_provider agent) as [p|] eqn:Hp.
        -- destruct (String.eqb_spec p "privy") as [->|Hnp].
           ++ rewrite unchanged_provider_privy by assumption. now rewrite Hr.
           ++ rewrite unchanged_provider_other; [now rewrite Hr | congruence | congruence].
        -- rewrite unchanged_provider_other; [now rewrite Hr | congruence | congruence].
      * rewrite unchanged_provider_same_limit by assumption. now rewrite Hr.
    + rewrite provision_new_has_address; rewrite Hr; auto.
  - intros self Hid.
    destruct (_wallet_provider self) as [p|] eqn:Hmemo.
    { now apply get_wallet_provider_memo. }
    rewrite <- Hid.
    destruct (agents w1 !! _agent_id self) as [stored_agent|] eqn:Hagent.
    2: { now apply get_wallet_provider_no_agent. }
    cbv zeta.
    rewrite (get_wallet_provider_load _ _ _ _ Hmemo Hagent).
    rewrite load_wallet_provider_has_address by (now rewrite Hid, Hr).
    rewrite Hid, Hr.
    destruct (build_wallet_provider E (provider_config E stored_agent (evm_wallet_address r))
                (self, w1)) as [res [self' w2]] eqn:Hrun.
    exists res, self', w2. split; [reflexivity|].
    eapply build_wallet_provider_effects, Hrun.
Qed.

Lemma provisioning_idempotent_witness :
  process_agent_wallet (sample_env (Some "key")) (sample_agent "cdp" (Some (Finite f100)))
    (Some "cdp") (Some (Finite f100))
    (snd (process_agent_wallet (sample_env (Some "key"))
            (sample_agent "cdp" (Some (Finite f100))) None None empty_world))
  = (inr (sample_data (Some "0xC3") None None),
     snd (process_agent_wallet (sample_env (Some "key"))
            (sample_agent "cdp" (Some (Finite f100))) None None empty_world)).
Proof.
  refine (proj1 (provisioning_idempotent (sample_env (Some "key"))
                   (sample_agent "cdp" (Some (Finite f100))) None None empty_world _ _
                   (Some "cdp") _ _ _ _)).
  - vm_compute. reflexivity.
  - reflexivity.
  - right. right. reflexivity.
  - left. discriminate.
Defined.

(** The world that the first provisioning of the sample "cdp" agent
    leaves: one account created, the client closed, the address saved, the
    provider loaded and memoised. *)
Example first_cdp_provisioning :
  let config :=
    {| cfg_api_key_id := Some "key"; cfg_api_key_secret := Some "secret";
       cfg_network_id := Some "base-mainnet"; cfg_address := Some "0xC3";
       cfg_wallet_secret := Some "wallet-secret" |} in
  snd (process_agent_wallet (sample_env (Some "key"))
         (sample_agent "cdp" (Some (Finite f100))) None None empty_world)
  = {| store := {[ "agent-123" := sample_data (Some "0xC3") None None ]};
       agents := ∅;
       _clients := {[ "agent-123" := with_provider (new_client "agent-123") config ]};
       trace := [EvCdpCreateAccount "agent-123"; EvCdpClose;
                 EvSave (sample_data (Some "0xC3") None None);
                 EvCdpWalletProvider config] |}.
Proof. vm_compute. reflexivity. Qed.

(** A "safe" agent whose limit is a nan: the limit differs from itself,
    so a second call with the same configuration calls the orchestrator
    again. *)
Lemma nan_limit_is_reconfigured :
  ~ (forall E agent old0 limit0 w r w1,
        process_agent_wallet E agent old0 limit0 w = (inr r, w1) ->
        truthy_str (evm_wallet_address r) = true ->
        process_agent_wallet E agent (wallet_provider agent) (weekly_spending_limit agent) w1
        = (inr r, w1)).
Proof.
  intros H.
  specialize (H (sample_env None) (sample_agent "safe" (Some NaN)) None None
                (sample_world "safe" (Some NaN) (sample_data (Some "0x02") None (Some "privy")))
                _ _ eq_refl eq_refl).
  apply (f_equal (fun x => trace (snd x))) in H. vm_compute in H. discriminate H.
Qed.

(** ** The weekly limit *)

(** C9 (as amended): the previous and the current limit are compared
    after both are quantized to six decimals, half to even; when the two
    quantized values are equal ([old_limit != new_limit] is false, which a
    NaN never is) and the provider is unchanged, the stored record is
    returned and the world is left as it was. *)
Theorem equal_quantized_limits_no_update E agent o old_limit w oq nq :
  o <> "none" ->
  Some o = wallet_provider agent ->
  quantize_opt old_limit = inr oq ->
  quantize_opt (weekly_spending_limit agent) = inr nq ->
  limit_ne oq nq = false ->
  process_agent_wallet E agent (Some o) old_limit w
  = (inr (lookup_data (store w) (agent_id agent)), w).
Proof.
  intros Hnone Heq Ho Hn Hl.
  rewrite (process_agent_wallet_quantized _ _ _ _ _ _ _ Ho Hn).
  assert (Hset : provider_was_set (Some o) = true)
    by (apply provider_was_set_true; eauto).
  apply opt_str_eqb_eq in Heq. rewrite Hset, Heq. simpl.
  now apply unchanged_provider_same_limit.
Qed.

(** 100.0000001 and 100.0000004 are both 100.000000 after quantization. *)
Lemma equal_quantized_limits_no_update_witness :
  process_agent_wallet (sample_env None)
    (sample_agent "safe" (Some (Finite {| coef := 1000000004; exp := -7 |})))
    (Some "safe") (Some (Finite {| coef := 1000000001; exp := -7 |}))
    (sample_world "safe" None (sample_data (Some "0x02") None (Some "privy")))
  = (inr (sample_data (Some "0x02") None (Some "privy")),
     sample_world "safe" None (sample_data (Some "0x02") None (Some "privy"))).
Proof.
  exact (equal_quantized_limits_no_update (sample_env None)
           (sample_agent "safe" (Some (Finite {| coef := 1000000004; exp := -7 |}))) "safe"
           (Some (Finite {| coef := 1000000001; exp := -7 |}))
           (sample_world "safe" None (sample_data (Some "0x02") None (Some "privy")))
           (Some (Millionths 100000000)) (Some (Millionths 100000000))
           ltac:(discriminate) eq_refl eq_refl eq_refl eq_refl).
Defined.

(** 4e-07 and 6e-07 differ by 2e-07, and quantize to 0.000000 and
    0.000001: the limit counts as changed and the Safe is reconfigured. *)
Lemma close_limits_still_update :
  ~ (forall E agent o old new w,
        o <> "none" -> Some o = wallet_provider agent ->
        weekly_spending_limit agent = Some (Finite new) ->
        differ_by_less_than_a_millionth old new ->
        process_agent_wallet E agent (Some o) (Some (Finite old)) w
        = (inr (lookup_data (store w) (agent_id agent)), w)).
Proof.
  intros H.
  specialize (H (sample_env None) (sample_agent "safe" (Some (Finite f6e_07))) "safe" f4e_07 f6e_07
                (sample_world "safe" None (sample_data (Some "0x02") None (Some "privy")))
                ltac:(discriminate) eq_refl eq_refl).
  assert (Hd : differ_by_less_than_a_millionth f4e_07 f6e_07)
    by (vm_compute; reflexivity).
  specialize (H Hd). apply (f_equal (fun x => trace (snd x))) in H.
  vm_compute in H. discriminate H.
Qed.

(** The update path of a "safe" agent whose record holds a Privy wallet. *)
Lemma unchanged_provider_safe_update E agent oq nq w kv wd :
  let data := lookup_data (store w) (agent_id agent) in
  let wallet_id := dict_get kv "privy_wallet_id" in
  let wallet_address := dict_get kv "privy_wallet_address" in
  let network :=
    py_or (py_or (of_opt_str (network_id agent)) (dict_get kv "network_id"))
      (JStr base_mainnet) in
  let limit :=
    match weekly_spending_limit agent with
    | Some l => Some l
    | None => Some float_zero
    end in
  let fields :=
    [(FEvmWalletAddress, Some (wd_address wd));
     (FPrivyWalletData, Some (json_dumps E (wallet_json "smart_wallet_address" wd)))] in
  wallet_provider agent = Some "safe" ->
  limit_ne oq nq = true ->
  truthy_str (privy_wallet_data data) = true ->
  json_loads E (default EmptyString (privy_wallet_data data)) = Some (JDict kv) ->
  truthy wallet_id = true ->
  truthy wallet_address = true ->
  create_privy_safe_wallet E (trace w) (agent_id agent) network (chain_rpc_url E network)
    limit wallet_id wallet_address = inr wd ->
  unchanged_provider E agent oq nq w
  = (inr (fold_left set_field fields data),
     {| store := <[agent_id agent := fold_left set_field fields data]> (store w);
        agents := agents w;
        _clients := _clients w;
        trace := trace w ++
          [EvCreatePrivySafeWallet (agent_id agent) network (chain_rpc_url E network)
             limit wallet_id wallet_address;
           EvPatch (agent_id agent) fields] |}).
Proof.
  intros data wallet_id wallet_address network limit fields
    Hsafe Hl Hdata Hjson Hid Haddr Hcall.
  unfold unchanged_provider, provider_is. rewrite Hsafe.
  change (opt_str_eqb (Some "safe") (Some "safe")) with true.
  rewrite Hl. cbn [orb andb].
  unfold bind at 1. rewrite AgentData_get_run. fold data. rewrite Hdata.
  cbn [andb]. rewrite Hjson.
  unfold bind, lift, py_get. fold wallet_id wallet_address. rewrite Hid, Haddr.
  cbn [andb]. fold network. fold limit.
  unfold call_create_privy_safe_wallet, call, bind, gets, emit, modify, lift. simpl.
  rewrite Hcall. rewrite AgentData_patch_run. simpl.
  rewrite <- app_assoc. reflexivity.
Qed.

(** For the provider "privy" a change of limit does nothing. *)
Lemma privy_limit_change_no_update E agent old_limit w oq nq :
  wallet_provider agent = Some "privy" ->
  quantize_opt old_limit = inr oq ->
  quantize_opt (weekly_spending_limit agent) = inr nq ->
  process_agent_wallet E agent (Some "privy") old_limit w
  = (inr (lookup_data (store w) (agent_id agent)), w).
Proof.
  intros Hp Ho Hn.
  rewrite (process_agent_wallet_quantized _ _ _ _ _ _ _ Ho Hn).
  rewrite Hp. simpl. now apply unchanged_provider_privy.
Qed.

(** C8 (as amended): with both limits quantized and the limit changed
    ([old_limit != new_limit]), for an unchanged provider: when it is
    "safe" and the record holds the id and the address of a Privy wallet,
    [create_privy_safe_wallet] is called once with that existing wallet, no
    key quorum and no Privy wallet is created, the address and the wallet
    data it returns are written in one patch, and the written record, which
    the store then holds, is returned; when it is "privy", nothing is
    called, nothing is written and the stored record is returned. *)
Theorem safe_limit_change_reconfigures E agent old_limit w oq nq :
  let data := lookup_data (store w) (agent_id agent) in
  quantize_opt old_limit = inr oq ->
  quantize_opt (weekly_spending_limit agent) = inr nq ->
  limit_ne oq nq = true ->
  (wallet_provider agent = Some "safe" ->
   forall kv wd,
     let wallet_id := dict_get kv "privy_wallet_id" in
     let wallet_address := dict_get kv "privy_wallet_address" in
     let network :=
       py_or (py_or (of_opt_str (network_id agent)) (dict_get kv "network_id"))
         (JStr base_mainnet) in
     let limit :=
       match weekly_spending_limit agent with
       | Some l => Some l
       | None => Some float_zero
       end in
     let wallet_data := Some (json_dumps E (wallet_json "smart_wallet_address" wd)) in
     truthy_str (privy_wallet_data data) = true ->
     json_loads E (default EmptyString (privy_wallet_data data)) = Some (JDict kv) ->
     truthy wallet_id = true ->
     truthy wallet_address = true ->
     create_privy_safe_wallet E (trace w) (agent_id agent) network (chain_rpc_url E network)
       limit wallet_id wallet_address = inr wd ->
     exists r w',
       process_agent_wallet E agent (Some "safe") old_limit w = (inr r, w') /\
       evm_wallet_address r = Some (wd_address wd) /\
       privy_wallet_data r = wallet_data /\
       cdp_wallet_data r = cdp_wallet_data data /\
       native_wallet_data r = native_wallet_data data /\
       lookup_data (store w') (agent_id agent) = r /\
       trace w' =
         (trace w ++
          [EvCreatePrivySafeWallet (agent_id agent) network (chain_rpc_url E network)
             limit wallet_id wallet_address;
           EvPatch (agent_id agent)
             [(FEvmWalletAddress, Some (wd_address wd));
              (FPrivyWalletData, wallet_data)]])%list)
  /\
  (wallet_provider agent = Some "privy" ->
   process_agent_wallet E agent (Some "privy") old_limit w = (inr data, w)).
Proof.
  intros data Ho Hn Hl. split.
  - intros Hsafe kv wd wallet_id wallet_address network limit wallet_data
      Hdata Hjson Hid Haddr Hcall.
    rewrite (process_agent_wallet_quantized _ _ _ _ _ _ _ Ho Hn).
    rewrite Hsafe. simpl.
    erewrite unchanged_provider_safe_update by eassumption.
    do 2 eexists. split; [reflexivity|]. simpl.
    repeat split. apply lookup_data_insert, lookup_data_id.
  - intros Hp. now apply (privy_limit_change_no_update _ _ _ _ oq nq).
Qed.

Lemma safe_limit_change_reconfigures_witness :
  exists r w',
    process_agent_wallet (sample_env None) (sample_agent "safe" (Some (Finite f200)))
      (Some "safe") (Some (Finite f100))
      (sample_world "safe" (Some (Finite f200))
         (sample_data (Some "0x02") None (Some "privy")))
    = (inr r, w') /\
    evm_wallet_address r = Some "0x02" /\
    privy_wallet_data r = Some "dumped" /\
    cdp_wallet_data r = None /\
    native_wallet_data r = None /\
    lookup_data (store w') "agent-123" = r /\
    trace w' =
      [EvCreatePrivySafeWallet "agent-123" (JStr "base-mainnet") (Some "http://rpc.url")
         (Some (Finite f200)) (JStr "privy-wallet-1") (JStr "0x01");
       EvPatch "agent-123"
         [(FEvmWalletAddress, Some "0x02"); (FPrivyWalletData, Some "dumped")]].
Proof.
  exact (proj1 (safe_limit_change_reconfigures (sample_env None)
                  (sample_agent "safe" (Some (Finite f200))) (Some (Finite f100))
                  (sample_world "safe" (Some (Finite f200))
                     (sample_data (Some "0x02") None (Some "privy")))
                  (Some (Millionths 100000000)) (Some (Millionths 200000000))
                  eq_refl eq_refl eq_refl)
           eq_refl
           [("privy_wallet_id", JStr "privy-wallet-1");
            ("privy_wallet_address", JStr "0x01");
            ("network_id", JStr "base-mainnet")]
           {| wd_address := "0x02"; wd_items := [("status", JStr "limit_configured")] |}
           eq_refl eq_refl eq_refl eq_refl eq_refl).
Defined.

(** A "privy" agent whose limit goes from 100.0 to 200.0: no call to the
    orchestrator is made. *)
Lemma privy_limit_change_not_reconfigured :
  ~ (forall E agent o old_limit w oq nq,
        (wallet_provider agent = Some "safe" \/ wallet_provider agent = Some "privy") ->
        Some o = wallet_provider agent ->
        quantize_opt old_limit = inr oq ->
        quantize_opt (weekly_spending_limit agent) = inr nq ->
        oq <> nq ->
        existsb is_safe_orchestration
          (trace (snd (process_agent_wallet E agent (Some o) old_limit w))) = true).
Proof.
  intros H.
  specialize (H (sample_env None) (sample_agent "privy" (Some (Finite f200))) "privy" (Some (Finite f100))
                (sample_world "privy" (Some (Finite f200))
                   (sample_data (Some "0x01") None (Some "privy")))
                (Some (Millionths 100000000)) (Some (Millionths 200000000))
                ltac:(now right) eq_refl eq_refl eq_refl ltac:(discriminate)).
  vm_compute in H. discriminate H.
Qed.

(** ** A "cdp" agent without credentials *)

Lemma provision_new_cdp_no_key E agent w :
  wallet_provider agent = Some "cdp" ->
  truthy_str (config_cdp_api_key_id E) = false ->
  provision_new E agent w = (inr (lookup_data (store w) (agent_id agent)), w).
Proof.
  intros Hp Hkey. unfold provision_new, bind. rewrite AgentData_get_run.
  destruct (truthy_str (evm_wallet_address _)); [reflexivity|].
  rewrite Hkey, Hp. reflexivity.
Qed.

(** C10 (as amended): for an agent of provider "cdp" whose record has no
    address, with no [cdp_api_key_id] configured, a call that passes the
    quantization of its limits and the provider test (no provider was set
    before, or it was "cdp") returns the stored record, still without an
    address, and leaves the world as it was: no service is called, nothing
    is written, nothing is raised. *)
Theorem cdp_without_api_key_is_noop E agent old old_limit w oq nq :
  wallet_provider agent = Some "cdp" ->
  truthy_str (evm_wallet_address (lookup_data (store w) (agent_id agent))) = false ->
  truthy_str (config_cdp_api_key_id E) = false ->
  old = None \/ old = Some "none" \/ old = Some "cdp" ->
  quantize_opt old_limit = inr oq ->
  quantize_opt (weekly_spending_limit agent) = inr nq ->
  process_agent_wallet E agent old old_limit w
  = (inr (lookup_data (store w) (agent_id agent)), w)
  /\ truthy_str (evm_wallet_address (lookup_data (store w) (agent_id agent))) = false.
Proof.
  intros Hp Haddr Hkey Hold Ho Hn. split; [|exact Haddr].
  rewrite (process_agent_wallet_quantized _ _ _ _ _ _ _ Ho Hn).
  destruct (provider_was_set old) eqn:Hset; simpl.
  - assert (Heq : old = wallet_provider agent).
    { apply provider_was_set_true in Hset as (o & -> & Hne).
      destruct Hold as [[=] | [[= ->] | ->]]; [now destruct Hne | now rewrite Hp]. }
    apply opt_str_eqb_eq in Heq. rewrite Heq. simpl.
    apply unchanged_provider_other; rewrite Hp; discriminate.
  - now apply provision_new_cdp_no_key.
Qed.

Lemma cdp_without_api_key_is_noop_witness :
  process_agent_wallet (sample_env None) (sample_agent "cdp" None) None None empty_world
  = (inr (lookup_data (store empty_world) "agent-123"), empty_world)
  /\ truthy_str (evm_wallet_address (lookup_data (store empty_world) "agent-123")) = false.
Proof.
  exact (cdp_without_api_key_is_noop (sample_env None) (sample_agent "cdp" None) None None
           empty_world None None eq_refl eq_refl eq_refl (or_introl eq_refl) eq_refl eq_refl).
Defined.

(** When the provider recorded before was "readonly", the same agent is
    refused: the call raises. *)
Lemma cdp_without_api_key_may_raise :
  ~ (forall E agent old old_limit w,
        wallet_provider agent = Some "cdp" ->
        truthy_str (evm_wallet_address (lookup_data (store w) (agent_id agent))) = false ->
        truthy_str (config_cdp_api_key_id E) = false ->
        process_agent_wallet E agent old old_limit w
        = (inr (lookup_data (store w) (agent_id agent)), w)).
Proof.
  intros H.
  specialize (H (sample_env None) (sample_agent "cdp" None) (Some "readonly") None
                empty_world eq_refl eq_refl eq_refl).
  vm_compute in H. discriminate H.
Qed.

(** ** Migration of a version 1 wallet *)

(** The migration of a dictionary with a seed and a recorded address. *)
Lemma migrate_v1_seed E agent agent_data address w kv keys :
  truthy_str (cdp_wallet_data agent_data) = true ->
  json_loads E (default EmptyString (cdp_wallet_data agent_data)) = Some (JDict kv) ->
  truthy (dict_get kv "default_address_id") = true ->
  truthy (dict_get kv "seed") = true ->
  bip39_seed_to_eth_keys E (dict_get kv "seed") = inr keys ->
  migrate_v1 E agent agent_data address w =
    if str_eq_json (keys_address keys) (dict_get kv "default_address_id") then
      match cdp_import_account E (trace w) (agent_id agent) (keys_private_key keys) with
      | inl e =>
          (inl e, logged w [EvCdpImportAccount (agent_id agent) (keys_private_key keys)])
      | inr _ =>
          (inr (Some (keys_address keys)),
           logged w [EvCdpImportAccount (agent_id agent) (keys_private_key keys)])
      end
    else (inl bad_wallet_data, w).
Proof.
  intros Hblob Hjson Hdef Hseed Hkeys.
  unfold migrate_v1. rewrite Hblob, Hjson, Hdef, Hseed. cbn [andb].
  unfold bind at 1, lift. rewrite Hkeys.
  destruct (str_eq_json _ _); cbn [negb]; [|reflexivity].
  unfold bind. rewrite call_run.
  destruct (cdp_import_account E _ _ _); reflexivity.
Qed.

(** C5 (as amended): for a client without a memoised provider, when the
    record has no address and its [cdp_wallet_data] is a dictionary with a
    seed and a non-empty [default_address_id], and the seed derives keys:
    if the derived address is not the recorded one the call raises the
    bad-wallet-data error, and the client and the world are as before, so
    [import_account] was not called; if it is the recorded one and the
    import, the closing of the client and the save succeed, the derived key
    was imported under the agent's id, no account was created, the derived
    address is in the store, and when the two constructors succeed it is
    the address of the provider returned and memoised. *)
Theorem legacy_seed_is_verified E self agent w kv keys :
  let data := lookup_data (store w) (_agent_id self) in
  let import := EvCdpImportAccount (agent_id agent) (keys_private_key keys) in
  let migrated := set_evm_wallet_address data (Some (keys_address keys)) in
  let config := provider_config E agent (Some (keys_address keys)) in
  _wallet_provider self = None ->
  agents w !! _agent_id self = Some agent ->
  truthy_str (evm_wallet_address data) = false ->
  truthy_str (cdp_wallet_data data) = true ->
  json_loads E (default EmptyString (cdp_wallet_data data)) = Some (JDict kv) ->
  truthy (dict_get kv "default_address_id") = true ->
  truthy (dict_get kv "seed") = true ->
  bip39_seed_to_eth_keys E (dict_get kv "seed") = inr keys ->
  (dict_get kv "default_address_id" <> JStr (keys_address keys) ->
   get_wallet_provider E (self, w) = (inl bad_wallet_data, (self, w)))
  /\
  (dict_get kv "default_address_id" = JStr (keys_address keys) ->
   cdp_import_account E (trace w) (agent_id agent) (keys_private_key keys) = inr tt ->
   cdp_close E (trace w ++ [import]) = inr tt ->
   agent_data_save E (trace w ++ [import; EvCdpClose]) migrated = inr tt ->
   exists res self' w',
     get_wallet_provider E (self, w) = (res, (self', w')) /\
     lookup_data (store w') (_agent_id self) = migrated /\
     List.filter is_cdp_creation (trace w') =
       (List.filter is_cdp_creation (trace w) ++ [import])%list /\
     (CdpEvmServerWalletProviderConfig_init E config = inr tt ->
      CdpEvmServerWalletProvider_init E (trace w ++ [import; EvCdpClose; EvSave migrated])
        config = inr tt ->
      res = inr config /\
      cfg_address config = Some (keys_address keys) /\
      _wallet_provider self' = Some config))%list.
Proof.
  intros data import migrated config Hmemo Hagent Haddr Hblob Hjson Hdef Hseed Hkeys.
  split; [intros Hne | intros Heq Himport Hclose Hsave];
    rewrite (get_wallet_provider_load _ _ _ _ Hmemo Hagent), load_wallet_provider_run;
    cbv zeta; fold data; rewrite Haddr;
    unfold create_or_migrate; unfold bind at 1;
    rewrite (migrate_v1_seed _ _ _ _ _ _ _ Hblob Hjson Hdef Hseed Hkeys).
  - apply (str_eq_json_false (keys_address keys)) in Hne. now rewrite Hne.
  - assert (Htruthy : truthy_str (Some (keys_address keys)) = true).
    { rewrite Heq in Hdef. exact Hdef. }
    apply (str_eq_json_true (keys_address keys)) in Heq. rewrite Heq, Himport.
    fold import. unfold bind at 1. rewrite Htruthy. cbn [negb]. unfold ret at 1.
    unfold bind at 1. rewrite call_run. cbn [logged trace]. rewrite Hclose.
    unfold bind at 1. rewrite AgentData_save_run. cbn [trace].
    rewrite <- app_assoc. cbn [app]. fold migrated. rewrite Hsave. unfold ret.
    fold config.
    match goal with
    | |- context [build_wallet_provider E ?c ?st] =>
        destruct (build_wallet_provider E c st) as [res [self' w']] eqn:Hrun
    end.
    exists res, self', w'. split; [reflexivity|].
    apply build_wallet_provider_effects in Hrun as (Hstore & Htrace & Hok).
    cbn [store trace] in Hstore, Htrace, Hok.
    split.
    { rewrite Hstore.
      replace (data_id migrated) with (_agent_id self)
        by (symmetry; apply lookup_data_id).
      apply lookup_data_insert, lookup_data_id. }
    split.
    { rewrite Htrace, <- app_assoc. cbn [app].
      now rewrite List.filter_app. }
    intros Hc Hp. rewrite <- app_assoc in Hok. cbn [app] in Hok.
    destruct (Hok Hc Hp) as [-> Hself]. auto.
Qed.

Lemma legacy_seed_is_verified_witness :
  get_wallet_provider (sample_env (Some "key"))
    (new_client "agent-123",
     sample_world "cdp" None (sample_data None (Some "v1-bad") None))
  = (inl bad_wallet_data,
     (new_client "agent-123",
      sample_world "cdp" None (sample_data None (Some "v1-bad") None))).
Proof.
  refine (proj1 (legacy_seed_is_verified (sample_env (Some "key")) (new_client "agent-123")
                   (sample_agent "cdp" None)
                   (sample_world "cdp" None (sample_data None (Some "v1-bad") None))
                   [("default_address_id", JStr "0xB2"); ("seed", JStr "5eed")]
                   {| keys_private_key := "0xpk"; keys_public_key := "0xpub";
                      keys_address := "0xA1" |}
                   eq_refl eq_refl eq_refl eq_refl eq_refl eq_refl eq_refl eq_refl) _).
  discriminate.
Defined.

(** The matching blob of the sample environment is migrated. *)
Example legacy_seed_migrated :
  let w := sample_world "cdp" None (sample_data None (Some "v1-good") None) in
  let config := provider_config (sample_env (Some "key")) (sample_agent "cdp" None)
                  (Some "0xA1") in
  get_wallet_provider (sample_env (Some "key")) (new_client "agent-123", w)
  = (inr config,
     (with_provider (new_client "agent-123") config,
      {| store := {[ "agent-123" := sample_data (Some "0xA1") (Some "v1-good") None ]};
         agents := agents w;
         _clients := ∅;
         trace := [EvCdpImportAccount "agent-123" "0xpk"; EvCdpClose;
                   EvSave (sample_data (Some "0xA1") (Some "v1-good") None);
                   EvCdpWalletProvider config] |})).
Proof. vm_compute. reflexivity. Qed.

(** A blob with a seed and no recorded address: the derived address is not
    the recorded one, yet nothing is verified and nothing is raised; a new
    account is created and its address adopted. *)
Lemma seed_without_recorded_address_is_not_verified :
  ~ (forall E self agent w kv keys,
        let data := lookup_data (store w) (_agent_id self) in
        _wallet_provider self = None ->
        agents w !! _agent_id self = Some agent ->
        truthy_str (evm_wallet_address data) = false ->
        truthy_str (cdp_wallet_data data) = true ->
        json_loads E (default EmptyString (cdp_wallet_data data)) = Some (JDict kv) ->
        truthy (dict_get kv "seed") = true ->
        bip39_seed_to_eth_keys E (dict_get kv "seed") = inr keys ->
        dict_get kv "default_address_id" <> JStr (keys_address keys) ->
        fst (get_wallet_provider E (self, w)) = inl bad_wallet_data).
Proof.
  intros H.
  specialize (H seed_only_env (new_client "agent-123") (sample_agent "cdp" None)
                (sample_world "cdp" None (sample_data None (Some "v1-no-address") None))
                [("seed", JStr "5eed")]
                {| keys_private_key := "0xpk"; keys_public_key := "0xpub";
                   keys_address := "0xA1" |}
                eq_refl eq_refl eq_refl eq_refl eq_refl eq_refl eq_refl
                ltac:(discriminate)).
  vm_compute in H. discriminate H.
Qed.

(** What that call does instead: it creates an account. *)
Example seed_without_recorded_address_creates_account :
  let w := sample_world "cdp" None (sample_data None (Some "v1-no-address") None) in
  let config := provider_config seed_only_env (sample_agent "cdp" None) (Some "0xC3") in
  let res := get_wallet_provider seed_only_env (new_client "agent-123", w) in
  fst res = inr config /\
  trace (snd (snd res)) =
    [EvCdpCreateAccount "agent-123"; EvCdpClose;
     EvSave (sample_data (Some "0xC3") (Some "v1-no-address") None);
     EvCdpWalletProvider config].
Proof. vm_compute. split; reflexivity. Qed.

(** ** The Safe allowance orchestrator *)

Module PrivySafeFacts.
Import PrivySafe.

Lemma bind_run {S A B} (m : M S A) (k : A -> M S B) s a s1 :
  m s = (inr a, s1) -> bind m k s = k a s1.
Proof. intros H. unfold bind. now rewrite H. Qed.

Lemma _is_module_enabled_run network safe ch :
  _is_module_enabled network safe ch =
    (inr match safes ch !! (network, safe) with
         | Some s => module_enabled s
         | None => false
         end,
     add_call (IsModuleEnabled network safe) ch).
Proof. reflexivity. Qed.

Lemma _get_safe_nonce_run network safe ch s :
  safes ch !! (network, safe) = Some s ->
  _get_safe_nonce network safe ch
  = (inr (nonce s), add_call (GetSafeNonce network safe) ch).
Proof.
  intros H. unfold _get_safe_nonce, bind, log, modify, gets. simpl. now rewrite H.
Qed.

(** A transaction with the Safe's nonce applies and takes it to the next
    one. *)
Lemma send_safe_tx_run E c network safe effect ch s :
  safes ch !! (network, safe) = Some s ->
  send_safe_tx E c network safe (nonce s) effect ch =
    (inr (tx_hash E c),
     upd_safes (insert (network, safe)
                  {| module_enabled := module_enabled (effect s);
                     nonce := nonce s + 1;
                     allowance := allowance (effect s) |})
       (add_call c ch)).
Proof.
  intros H. unfold send_safe_tx, bind, log, modify, gets, set_safes. simpl.
  rewrite H, Z.eqb_refl. reflexivity.
Qed.

(** A transaction with another nonce reverts. *)
Lemma send_safe_tx_stale E c network safe n effect ch s :
  safes ch !! (network, safe) = Some s ->
  n <> nonce s ->
  send_safe_tx E c network safe n effect ch
  = (inl irrecoverable_chain_error, add_call c ch).
Proof.
  intros H Hn. unfold send_safe_tx, bind, log, modify, gets. simpl.
  rewrite H. destruct (Z.eqb_spec (nonce s) n); [congruence | reflexivity].
Qed.

Lemma resolve_decimals_run ch token_decimals network token d :
  resolve_decimals ch token_decimals network token = Some d ->
  exists ch1,
    match token_decimals with
    | Some d => ret d
    | None => _get_erc20_decimals network token
    end ch = (inr d, ch1) /\
    safes ch1 = safes ch /\
    calls ch1 = (calls ch ++ decimals_calls ch token_decimals network token)%list /\
    resolve_decimals ch1 token_decimals network token = Some d.
Proof.
  unfold resolve_decimals, decimals_calls.
  destruct token_decimals as [d'|].
  - intros [= ->]. exists ch. rewrite app_nil_r. auto.
  - unfold _get_erc20_decimals, bind, gets, log, modify, set_decimals_cache. simpl.
    destruct (decimals_cache ch !! (network, token)) as [d'|] eqn:Hc.
    + intros [= ->]. exists ch. rewrite app_nil_r, Hc. auto.
    + intros Hd. rewrite Hd. eexists. split; [reflexivity|]. simpl.
      rewrite lookup_insert_eq. auto.
Qed.

(** The limit setter on a deployed Safe, with a precision that resolves
    and either no nonce or the Safe's nonce: it returns, and this is what
    it leaves. *)
Lemma set_safe_token_spending_limit_run E safe token amount token_decimals network n ch s d :
  safes ch !! (network, safe) = Some s ->
  resolve_decimals ch token_decimals network token = Some d ->
  n = None \/ n = Some (nonce s) ->
  exists r ch',
    set_safe_token_spending_limit E safe token amount token_decimals network n ch
    = (inr r, ch') /\
    next_nonce r = (if module_enabled s then nonce s + 1 else nonce s + 2) /\
    safes ch' =
      <[(network, safe) :=
          {| module_enabled := true;
             nonce := next_nonce r;
             allowance := <[token := to_smallest_unit amount d]> (allowance s) |}]>
        (safes ch) /\
    calls ch' =
      (calls ch ++ limit_calls ch s safe token (to_smallest_unit amount d)
                     token_decimals network n)%list /\
    resolve_decimals ch' token_decimals network token = Some d.
Proof.
  intros Hs Hd Hn.
  destruct (resolve_decimals_run _ _ _ _ _ Hd) as (ch1 & Hrun1 & Hs1 & Hc1 & Hd1).
  unfold set_safe_token_spending_limit.
  rewrite (bind_run _ _ _ _ _ Hrun1).
  rewrite (bind_run _ _ _ _ _ (_is_module_enabled_run _ _ _)).
  rewrite Hs1, Hs.
  set (ch2 := add_call (IsModuleEnabled network safe) ch1).
  assert (Hs2 : safes ch2 !! (network, safe) = Some s) by (simpl; now rewrite Hs1).
  assert (exists ch3,
    current_nonce network safe n ch2 = (inr (nonce s), ch3) /\
    safes ch3 = safes ch /\
    resolve_decimals ch3 token_decimals network token = Some d /\
    calls ch3 = (calls ch2 ++
      match n with None => [GetSafeNonce network safe] | Some _ => [] end)%list)
    as (ch3 & Hrun3 & Hs3 & Hd3 & Hc3).
  { destruct Hn as [-> | ->]; simpl.
    - rewrite (_get_safe_nonce_run _ _ _ _ Hs2). eexists. split; [reflexivity|].
      simpl. auto.
    - exists ch2. rewrite app_nil_r. simpl. auto. }
  rewrite (bind_run _ _ _ _ _ Hrun3).
  assert (Hs3' : safes ch3 !! (network, safe) = Some s) by now rewrite Hs3.
  unfold limit_calls.
  destruct (module_enabled s) eqn:Hen.
  - unfold bind at 1, ret. unfold _set_spending_limit. cbn [snd fst].
    rewrite (bind_run _ _ _ _ _ (send_safe_tx_run _ _ _ _ _ _ _ Hs3')).
    do 2 eexists. split; [reflexivity|]. cbn -[to_smallest_unit].
    rewrite Hs3, Hc3, Hen. subst ch2. cbn -[to_smallest_unit]. rewrite Hc1.
    repeat split; auto. now rewrite <- !app_assoc.
  - unfold _enable_allowance_module.
    unfold bind at 1.
    unfold bind at 1. rewrite (send_safe_tx_run _ _ _ _ _ _ _ Hs3'). unfold ret.
    cbn [snd fst].
    set (s1 := {| module_enabled := _; nonce := nonce s + 1; allowance := _ |}).
    set (ch4 := upd_safes _ _).
    assert (Hs4 : safes ch4 !! (network, safe) = Some s1)
      by (subst ch4; simpl; apply lookup_insert_eq).
    unfold _set_spending_limit.
    change (nonce s + 1) with (nonce s1) at 2.
    rewrite (bind_run _ _ _ _ _ (send_safe_tx_run _ _ _ _ _ _ _ Hs4)).
    do 2 eexists. split; [reflexivity|]. cbn -[to_smallest_unit].
    rewrite Hs3, Hc3. subst ch2. cbn -[to_smallest_unit]. rewrite Hc1.
    rewrite insert_insert_eq.
    repeat split; auto.
    + lia.
    + now rewrite <- !app_assoc.
Qed.

Lemma filter_decimals_calls (f : Call -> bool) ch token_decimals network token :
  f (Erc20Decimals network token) = false ->
  List.filter f (decimals_calls ch token_decimals network token) = [].
Proof.
  intros Hf. unfold decimals_calls.
  destruct token_decimals; [reflexivity|].
  destruct (decimals_cache ch !! (network, token)); [reflexivity|].
  simpl. now rewrite Hf.
Qed.

Lemma filter_is_enable_limit_calls ch s safe token amount token_decimals network n :
  List.filter is_enable (limit_calls ch s safe token amount token_decimals network n)
  = if module_enabled s then [] else [EnableAllowanceModule network safe (nonce s)].
Proof.
  unfold limit_calls. rewrite List.filter_app, filter_decimals_calls by reflexivity.
  destruct n, (module_enabled s); reflexivity.
Qed.

Lemma filter_is_set_limit_limit_calls ch s safe token amount token_decimals network n :
  List.filter is_set_limit (limit_calls ch s safe token amount token_decimals network n)
  = [SetSpendingLimit network safe token amount
       (if module_enabled s then nonce s else nonce s + 1)].
Proof.
  unfold limit_calls. rewrite List.filter_app, filter_decimals_calls by reflexivity.
  destruct n, (module_enabled s); reflexivity.
Qed.

Lemma filter_is_nonce_query_limit_calls ch s safe token amount token_decimals network n :
  List.filter is_nonce_query (limit_calls ch s safe token amount token_decimals network n)
  = match n with None => [GetSafeNonce network safe] | Some _ => [] end.
Proof.
  unfold limit_calls. rewrite List.filter_app, filter_decimals_calls by reflexivity.
  destruct n, (module_enabled s); reflexivity.
Qed.

(** C7: a call of the limit setter on a deployed Safe, with a nonce that
    is the Safe's or none, sends exactly one set-limit transaction, whose
    amount is the human-readable amount in the smallest unit of the token
    at the precision the call resolved (given, cached, or read on chain),
    computed on integers: [coef * 10 ^ (exp + decimals)] whenever the amount
    has no digit below the smallest unit. The Safe then holds this amount
    as the limit of the token. *)
Theorem limit_amount_in_smallest_unit
    E safe token amount token_decimals network n ch s d :
  safes ch !! (network, safe) = Some s ->
  resolve_decimals ch token_decimals network token = Some d ->
  n = None \/ n = Some (nonce s) ->
  exists r ch' new m s',
    set_safe_token_spending_limit E safe token amount token_decimals network n ch
    = (inr r, ch') /\
    calls ch' = (calls ch ++ new)%list /\
    List.filter is_set_limit new
    = [SetSpendingLimit network safe token (to_smallest_unit amount d) m] /\
    (0 <= exp amount + d ->
     to_smallest_unit amount d = coef amount * 10 ^ (exp amount + d)) /\
    safes ch' !! (network, safe) = Some s' /\
    allowance s' !! token = Some (to_smallest_unit amount d).
Proof.
  intros Hs Hd Hn.
  destruct (set_safe_token_spending_limit_run E safe token amount _ _ _ _ _ _ Hs Hd Hn)
    as (r & ch' & Hrun & _ & Hsafes & Hcalls & _).
  exists r, ch'. eexists. eexists. eexists.
  split; [exact Hrun|]. split; [exact Hcalls|].
  split; [apply filter_is_set_limit_limit_calls|].
  split.
  - intros Hrep. unfold to_smallest_unit.
    destruct (Z.leb_spec 0 (exp amount + d)); [reflexivity | lia].
  - rewrite Hsafes, lookup_insert_eq. split; [reflexivity|]. simpl.
    apply lookup_insert_eq.
Qed.

(** 100.0 at the six decimals read on chain is 100000000. *)
Lemma limit_amount_in_smallest_unit_witness :
  exists r ch' new m s',
    set_safe_token_spending_limit test_safe_env test_safe_address test_token f100 None
      "test-network" (Some 3) (test_chain (Some (test_safe true 3)) 0)
    = (inr r, ch') /\
    calls ch' = (calls (test_chain (Some (test_safe true 3)) 0) ++ new)%list /\
    List.filter is_set_limit new
    = [SetSpendingLimit "test-network" test_safe_address test_token 100000000 m] /\
    (0 <= exp f100 + 6 -> to_smallest_unit f100 6 = coef f100 * 10 ^ (exp f100 + 6)) /\
    safes ch' !! ("test-network", test_safe_address) = Some s' /\
    allowance s' !! test_token = Some 100000000.
Proof.
  exact (limit_amount_in_smallest_unit test_safe_env test_safe_address test_token f100 None
           "test-network" (Some 3) (test_chain (Some (test_safe true 3)) 0)
           (test_safe true 3) 6 eq_refl eq_refl (or_intror eq_refl)).
Defined.

Example to_smallest_unit_100 : to_smallest_unit f100 6 = 100000000.
Proof. reflexivity. Qed.

Example to_smallest_unit_250 : to_smallest_unit {| coef := 2500; exp := -1 |} 6 = 250000000.
Proof. reflexivity. Qed.

Example to_smallest_unit_123_45 :
  to_smallest_unit {| coef := 12345; exp := -2 |} 6 = 123450000.
Proof. reflexivity. Qed.

(** C6: two calls of the limit setter in a row for one token of one
    deployed Safe, each with no nonce or with the nonce the Safe is at (for
    the second, the [next_nonce] of the first): both return; the first sends
    an enable-module transaction only if the module was not enabled, the
    second sends none; each sends one set-limit transaction and returns the
    nonce of that transaction plus one; after the second the limit of the
    token is the second amount. *)
Theorem sequential_limits_overwrite
    E safe token amount1 amount2 token_decimals network n1 n2 ch s d :
  let next1 := if module_enabled s then nonce s + 1 else nonce s + 2 in
  safes ch !! (network, safe) = Some s ->
  resolve_decimals ch token_decimals network token = Some d ->
  n1 = None \/ n1 = Some (nonce s) ->
  n2 = None \/ n2 = Some next1 ->
  exists r1 ch1 new1 r2 ch2 new2 s2,
    set_safe_token_spending_limit E safe token amount1 token_decimals network n1 ch
    = (inr r1, ch1) /\
    set_safe_token_spending_limit E safe token amount2 token_decimals network n2 ch1
    = (inr r2, ch2) /\
    calls ch1 = (calls ch ++ new1)%list /\
    calls ch2 = (calls ch1 ++ new2)%list /\
    List.filter is_enable new1
    = (if module_enabled s then [] else [EnableAllowanceModule network safe (nonce s)]) /\
    List.filter is_enable new2 = [] /\
    List.filter is_set_limit new1
    = [SetSpendingLimit network safe token (to_smallest_unit amount1 d)
         (next_nonce r1 - 1)] /\
    List.filter is_set_limit new2
    = [SetSpendingLimit network safe token (to_smallest_unit amount2 d)
         (next_nonce r2 - 1)] /\
    next_nonce r1 = next1 /\
    next_nonce r2 = next1 + 1 /\
    safes ch2 !! (network, safe) = Some s2 /\
    allowance s2 !! token = Some (to_smallest_unit amount2 d).
Proof.
  intros next1 Hs Hd Hn1 Hn2.
  destruct (set_safe_token_spending_limit_run E safe token amount1 _ _ _ _ _ _ Hs Hd Hn1)
    as (r1 & ch1 & Hrun1 & Hnext1 & Hsafes1 & Hcalls1 & Hd1).
  fold next1 in Hnext1.
  set (s1 := {| module_enabled := true; nonce := next_nonce r1;
                allowance := <[token := to_smallest_unit amount1 d]> (allowance s) |}).
  assert (Hs1 : safes ch1 !! (network, safe) = Some s1)
    by (rewrite Hsafes1; apply lookup_insert_eq).
  assert (Hn2' : n2 = None \/ n2 = Some (nonce s1)) by (simpl; now rewrite Hnext1).
  destruct (set_safe_token_spending_limit_run E safe token amount2 _ _ _ _ _ _ Hs1 Hd1 Hn2')
    as (r2 & ch2 & Hrun2 & Hnext2 & Hsafes2 & Hcalls2 & _).
  simpl in Hnext2.
  exists r1, ch1. eexists. exists r2, ch2. eexists. eexists.
  split; [exact Hrun1|]. split; [exact Hrun2|].
  split; [exact Hcalls1|]. split; [exact Hcalls2|].
  split; [apply filter_is_enable_limit_calls|].
  split; [apply filter_is_enable_limit_calls|].
  split.
  { rewrite filter_is_set_limit_limit_calls, Hnext1. subst next1.
    destruct (module_enabled s); do 2 f_equal; lia. }
  split.
  { rewrite filter_is_set_limit_limit_calls, Hnext2. simpl. do 2 f_equal. lia. }
  split; [exact Hnext1|]. split; [now rewrite Hnext2, Hnext1|].
  rewrite Hsafes2, lookup_insert_eq. split; [reflexivity|]. simpl.
  apply lookup_insert_eq.
Qed.

(** The two calls of the test: the module is enabled at nonce 7, the
    limits are set at nonces 8 and 9, and 9 and 10 are returned. *)
Lemma sequential_limits_overwrite_witness :
  exists r1 ch1 new1 r2 ch2 new2 s2,
    set_safe_token_spending_limit test_safe_env test_safe_address test_token f100
      (Some 6) "test-network" (Some 7) (test_chain (Some (test_safe false 7)) 0)
    = (inr r1, ch1) /\
    set_safe_token_spending_limit test_safe_env test_safe_address test_token
      {| coef := 2500; exp := -1 |} (Some 6) "test-network" (Some 9) ch1
    = (inr r2, ch2) /\
    calls ch1 = (calls (test_chain (Some (test_safe false 7)) 0) ++ new1)%list /\
    calls ch2 = (calls ch1 ++ new2)%list /\
    List.filter is_enable new1
    = [EnableAllowanceModule "test-network" test_safe_address 7] /\
    List.filter is_enable new2 = [] /\
    List.filter is_set_limit new1
    = [SetSpendingLimit "test-network" test_safe_address test_token 100000000
         (next_nonce r1 - 1)] /\
    List.filter is_set_limit new2
    = [SetSpendingLimit "test-network" test_safe_address test_token 250000000
         (next_nonce r2 - 1)] /\
    next_nonce r1 = 9 /\
    next_nonce r2 = 10 /\
    safes ch2 !! ("test-network", test_safe_address) = Some s2 /\
    allowance s2 !! test_token = Some 250000000.
Proof.
  exact (sequential_limits_overwrite test_safe_env test_safe_address test_token f100
           {| coef := 2500; exp := -1 |} (Some 6) "test-network" (Some 7) (Some 9)
           (test_chain (Some (test_safe false 7)) 0) (test_safe false 7) 6
           eq_refl eq_refl (or_intror eq_refl) (or_intror eq_refl)).
Defined.

(** The two calls of [test_set_safe_token_spending_limit_overwrites_same_token],
    call by call. *)
Example overwrite_same_token_calls :
  let first :=
    set_safe_token_spending_limit test_safe_env test_safe_address test_token f100
      (Some 6) "test-network" (Some 7) (test_chain (Some (test_safe false 7)) 0) in
  let second :=
    set_safe_token_spending_limit test_safe_env test_safe_address test_token
      {| coef := 2500; exp := -1 |} (Some 6) "test-network" (Some 9) (snd first) in
  calls (snd second)
  = [IsModuleEnabled "test-network" test_safe_address;
     EnableAllowanceModule "test-network" test_safe_address 7;
     SetSpendingLimit "test-network" test_safe_address test_token 100000000 8;
     IsModuleEnabled "test-network" test_safe_address;
     SetSpendingLimit "test-network" test_safe_address test_token 250000000 9]
  /\ fst first
     = inr {| allowance_module_enabled := true; spending_limit_configured := true;
              tx_hashes := [("enable_module", "0xEnableTx");
                            ("set_spending_limit", "0xLimitTx")];
              next_nonce := 9 |}
  /\ fst second
     = inr {| allowance_module_enabled := true; spending_limit_configured := true;
              tx_hashes := [("set_spending_limit", "0xLimitTx")];
              next_nonce := 10 |}.
Proof. vm_compute. repeat split. Qed.

(** Two tokens on a Safe whose module is enabled: one set-limit
    transaction for each, no enable-module transaction. *)
Example two_tokens_calls :
  let usdc := usdc_address test_chain_config in
  let first :=
    set_safe_token_spending_limit test_safe_env test_safe_address test_token
      {| coef := 100; exp := -1 |} (Some 6) "test-network" (Some 1)
      (test_chain (Some (test_safe true 1)) 0) in
  let second :=
    set_safe_token_spending_limit test_safe_env test_safe_address usdc
      {| coef := 200; exp := -1 |} (Some 6) "test-network" (Some 2) (snd first) in
  List.filter is_safe_tx (calls (snd second))
  = [SetSpendingLimit "test-network" test_safe_address test_token 10000000 1;
     SetSpendingLimit "test-network" test_safe_address usdc 20000000 2].
Proof. vm_compute. reflexivity. Qed.

(** A nonce that is not the Safe's makes the transaction revert. *)
Example stale_nonce_reverts :
  fst (set_safe_token_spending_limit test_safe_env test_safe_address test_token f100
         (Some 6) "test-network" (Some 4) (test_chain (Some (test_safe true 5)) 0))
  = inl irrecoverable_chain_error.
Proof. vm_compute. reflexivity. Qed.

(** ** Deployment *)

Lemma log_run c ch : log c ch = (inr tt, add_call c ch).
Proof. reflexivity. Qed.

Lemma is_deployed_run network safe ch :
  is_deployed network safe ch =
    (inr (bool_decide (is_Some (safes ch !! (network, safe)))),
     add_call (IsDeployed network safe) ch).
Proof. reflexivity. Qed.

(** A pending deployment is seen by a poll that has enough tries left. *)
Lemma _wait_for_safe_deployed_pending network safe p :
  forall polls ch,
    safes ch !! (network, safe) = None ->
    pending ch !! (network, safe) = Some (S p) ->
    (S p < polls)%nat ->
    exists ch',
      _wait_for_safe_deployed polls network safe ch = (inr tt, ch') /\
      safes ch' = <[(network, safe) := fresh_safe]> (safes ch) /\
      erc20 ch' = erc20 ch /\
      decimals_cache ch' = decimals_cache ch /\
      exists new,
        calls ch' = (calls ch ++ new)%list /\
        forall f : Call -> bool,
          f (IsDeployed network safe) = false -> List.filter f new = [].
Proof.
  induction p as [|p IH]; intros polls ch Hs Hp Hlt.
  - destruct polls as [|[|polls]]; [lia | lia |].
    cbn [_wait_for_safe_deployed].
    rewrite (bind_run _ _ _ _ _ (is_deployed_run _ _ _)).
    rewrite Hs. rewrite bool_decide_eq_false_2 by (intros [? [=]]).
    unfold sleep, bind at 1. unfold bind at 1, gets. cbn [pending add_call]. rewrite Hp.
    unfold bind at 1, set_pending, set_safes, modify. cbn [fst snd].
    rewrite (bind_run _ _ _ _ _ (is_deployed_run _ _ _)).
    cbn [safes upd_safes upd_pending add_call]. rewrite lookup_insert_eq.
    rewrite bool_decide_eq_true_2 by eauto.
    eexists. split; [reflexivity|]. cbn.
    repeat split. eexists. split; [now rewrite <- app_assoc|].
    intros f Hf. cbn. now rewrite Hf.
  - destruct polls as [|polls]; [lia|].
    cbn [_wait_for_safe_deployed].
    rewrite (bind_run _ _ _ _ _ (is_deployed_run _ _ _)).
    rewrite Hs. rewrite bool_decide_eq_false_2 by (intros [? [=]]).
    unfold sleep, bind at 1. unfold bind at 1, gets. cbn [pending add_call]. rewrite Hp.
    unfold set_pending, modify.
    set (ch1 := upd_pending _ _).
    destruct (IH polls ch1) as (ch' & Hrun & Hsafes & Herc & Hcache & new & Hcalls & Hnew).
    { exact Hs. }
    { subst ch1. cbn. apply lookup_insert_eq. }
    { lia. }
    exists ch'. split; [exact Hrun|].
    rewrite Hsafes, Herc, Hcache. repeat split.
    exists (IsDeployed network safe :: new). split.
    + rewrite Hcalls. subst ch1. cbn. now rewrite <- app_assoc.
    + intros f Hf. cbn. rewrite Hf. now apply Hnew.
Qed.

(** A deployment whose latency is below the number of polls is confirmed. *)
Lemma deploy_then_wait E network owner safe ch :
  safes ch !! (network, safe) = None ->
  (latency ch < max_polls E)%nat ->
  exists ch1 ch2,
    _deploy_safe E network owner safe ch
    = (inr (tx_hash E (DeploySafe network owner safe)), ch1) /\
    _wait_for_safe_deployed (max_polls E) network safe ch1 = (inr tt, ch2) /\
    deployed_from network owner safe ch ch2.
Proof.
  intros Hs Hlt. unfold _deploy_safe, deployed_from.
  rewrite (bind_run _ _ _ _ _ (log_run (DeploySafe network owner safe) ch)).
  unfold bind at 1, gets. cbn [latency add_call].
  destruct (latency ch) as [|l] eqn:Hl.
  - unfold bind, set_safes, modify, ret.
    eexists. eexists. split; [reflexivity|].
    destruct (max_polls E) as [|polls]; [lia|].
    cbn [_wait_for_safe_deployed].
    rewrite (bind_run _ _ _ _ _ (is_deployed_run _ _ _)).
    cbn [safes upd_safes add_call]. rewrite lookup_insert_eq.
    rewrite bool_decide_eq_true_2 by eauto.
    split; [reflexivity|]. cbn. repeat split.
    eexists. split; [now rewrite <- app_assoc|].
    intros f Hf Hg. cbn. now rewrite Hg, Hf.
  - unfold bind, set_pending, modify, ret.
    set (ch1 := upd_pending _ _).
    destruct (_wait_for_safe_deployed_pending network safe l (max_polls E) ch1)
      as (ch2 & Hrun & Hsafes & Herc & Hcache & new & Hcalls & Hnew).
    { exact Hs. }
    { subst ch1. cbn. apply lookup_insert_eq. }
    { lia. }
    exists ch1, ch2. split; [reflexivity|]. split; [exact Hrun|].
    rewrite Hsafes, Herc, Hcache. repeat split.
    exists (DeploySafe network owner safe :: new). split.
    + rewrite Hcalls. subst ch1. cbn. now rewrite <- app_assoc.
    + intros f Hf Hg. cbn. rewrite Hg. now apply Hnew.
Qed.

Lemma filter_is_safe_tx_limit_calls ch s safe token amount token_decimals network n :
  List.filter is_safe_tx (limit_calls ch s safe token amount token_decimals network n)
  = ((if module_enabled s then [] else [EnableAllowanceModule network safe (nonce s)])
     ++ [SetSpendingLimit network safe token amount
           (if module_enabled s then nonce s else nonce s + 1)])%list.
Proof.
  unfold limit_calls. rewrite List.filter_app, filter_decimals_calls by reflexivity.
  destruct n, (module_enabled s); reflexivity.
Qed.

Lemma resolve_decimals_ext ch ch' token_decimals network token :
  erc20 ch' = erc20 ch ->
  decimals_cache ch' = decimals_cache ch ->
  resolve_decimals ch' token_decimals network token
  = resolve_decimals ch token_decimals network token.
Proof. intros He Hc. unfold resolve_decimals. now rewrite He, Hc. Qed.

(** C3: on a network of the registry, for a Safe that is not deployed,
    with a deployment latency below the number of polls and a stablecoin
    whose precision resolves, [deploy_safe_with_allowance] returns; the
    transactions of the Safe it sends are the enabling of the module with
    nonce 0, then the limit of the reference stablecoin with nonce 1; the
    chain is not asked for a nonce; the result is that of the limit setter
    called on the stablecoin with nonce 0 on the Safe just deployed, and its
    [next_nonce] is 2. *)
Theorem deploy_undeployed_safe E owner network amount ch chain_config d :
  let safe := predict_safe_address E owner (safe_singleton_address chain_config) in
  let usdc := usdc_address chain_config in
  CHAIN_CONFIGS E !! network = Some chain_config ->
  safes ch !! (network, safe) = None ->
  (latency ch < max_polls E)%nat ->
  resolve_decimals ch None network usdc = Some d ->
  exists r ch1 ch' new,
    deploy_safe_with_allowance E owner network amount ch = (inr r, ch') /\
    safes ch1 !! (network, safe) = Some fresh_safe /\
    set_safe_token_spending_limit E safe usdc amount None network (Some 0) ch1
    = (inr (limit r), ch') /\
    calls ch' = (calls ch ++ new)%list /\
    List.filter is_safe_tx new
    = [EnableAllowanceModule network safe 0;
       SetSpendingLimit network safe usdc (to_smallest_unit amount d) 1] /\
    List.filter is_nonce_query new = [] /\
    next_nonce (limit r) = 2 /\
    smart_wallet_address r = safe.
Proof.
  intros safe usdc Hcfg Hs Hlt Hd.
  unfold deploy_safe_with_allowance. rewrite Hcfg. fold safe usdc.
  rewrite (bind_run _ _ _ _ _ (is_deployed_run _ _ _)).
  rewrite Hs, bool_decide_eq_false_2 by (intros [? [=]]).
  set (ch0 := add_call (IsDeployed network safe) ch) in *.
  assert (Hs0 : safes ch0 !! (network, safe) = None) by exact Hs.
  assert (Hlt0 : (latency ch0 < max_polls E)%nat) by exact Hlt.
  destruct (deploy_then_wait E network owner safe ch0 Hs0 Hlt0)
    as (ch1 & ch2 & Hdeploy & Hwait & Hsafes & Herc & Hcache & new & Hcalls0 & Hnew).
  assert (Hs2 : safes ch2 !! (network, safe) = Some fresh_safe)
    by (rewrite Hsafes; apply lookup_insert_eq).
  assert (Hd2 : resolve_decimals ch2 None network usdc = Some d).
  { rewrite (resolve_decimals_ext ch0 ch2) by assumption. exact Hd. }
  destruct (set_safe_token_spending_limit_run E safe usdc amount None network (Some 0)
              ch2 fresh_safe d Hs2 Hd2 (or_intror eq_refl))
    as (r & ch' & Hrun & Hnext & _ & Hcalls' & _).
  assert (Hstart :
    bind (_deploy_safe E network owner safe)
      (fun tx => bind (_wait_for_safe_deployed (max_polls E) network safe)
                   (fun _ => ret (Some tx, 0))) ch0
    = (inr (Some (tx_hash E (DeploySafe network owner safe)), 0), ch2)).
  { rewrite (bind_run _ _ _ _ _ Hdeploy), (bind_run _ _ _ _ _ Hwait). reflexivity. }
  rewrite (bind_run _ _ _ _ _ Hstart). cbn [fst snd].
  rewrite (bind_run _ _ _ _ _ Hrun). unfold ret.
  do 4 eexists. split; [reflexivity|]. cbn [limit smart_wallet_address].
  split; [exact Hs2|]. split; [exact Hrun|].
  split.
  { rewrite Hcalls', Hcalls0. subst ch0. cbn [calls add_call].
    rewrite <- !app_assoc. reflexivity. }
  rewrite !List.filter_app. cbn [List.filter is_safe_tx is_nonce_query is_enable
    is_set_limit orb].
  rewrite !Hnew by reflexivity.
  rewrite filter_is_safe_tx_limit_calls, filter_is_nonce_query_limit_calls.
  cbn. repeat split. exact Hnext.
Qed.

(** The first deployment of the test, with a confirmation that takes two
    waits. *)
Lemma deploy_undeployed_safe_witness :
  exists r ch1 ch' new,
    deploy_safe_with_allowance test_safe_env test_owner_address "test-network" f100
      (test_chain None 2) = (inr r, ch') /\
    safes ch1 !! ("test-network", test_safe_address) = Some fresh_safe /\
    set_safe_token_spending_limit test_safe_env test_safe_address
      (usdc_address test_chain_config) f100 None "test-network" (Some 0) ch1
    = (inr (limit r), ch') /\
    calls ch' = (calls (test_chain None 2) ++ new)%list /\
    List.filter is_safe_tx new
    = [EnableAllowanceModule "test-network" test_safe_address 0;
       SetSpendingLimit "test-network" test_safe_address (usdc_address test_chain_config)
         100000000 1] /\
    List.filter is_nonce_query new = [] /\
    next_nonce (limit r) = 2 /\
    smart_wallet_address r = test_safe_address.
Proof.
  exact (deploy_undeployed_safe test_safe_env test_owner_address "test-network" f100
           (test_chain None 2) test_chain_config 6 eq_refl eq_refl
           ltac:(vm_compute; lia) eq_refl).
Defined.

Example deploy_undeployed_safe_calls :
  calls (snd (deploy_safe_with_allowance test_safe_env test_owner_address "test-network"
                f100 (test_chain None 2)))
  = [IsDeployed "test-network" test_safe_address;
     DeploySafe "test-network" test_owner_address test_safe_address;
     IsDeployed "test-network" test_safe_address;
     IsDeployed "test-network" test_safe_address;
     IsDeployed "test-network" test_safe_address;
     Erc20Decimals "test-network" (usdc_address test_chain_config);
     IsModuleEnabled "test-network" test_safe_address;
     EnableAllowanceModule "test-network" test_safe_address 0;
     SetSpendingLimit "test-network" test_safe_address (usdc_address test_chain_config)
       100000000 1].
Proof. vm_compute. reflexivity. Qed.

(** A deployment that is not confirmed within the polls fails. *)
Example deploy_not_confirmed :
  fst (deploy_safe_with_allowance test_safe_env test_owner_address "test-network" f100
         (test_chain None 5))
  = inl irrecoverable_chain_error.
Proof. vm_compute. reflexivity. Qed.

(** On a Safe that is already deployed, in any state of its module. *)
Lemma deploy_on_deployed_safe E owner network amount ch chain_config s d :
  let safe := predict_safe_address E owner (safe_singleton_address chain_config) in
  let usdc := usdc_address chain_config in
  CHAIN_CONFIGS E !! network = Some chain_config ->
  safes ch !! (network, safe) = Some s ->
  resolve_decimals ch None network usdc = Some d ->
  exists r ch' new,
    deploy_safe_with_allowance E owner network amount ch = (inr r, ch') /\
    calls ch' = (calls ch ++ new)%list /\
    List.filter is_nonce_query new = [GetSafeNonce network safe] /\
    List.filter is_safe_tx new
    = ((if module_enabled s then [] else [EnableAllowanceModule network safe (nonce s)])
       ++ [SetSpendingLimit network safe usdc (to_smallest_unit amount d)
             (if module_enabled s then nonce s else nonce s + 1)])%list /\
    next_nonce (limit r) = (if module_enabled s then nonce s + 1 else nonce s + 2) /\
    deployment_tx_hash r = None.
Proof.
  intros safe usdc Hcfg Hs Hd.
  unfold deploy_safe_with_allowance. rewrite Hcfg. fold safe usdc.
  rewrite (bind_run _ _ _ _ _ (is_deployed_run _ _ _)).
  rewrite Hs, bool_decide_eq_true_2 by eauto.
  set (ch0 := add_call (IsDeployed network safe) ch) in *.
  assert (Hs0 : safes ch0 !! (network, safe) = Some s) by exact Hs.
  set (ch1 := add_call (GetSafeNonce network safe) ch0).
  assert (Hstart :
    bind (_get_safe_nonce network safe) (fun n => ret (@None string, n)) ch0
    = (inr (None, nonce s), ch1)).
  { rewrite (bind_run _ _ _ _ _ (_get_safe_nonce_run _ _ _ _ Hs0)). reflexivity. }
  assert (Hs1 : safes ch1 !! (network, safe) = Some s) by exact Hs.
  assert (Hd1 : resolve_decimals ch1 None network usdc = Some d) by exact Hd.
  destruct (set_safe_token_spending_limit_run E safe usdc amount None network
              (Some (nonce s)) ch1 s d Hs1 Hd1 (or_intror eq_refl))
    as (r & ch' & Hrun & Hnext & _ & Hcalls' & _).
  rewrite (bind_run _ _ _ _ _ Hstart). cbn [fst snd].
  rewrite (bind_run _ _ _ _ _ Hrun). unfold ret.
  do 3 eexists. split; [reflexivity|]. cbn [limit deployment_tx_hash].
  split.
  { rewrite Hcalls'. subst ch1 ch0. cbn [calls add_call].
    rewrite <- !app_assoc. reflexivity. }
  rewrite !List.filter_app.
  rewrite filter_is_safe_tx_limit_calls, filter_is_nonce_query_limit_calls.
  cbn. repeat split. exact Hnext.
Qed.

(** C4 (as amended): for a Safe that is already deployed, whose allowance
    module is already enabled and whose nonce on chain is N,
    [deploy_safe_with_allowance] returns; it sends no deployment and no
    enable-module transaction, asks the chain for the nonce exactly once,
    sets the limit of the reference stablecoin with nonce N and returns
    [next_nonce] N + 1. *)
Theorem deploy_on_enabled_safe E owner network amount ch chain_config s d :
  let safe := predict_safe_address E owner (safe_singleton_address chain_config) in
  let usdc := usdc_address chain_config in
  CHAIN_CONFIGS E !! network = Some chain_config ->
  safes ch !! (network, safe) = Some s ->
  module_enabled s = true ->
  resolve_decimals ch None network usdc = Some d ->
  exists r ch' new,
    deploy_safe_with_allowance E owner network amount ch = (inr r, ch') /\
    calls ch' = (calls ch ++ new)%list /\
    List.filter is_nonce_query new = [GetSafeNonce network safe] /\
    List.filter is_safe_tx new
    = [SetSpendingLimit network safe usdc (to_smallest_unit amount d) (nonce s)] /\
    next_nonce (limit r) = nonce s + 1 /\
    deployment_tx_hash r = None.
Proof.
  intros safe usdc Hcfg Hs Hen Hd.
  destruct (deploy_on_deployed_safe E owner network amount ch chain_config s d Hcfg Hs Hd)
    as (r & ch' & new & Hrun & Hcalls & Hq & Htx & Hnext & Hdep).
  rewrite Hen in Htx, Hnext. eauto 10.
Qed.

(** The second deployment of the test: the Safe is at nonce 5. *)
Lemma deploy_on_enabled_safe_witness :
  exists r ch' new,
    deploy_safe_with_allowance test_safe_env test_owner_address "test-network" f100
      (test_chain (Some (test_safe true 5)) 0) = (inr r, ch') /\
    calls ch' = (calls (test_chain (Some (test_safe true 5)) 0) ++ new)%list /\
    List.filter is_nonce_query new = [GetSafeNonce "test-network" test_safe_address] /\
    List.filter is_safe_tx new
    = [SetSpendingLimit "test-network" test_safe_address (usdc_address test_chain_config)
         100000000 5] /\
    next_nonce (limit r) = 6 /\
    deployment_tx_hash r = None.
Proof.
  exact (deploy_on_enabled_safe test_safe_env test_owner_address "test-network" f100
           (test_chain (Some (test_safe true 5)) 0) test_chain_config (test_safe true 5) 6
           eq_refl eq_refl eq_refl eq_refl).
Defined.

(** A Safe that is deployed at nonce 5 with its module not enabled: the
    module is enabled with nonce 5, the limit is set with nonce 6 and 7 is
    returned. *)
Lemma deploy_on_disabled_safe_enables :
  ~ (forall E owner network amount ch chain_config s,
        CHAIN_CONFIGS E !! network = Some chain_config ->
        safes ch !! (network,
                     predict_safe_address E owner (safe_singleton_address chain_config))
        = Some s ->
        exists r ch',
          deploy_safe_with_allowance E owner network amount ch = (inr r, ch') /\
          List.filter is_enable (calls ch') = List.filter is_enable (calls ch) /\
          next_nonce (limit r) = nonce s + 1).
Proof.
  intros H.
  destruct (H test_safe_env test_owner_address "test-network" f100
              (test_chain (Some (test_safe false 5)) 0) test_chain_config
              (test_safe false 5) eq_refl eq_refl)
    as (r & ch' & Hrun & _ & Hnext).
  vm_compute in Hrun. injection Hrun as <- <-.
  vm_compute in Hnext. discriminate Hnext.
Qed.

Example deploy_on_disabled_safe_calls :
  calls (snd (deploy_safe_with_allowance test_safe_env test_owner_address "test-network"
                f100 (test_chain (Some (test_safe false 5)) 0)))
  = [IsDeployed "test-network" test_safe_address;
     GetSafeNonce "test-network" test_safe_address;
     Erc20Decimals "test-network" (usdc_address test_chain_config);
     IsModuleEnabled "test-network" test_safe_address;
     EnableAllowanceModule "test-network" test_safe_address 5;
     SetSpendingLimit "test-network" test_safe_address (usdc_address test_chain_config)
       100000000 6].
Proof. vm_compute. reflexivity. Qed.

End PrivySafeFacts.

(** * More of the code *)

(** ** The provisioner: what the other branches do *)

Lemma process_agent_wallet_new E agent old old_limit w oq nq :
  old = None \/ old = Some "none" ->
  quantize_opt old_limit = inr oq ->
  quantize_opt (weekly_spending_limit agent) = inr nq ->
  process_agent_wallet E agent old old_limit w = provision_new E agent w.
Proof.
  intros Hold Ho Hn.
  rewrite (process_agent_wallet_quantized _ _ _ _ _ _ _ Ho Hn).
  apply provider_was_set_false in Hold. now rewrite Hold.
Qed.

(** X1: when the record of the agent has an address and the provider is
    not "safe", a call leaves the world as it was whatever the previous
    provider and the limits are, also when it raises; and a record it
    returns is the stored one. The address is never assigned again. *)
Theorem address_is_never_reassigned E agent old old_limit w :
  truthy_str (evm_wallet_address (lookup_data (store w) (agent_id agent))) = true ->
  wallet_provider agent <> Some "safe" ->
  exists res,
    process_agent_wallet E agent old old_limit w = (res, w) /\
    forall r, res = inr r -> r = lookup_data (store w) (agent_id agent).
Proof.
  intros Haddr Hsafe.
  destruct (quantize_opt old_limit) as [e|oq] eqn:Ho.
  { exists (inl e). unfold process_agent_wallet, bind, lift. rewrite Ho.
    split; [reflexivity | discriminate]. }
  destruct (quantize_opt (weekly_spending_limit agent)) as [e|nq] eqn:Hn.
  { exists (inl e). unfold process_agent_wallet, bind, lift. rewrite Ho, Hn.
    split; [reflexivity | discriminate]. }
  rewrite (process_agent_wallet_quantized _ _ _ _ _ _ _ Ho Hn).
  destruct (provider_was_set old); cbn [andb].
  - destruct (opt_str_eqb old (wallet_provider agent)); cbn [negb].
    + unfold unchanged_provider.
      assert (Hs : provider_is (wallet_provider agent) "safe" = false)
        by now apply opt_str_eqb_neq.
      rewrite Hs.
      destruct (_ && _).
      * unfold bind. rewrite AgentData_get_run, andb_false_r.
        eexists. split; [reflexivity|]. now intros r [= <-].
      * eexists. split; [reflexivity|]. now intros r [= <-].
    + eexists. split; [reflexivity | discriminate].
  - rewrite provision_new_has_address by exact Haddr.
    eexists. split; [reflexivity|]. now intros r [= <-].
Qed.

Lemma address_is_never_reassigned_witness :
  exists res,
    process_agent_wallet (sample_env (Some "key")) (sample_agent "privy" (Some (Finite f200)))
      (Some "privy") (Some (Finite f100))
      (sample_world "privy" (Some (Finite f200)) (sample_data (Some "0x01") None (Some "privy")))
    = (res, sample_world "privy" (Some (Finite f200)) (sample_data (Some "0x01") None (Some "privy")))
    /\ forall r, res = inr r ->
         r = lookup_data
               (store (sample_world "privy" (Some (Finite f200))
                         (sample_data (Some "0x01") None (Some "privy"))))
               "agent-123".
Proof.
  exact (address_is_never_reassigned (sample_env (Some "key"))
           (sample_agent "privy" (Some (Finite f200))) (Some "privy") (Some (Finite f100))
           (sample_world "privy" (Some (Finite f200)) (sample_data (Some "0x01") None (Some "privy")))
           eq_refl ltac:(discriminate)).
Defined.

(** X2: a "readonly" agent without an address, provisioned for the first
    time: the only effect is one write of the address the agent declares,
    no service is called, and the record returned carries that address,
    which is none when the agent declares none. *)
Theorem readonly_copies_declared_address E agent old old_limit w oq nq :
  wallet_provider agent = Some "readonly" ->
  truthy_str (evm_wallet_address (lookup_data (store w) (agent_id agent))) = false ->
  old = None \/ old = Some "none" ->
  quantize_opt old_limit = inr oq ->
  quantize_opt (weekly_spending_limit agent) = inr nq ->
  exists r w',
    process_agent_wallet E agent old old_limit w = (inr r, w') /\
    evm_wallet_address r = readonly_wallet_address agent /\
    lookup_data (store w') (agent_id agent) = r /\
    trace w' =
      (trace w ++ [EvPatch (agent_id agent)
                     [(FEvmWalletAddress, readonly_wallet_address agent)]])%list.
Proof.
  intros Hp Haddr Hold Ho Hn.
  rewrite (process_agent_wallet_new _ _ _ _ _ _ _ Hold Ho Hn).
  unfold provision_new, bind at 1. rewrite AgentData_get_run, Haddr.
  unfold provider_is. rewrite Hp, andb_false_r.
  change (opt_str_eqb (Some "readonly") (Some "readonly")) with true. cbv iota.
  rewrite AgentData_patch_run. do 2 eexists. split; [reflexivity|]. simpl.
  split; [reflexivity|]. split; [|reflexivity].
  apply lookup_data_insert. simpl. apply lookup_data_id.
Qed.

Lemma readonly_copies_declared_address_witness :
  exists r w',
    process_agent_wallet (sample_env None) (sample_agent "readonly" None) None None
      empty_world = (inr r, w') /\
    evm_wallet_address r = Some "0x05" /\
    lookup_data (store w') "agent-123" = r /\
    trace w' = [EvPatch "agent-123" [(FEvmWalletAddress, Some "0x05")]].
Proof.
  exact (readonly_copies_declared_address (sample_env None) (sample_agent "readonly" None)
           None None empty_world None None eq_refl eq_refl (or_introl eq_refl)
           eq_refl eq_refl).
Defined.

(** X3: an agent whose provider is none of "cdp", "readonly", "safe",
    "privy" and "native" is not provisioned: a first call returns the
    stored record and changes nothing. *)
Theorem unknown_provider_is_not_provisioned E agent old old_limit w oq nq :
  Forall (fun p => wallet_provider agent <> Some p)
    ["cdp"; "readonly"; "safe"; "privy"; "native"] ->
  old = None \/ old = Some "none" ->
  quantize_opt old_limit = inr oq ->
  quantize_opt (weekly_spending_limit agent) = inr nq ->
  process_agent_wallet E agent old old_limit w
  = (inr (lookup_data (store w) (agent_id agent)), w).
Proof.
  intros Hp Hold Ho Hn.
  rewrite (process_agent_wallet_new _ _ _ _ _ _ _ Hold Ho Hn).
  unfold provision_new, bind. rewrite AgentData_get_run.
  destruct (truthy_str _); [reflexivity|].
  repeat match goal with
         | H : Forall _ (_ :: _) |- _ => apply Forall_cons_1 in H as [?%opt_str_eqb_neq H]
         end.
  unfold provider_is.
  repeat match goal with H : opt_str_eqb _ _ = false |- _ => rewrite H; clear H end.
  now rewrite andb_false_r.
Qed.

Lemma unknown_provider_is_not_provisioned_witness :
  process_agent_wallet (sample_env (Some "key")) (sample_agent "none" (Some (Finite f100))) None None
    empty_world
  = (inr (lookup_data (store empty_world) "agent-123"), empty_world).
Proof.
  refine (unknown_provider_is_not_provisioned (sample_env (Some "key"))
            (sample_agent "none" (Some (Finite f100))) None None empty_world None (Some (Millionths 100000000))
            _ (or_introl eq_refl) eq_refl eq_refl).
  repeat constructor; discriminate.
Defined.

(** ** Privy wallets *)

Lemma privy_owner_is_set agent :
  String.prefix "did:privy:" (default EmptyString (owner agent)) = true ->
  truthy_str (owner agent) = true.
Proof. destruct (owner agent) as [[|c s]|]; simpl; congruence. Qed.

(** An owner that is missing or is not a Privy identity is refused before
    anything is asked of Privy. *)
Lemma create_owner_wallet_refused E agent w :
  String.prefix "did:privy:" (default EmptyString (owner agent)) = false ->
  create_owner_wallet E agent w
  = (inl (IntentKitAPIError 400
            (if truthy_str (owner agent) then "PrivyUserIdInvalid"
             else "PrivyUserIdMissing")), w).
Proof.
  intros H. unfold create_owner_wallet. rewrite H.
  now destruct (truthy_str (owner agent)).
Qed.

(** The key quorum and the wallet of a Privy owner. *)
Lemma create_owner_wallet_run E agent w q pw :
  String.prefix "did:privy:" (default EmptyString (owner agent)) = true ->
  privy_create_key_quorum E (trace w) [default EmptyString (owner agent)]
    (owner_public_keys E) 1 (owner_display_name agent) = inr q ->
  privy_create_wallet E (trace w ++ [owner_quorum_event E agent]) q = inr pw ->
  create_owner_wallet E agent w =
    (inr (q, pw),
     {| store := store w; agents := agents w; _clients := _clients w;
        trace := trace w ++ [owner_quorum_event E agent; EvCreateWallet q] |}).
Proof.
  intros Hown Hq Hw. unfold create_owner_wallet.
  rewrite (privy_owner_is_set _ Hown), Hown. cbn [negb].
  unfold owner_quorum_event, owner_public_keys, owner_display_name in *. cbv zeta.
  unfold bind at 1. rewrite call_run, Hq.
  unfold bind. rewrite call_run. cbn [trace].
  rewrite Hw. unfold ret. cbn. now rewrite <- app_assoc.
Qed.

(** X4: a "privy" agent, or a "safe" agent whose record holds no Privy
    wallet data, without an address, whose owner is missing or is not a
    "did:privy:" identity, is refused on its first provisioning with
    PrivyUserIdMissing (no owner) or PrivyUserIdInvalid, and the world is
    left as it was: no key quorum, no wallet, no write. *)
Theorem privy_owner_is_required E agent old old_limit w oq nq :
  let data := lookup_data (store w) (agent_id agent) in
  wallet_provider agent = Some "privy"
  \/ (wallet_provider agent = Some "safe" /\ truthy_str (privy_wallet_data data) = false) ->
  truthy_str (evm_wallet_address data) = false ->
  String.prefix "did:privy:" (default EmptyString (owner agent)) = false ->
  old = None \/ old = Some "none" ->
  quantize_opt old_limit = inr oq ->
  quantize_opt (weekly_spending_limit agent) = inr nq ->
  process_agent_wallet E agent old old_limit w
  = (inl (IntentKitAPIError 400
            (if truthy_str (owner agent) then "PrivyUserIdInvalid"
             else "PrivyUserIdMissing")), w).
Proof.
  intros data Hp Haddr Hown Hold Ho Hn.
  rewrite (process_agent_wallet_new _ _ _ _ _ _ _ Hold Ho Hn).
  unfold provision_new, bind at 1. rewrite AgentData_get_run. fold data. rewrite Haddr.
  unfold provider_is.
  destruct Hp as [Hp | [Hp Hdata]]; rewrite Hp, andb_false_r.
  - change (opt_str_eqb (Some "privy") (Some "readonly")) with false.
    change (opt_str_eqb (Some "privy") (Some "safe")) with false.
    change (opt_str_eqb (Some "privy") (Some "privy")) with true. cbv iota.
    unfold provision_privy, bind. now rewrite create_owner_wallet_refused.
  - change (opt_str_eqb (Some "safe") (Some "readonly")) with false.
    change (opt_str_eqb (Some "safe") (Some "safe")) with true. cbv iota.
    unfold provision_safe, partial_privy_wallet. rewrite Hdata.
    unfold bind, ret. cbn [fst truthy negb]. now rewrite create_owner_wallet_refused.
Qed.

Lemma privy_owner_is_required_witness :
  process_agent_wallet (sample_env None)
    {| agent_id := "agent-123"; wallet_provider := Some "safe";
       weekly_spending_limit := Some (Finite f100); network_id := None; cdp_network_id := None;
       readonly_wallet_address := None; owner := Some "user_1" |}
    None None empty_world
  = (inl (IntentKitAPIError 400 "PrivyUserIdInvalid"), empty_world).
Proof.
  exact (privy_owner_is_required (sample_env None)
           {| agent_id := "agent-123"; wallet_provider := Some "safe";
              weekly_spending_limit := Some (Finite f100); network_id := None;
              cdp_network_id := None; readonly_wallet_address := None;
              owner := Some "user_1" |}
           None None empty_world None (Some (Millionths 100000000))
           (or_intror (conj eq_refl eq_refl)) eq_refl eq_refl (or_introl eq_refl)
           eq_refl eq_refl).
Defined.

(** X5: the first provisioning of a "privy" agent with a Privy owner
    creates one key quorum for that owner alone with threshold 1, one wallet
    under it, and writes the wallet's address as the agent's address; the
    Safe orchestrator is not called. *)
Theorem privy_wallet_is_the_address E agent old old_limit w oq nq q pw :
  wallet_provider agent = Some "privy" ->
  truthy_str (evm_wallet_address (lookup_data (store w) (agent_id agent))) = false ->
  String.prefix "did:privy:" (default EmptyString (owner agent)) = true ->
  old = None \/ old = Some "none" ->
  quantize_opt old_limit = inr oq ->
  quantize_opt (weekly_spending_limit agent) = inr nq ->
  privy_create_key_quorum E (trace w) [default EmptyString (owner agent)]
    (owner_public_keys E) 1 (owner_display_name agent) = inr q ->
  privy_create_wallet E (trace w ++ [owner_quorum_event E agent]) q = inr pw ->
  exists r w' data,
    process_agent_wallet E agent old old_limit w = (inr r, w') /\
    evm_wallet_address r = Some (pw_address pw) /\
    lookup_data (store w') (agent_id agent) = r /\
    trace w' =
      (trace w ++ [owner_quorum_event E agent; EvCreateWallet q;
                   EvPatch (agent_id agent)
                     [(FEvmWalletAddress, Some (pw_address pw));
                      (FPrivyWalletData, Some data)]])%list.
Proof.
  intros Hp Haddr Hown Hold Ho Hn Hq Hw.
  rewrite (process_agent_wallet_new _ _ _ _ _ _ _ Hold Ho Hn).
  unfold provision_new, bind at 1. rewrite AgentData_get_run, Haddr.
  unfold provider_is. rewrite Hp, andb_false_r.
  change (opt_str_eqb (Some "privy") (Some "readonly")) with false.
  change (opt_str_eqb (Some "privy") (Some "safe")) with false.
  change (opt_str_eqb (Some "privy") (Some "privy")) with true. cbv iota.
  unfold provision_privy, bind.
  rewrite (create_owner_wallet_run _ _ _ _ _ Hown Hq Hw). cbn [fst snd].
  rewrite AgentData_patch_run. do 3 eexists. split; [reflexivity|]. cbn.
  split; [reflexivity|]. split.
  - apply lookup_data_insert. cbn. apply lookup_data_id.
  - now rewrite <- app_assoc.
Qed.

Lemma privy_wallet_is_the_address_witness :
  exists r w' data,
    process_agent_wallet (sample_env None) (sample_agent "privy" None) None None empty_world
    = (inr r, w') /\
    evm_wallet_address r = Some "0x01" /\
    lookup_data (store w') "agent-123" = r /\
    trace w' =
      [EvCreateKeyQuorum ["did:privy:user_1"] None 1 "intentkit:agent-123";
       EvCreateWallet "quorum-1";
       EvPatch "agent-123"
         [(FEvmWalletAddress, Some "0x01"); (FPrivyWalletData, Some data)]].
Proof.
  exact (privy_wallet_is_the_address (sample_env None) (sample_agent "privy" None) None None
           empty_world None None "quorum-1" {| pw_id := "privy-wallet-1"; pw_address := "0x01" |}
           eq_refl eq_refl eq_refl (or_introl eq_refl) eq_refl eq_refl eq_refl eq_refl).
Defined.

(** ** The "safe" branch: checkpoint and recovery *)

Lemma provision_new_safe E agent w :
  wallet_provider agent = Some "safe" ->
  truthy_str (evm_wallet_address (lookup_data (store w) (agent_id agent))) = false ->
  provision_new E agent w
  = provision_safe E agent (lookup_data (store w) (agent_id agent)) w.
Proof.
  intros Hp Haddr. unfold provision_new, bind at 1. rewrite AgentData_get_run, Haddr.
  unfold provider_is. rewrite Hp, andb_false_r. reflexivity.
Qed.

(** Without wallet data in the record, the branch creates the Privy
    wallet, records it, and comes to the orchestrator with it. *)
Lemma provision_safe_fresh E agent w q pw :
  truthy_str (privy_wallet_data (lookup_data (store w) (agent_id agent))) = false ->
  String.prefix "did:privy:" (default EmptyString (owner agent)) = true ->
  privy_create_key_quorum E (trace w) [default EmptyString (owner agent)]
    (owner_public_keys E) 1 (owner_display_name agent) = inr q ->
  privy_create_wallet E (trace w ++ [owner_quorum_event E agent]) q = inr pw ->
  provision_safe E agent (lookup_data (store w) (agent_id agent)) w
  = bind (call_create_privy_safe_wallet E (agent_id agent) (JStr (safe_network agent))
            (chain_rpc_url E (JStr (safe_network agent))) (weekly_spending_limit agent)
            (JStr (pw_id pw)) (JStr (pw_address pw)))
      (fun wallet_data => AgentData_patch (agent_id agent) (safe_wallet_fields E wallet_data))
      (checkpoint E agent q pw w).
Proof.
  intros Hdata Hown Hq Hw.
  unfold provision_safe, partial_privy_wallet. rewrite Hdata.
  unfold bind at 1, ret at 1. unfold bind at 1. cbn [fst truthy negb].
  unfold bind at 1. rewrite (create_owner_wallet_run _ _ _ _ _ Hown Hq Hw).
  cbn [fst snd]. unfold bind at 1. rewrite AgentData_patch_run.
  unfold ret at 1. cbn [fst snd store agents _clients trace fold_left].
  unfold checkpoint, partial_wallet_data, safe_network.
  rewrite <- app_assoc. reflexivity.
Qed.

(** With a wallet id in the record, the branch comes to the orchestrator
    with the recorded wallet, and asks nothing of Privy. *)
Lemma provision_safe_resume E agent w kv :
  let data := lookup_data (store w) (agent_id agent) in
  truthy_str (privy_wallet_data data) = true ->
  json_loads E (default EmptyString (privy_wallet_data data)) = Some (JDict kv) ->
  truthy (dict_get kv "privy_wallet_id") = true ->
  provision_safe E agent data w
  = bind (call_create_privy_safe_wallet E (agent_id agent) (JStr (safe_network agent))
            (chain_rpc_url E (JStr (safe_network agent))) (weekly_spending_limit agent)
            (dict_get kv "privy_wallet_id") (dict_get kv "privy_wallet_address"))
      (fun wallet_data => AgentData_patch (agent_id agent) (safe_wallet_fields E wallet_data))
      w.
Proof.
  intros data Hdata Hjson Hid.
  unfold provision_safe, partial_privy_wallet. fold data. rewrite Hdata, Hjson.
  unfold bind at 1. unfold bind at 1, lift, py_get. unfold bind at 1, ret at 1.
  cbn [fst snd]. rewrite Hid. cbn [negb]. unfold bind at 1, ret at 1. reflexivity.
Qed.

(** The orchestrator raises: so does the branch, after the call. *)
Lemma safe_wallet_raises E agent wid waddr w e :
  create_privy_safe_wallet E (trace w) (agent_id agent) (JStr (safe_network agent))
    (chain_rpc_url E (JStr (safe_network agent))) (weekly_spending_limit agent) wid waddr
  = inl e ->
  bind (call_create_privy_safe_wallet E (agent_id agent) (JStr (safe_network agent))
          (chain_rpc_url E (JStr (safe_network agent))) (weekly_spending_limit agent)
          wid waddr)
    (fun wallet_data => AgentData_patch (agent_id agent) (safe_wallet_fields E wallet_data))
    w
  = (inl e,
     {| store := store w; agents := agents w; _clients := _clients w;
        trace := trace w ++ [safe_wallet_event E agent wid waddr] |}).
Proof.
  intros H. unfold bind, call_create_privy_safe_wallet. rewrite call_run, H. reflexivity.
Qed.

(** The orchestrator returns: its address and its data are written. *)
Lemma safe_wallet_returns E agent wid waddr w wd :
  create_privy_safe_wallet E (trace w) (agent_id agent) (JStr (safe_network agent))
    (chain_rpc_url E (JStr (safe_network agent))) (weekly_spending_limit agent) wid waddr
  = inr wd ->
  bind (call_create_privy_safe_wallet E (agent_id agent) (JStr (safe_network agent))
          (chain_rpc_url E (JStr (safe_network agent))) (weekly_spending_limit agent)
          wid waddr)
    (fun wallet_data => AgentData_patch (agent_id agent) (safe_wallet_fields E wallet_data))
    w
  = (inr (fold_left set_field (safe_wallet_fields E wd)
            (lookup_data (store w) (agent_id agent))),
     {| store :=
          <[agent_id agent :=
              fold_left set_field (safe_wallet_fields E wd)
                (lookup_data (store w) (agent_id agent))]> (store w);
        agents := agents w; _clients := _clients w;
        trace := trace w ++ [safe_wallet_event E agent wid waddr;
                             EvPatch (agent_id agent) (safe_wallet_fields E wd)] |}).
Proof.
  intros H. unfold bind, call_create_privy_safe_wallet. rewrite call_run, H.
  rewrite AgentData_patch_run. cbn. now rewrite <- app_assoc.
Qed.

(** X6: the first provisioning of a "safe" agent (no address, no wallet
    data, a Privy owner) whose Privy wallet is created but whose Safe
    orchestration raises: the call raises the same exception, and the store
    keeps the Privy wallet (id, address, key quorum, network, status
    "privy_created") in [privy_wallet_data], with still no address. *)
Theorem safe_failure_keeps_privy_wallet E agent old old_limit w oq nq q pw e :
  let data := lookup_data (store w) (agent_id agent) in
  wallet_provider agent = Some "safe" ->
  truthy_str (evm_wallet_address data) = false ->
  truthy_str (privy_wallet_data data) = false ->
  String.prefix "did:privy:" (default EmptyString (owner agent)) = true ->
  old = None \/ old = Some "none" ->
  quantize_opt old_limit = inr oq ->
  quantize_opt (weekly_spending_limit agent) = inr nq ->
  privy_create_key_quorum E (trace w) [default EmptyString (owner agent)]
    (owner_public_keys E) 1 (owner_display_name agent) = inr q ->
  privy_create_wallet E (trace w ++ [owner_quorum_event E agent]) q = inr pw ->
  create_privy_safe_wallet E (trace (checkpoint E agent q pw w)) (agent_id agent)
    (JStr (safe_network agent)) (chain_rpc_url E (JStr (safe_network agent)))
    (weekly_spending_limit agent) (JStr (pw_id pw)) (JStr (pw_address pw)) = inl e ->
  exists w',
    process_agent_wallet E agent old old_limit w = (inl e, w') /\
    privy_wallet_data (lookup_data (store w') (agent_id agent))
    = Some (json_dumps E (partial_wallet_data agent q pw)) /\
    evm_wallet_address (lookup_data (store w') (agent_id agent))
    = evm_wallet_address data /\
    trace w' =
      (trace (checkpoint E agent q pw w)
       ++ [safe_wallet_event E agent (JStr (pw_id pw)) (JStr (pw_address pw))])%list.
Proof.
  intros data Hp Haddr Hdata Hown Hold Ho Hn Hq Hw He.
  rewrite (process_agent_wallet_new _ _ _ _ _ _ _ Hold Ho Hn).
  rewrite (provision_new_safe _ _ _ Hp Haddr).
  rewrite (provision_safe_fresh _ _ _ _ _ Hdata Hown Hq Hw).
  rewrite (safe_wallet_raises _ _ _ _ _ _ He).
  eexists. split; [reflexivity|]. cbn [store trace checkpoint].
  rewrite lookup_data_insert by (cbn; apply lookup_data_id).
  repeat split.
Qed.

(** X7: a "safe" agent without an address whose record holds wallet data
    with a Privy wallet id is provisioned from that wallet: no key quorum
    and no wallet is created, the owner is not looked at, the orchestrator
    is called once with the recorded id and address, and the address it
    returns becomes the agent's address. *)
Theorem safe_resumes_from_recorded_wallet E agent old old_limit w oq nq kv wd :
  let data := lookup_data (store w) (agent_id agent) in
  wallet_provider agent = Some "safe" ->
  truthy_str (evm_wallet_address data) = false ->
  truthy_str (privy_wallet_data data) = true ->
  json_loads E (default EmptyString (privy_wallet_data data)) = Some (JDict kv) ->
  truthy (dict_get kv "privy_wallet_id") = true ->
  old = None \/ old = Some "none" ->
  quantize_opt old_limit = inr oq ->
  quantize_opt (weekly_spending_limit agent) = inr nq ->
  create_privy_safe_wallet E (trace w) (agent_id agent)
    (JStr (safe_network agent)) (chain_rpc_url E (JStr (safe_network agent)))
    (weekly_spending_limit agent) (dict_get kv "privy_wallet_id")
    (dict_get kv "privy_wallet_address") = inr wd ->
  exists r w',
    process_agent_wallet E agent old old_limit w = (inr r, w') /\
    evm_wallet_address r = Some (wd_address wd) /\
    lookup_data (store w') (agent_id agent) = r /\
    trace w' =
      (trace w
       ++ [safe_wallet_event E agent (dict_get kv "privy_wallet_id")
             (dict_get kv "privy_wallet_address");
           EvPatch (agent_id agent) (safe_wallet_fields E wd)])%list.
Proof.
  intros data Hp Haddr Hdata Hjson Hid Hold Ho Hn Hwd.
  rewrite (process_agent_wallet_new _ _ _ _ _ _ _ Hold Ho Hn).
  rewrite (provision_new_safe _ _ _ Hp Haddr).
  rewrite (provision_safe_resume _ _ _ _ Hdata Hjson Hid).
  rewrite (safe_wallet_returns _ _ _ _ _ _ Hwd).
  do 2 eexists. split; [reflexivity|]. cbn [store trace].
  split; [reflexivity|]. split; [|reflexivity].
  apply lookup_data_insert. rewrite set_fields_id. apply lookup_data_id.
Qed.

(** X8: failure, then retry. After a first provisioning of a "safe" agent
    that created the Privy wallet and failed in the orchestration, a second
    call on the world it left, with a [json.loads] that reads back what
    [json.dumps] wrote and an orchestrator that now returns, gives the agent
    the Safe's address; over both calls exactly one key quorum and one
    Privy wallet were created, and the orchestrator was called twice with
    the same wallet. *)
Theorem safe_retry_reuses_privy_wallet E agent w nq q pw e wd :
  let data := lookup_data (store w) (agent_id agent) in
  let w1 :=
    {| store := store (checkpoint E agent q pw w);
       agents := agents w;
       _clients := _clients w;
       trace := trace (checkpoint E agent q pw w)
                ++ [safe_wallet_event E agent (JStr (pw_id pw)) (JStr (pw_address pw))] |} in
  wallet_provider agent = Some "safe" ->
  truthy_str (evm_wallet_address data) = false ->
  truthy_str (privy_wallet_data data) = false ->
  String.prefix "did:privy:" (default EmptyString (owner agent)) = true ->
  quantize_opt (weekly_spending_limit agent) = inr nq ->
  privy_create_key_quorum E (trace w) [default EmptyString (owner agent)]
    (owner_public_keys E) 1 (owner_display_name agent) = inr q ->
  privy_create_wallet E (trace w ++ [owner_quorum_event E agent]) q = inr pw ->
  pw_id pw <> EmptyString ->
  json_dumps E (partial_wallet_data agent q pw) <> EmptyString ->
  json_loads E (json_dumps E (partial_wallet_data agent q pw))
  = Some (partial_wallet_data agent q pw) ->
  create_privy_safe_wallet E (trace (checkpoint E agent q pw w)) (agent_id agent)
    (JStr (safe_network agent)) (chain_rpc_url E (JStr (safe_network agent)))
    (weekly_spending_limit agent) (JStr (pw_id pw)) (JStr (pw_address pw)) = inl e ->
  create_privy_safe_wallet E (trace w1) (agent_id agent)
    (JStr (safe_network agent)) (chain_rpc_url E (JStr (safe_network agent)))
    (weekly_spending_limit agent) (JStr (pw_id pw)) (JStr (pw_address pw)) = inr wd ->
  process_agent_wallet E agent None None w = (inl e, w1) /\
  exists r w2,
    process_agent_wallet E agent None None w1 = (inr r, w2) /\
    evm_wallet_address r = Some (wd_address wd) /\
    List.filter is_privy_creation (trace w2)
    = (List.filter is_privy_creation (trace w)
       ++ [owner_quorum_event E agent; EvCreateWallet q])%list /\
    List.filter is_safe_orchestration (trace w2)
    = (List.filter is_safe_orchestration (trace w)
       ++ [safe_wallet_event E agent (JStr (pw_id pw)) (JStr (pw_address pw));
           safe_wallet_event E agent (JStr (pw_id pw)) (JStr (pw_address pw))])%list.
Proof.
  intros data w1 Hp Haddr Hdata Hown Hn Hq Hw Hid Hdump Hload He Hwd.
  assert (Ho : quantize_opt None = inr None) by reflexivity.
  assert (Hfirst : process_agent_wallet E agent None None w = (inl e, w1)).
  { rewrite (process_agent_wallet_new _ _ _ _ _ _ _ (or_introl eq_refl) Ho Hn).
    rewrite (provision_new_safe _ _ _ Hp Haddr).
    rewrite (provision_safe_fresh _ _ _ _ _ Hdata Hown Hq Hw).
    now rewrite (safe_wallet_raises _ _ _ _ _ _ He). }
  split; [exact Hfirst|].
  assert (Hrec : lookup_data (store w1) (agent_id agent)
                 = set_field data
                     (FPrivyWalletData,
                      Some (json_dumps E (partial_wallet_data agent q pw)))).
  { subst w1. cbn [store checkpoint].
    apply lookup_data_insert. cbn. apply lookup_data_id. }
  assert (Hnonempty : forall s, s <> EmptyString -> negb (String.eqb s EmptyString) = true).
  { intros s Hs. apply negb_true_iff, String.eqb_neq, Hs. }
  rewrite (process_agent_wallet_new _ _ _ _ _ _ _ (or_introl eq_refl) Ho Hn).
  rewrite (provision_new_safe _ _ _ Hp) by (rewrite Hrec; exact Haddr).
  rewrite (provision_safe_resume E agent w1
             [("privy_wallet_id", JStr (pw_id pw));
              ("privy_wallet_address", JStr (pw_address pw));
              ("owner_key_quorum_id", JStr q);
              ("network_id", JStr (safe_network agent));
              ("status", JStr "privy_created")]).
  2: { rewrite Hrec. cbn. now apply Hnonempty. }
  2: { rewrite Hrec. cbn. exact Hload. }
  2: { cbn. now apply Hnonempty. }
  cbn [dict_get String.eqb Ascii.eqb Bool.eqb].
  change (dict_get _ "privy_wallet_id") with (JStr (pw_id pw)).
  change (dict_get _ "privy_wallet_address") with (JStr (pw_address pw)).
  rewrite (safe_wallet_returns _ _ _ _ _ _ Hwd).
  do 2 eexists. split; [reflexivity|]. cbn [store trace].
  split; [reflexivity|].
  subst w1. cbn [trace checkpoint].
  rewrite !List.filter_app. cbn. rewrite !app_nil_r, <- ?app_assoc. split; reflexivity.
Qed.

Lemma safe_failure_keeps_privy_wallet_witness :
  exists w',
    process_agent_wallet recovering_env (sample_agent "safe" (Some (Finite f100))) None None
      empty_world = (inl (ExternalError "IrrecoverableChainError"), w') /\
    privy_wallet_data (lookup_data (store w') "agent-123") = Some "partial" /\
    evm_wallet_address (lookup_data (store w') "agent-123") = None /\
    trace w' =
      [EvCreateKeyQuorum ["did:privy:user_1"] (Some ["server-key"]) 1 "intentkit:agent-123";
       EvCreateWallet "quorum-1";
       EvPatch "agent-123" [(FPrivyWalletData, Some "partial")];
       EvCreatePrivySafeWallet "agent-123" (JStr "base-mainnet") None (Some (Finite f100))
         (JStr "privy-wallet-1") (JStr "0x01")].
Proof.
  exact (safe_failure_keeps_privy_wallet recovering_env (sample_agent "safe" (Some (Finite f100)))
           None None empty_world None (Some (Millionths 100000000)) "quorum-1"
           {| pw_id := "privy-wallet-1"; pw_address := "0x01" |}
           (ExternalError "IrrecoverableChainError")
           eq_refl eq_refl eq_refl eq_refl (or_introl eq_refl) eq_refl eq_refl
           eq_refl eq_refl eq_refl).
Defined.

(** The owner of this agent is not a Privy identity, and is not looked
    at. *)
Lemma safe_resumes_from_recorded_wallet_witness :
  exists r w',
    process_agent_wallet (sample_env None)
      {| agent_id := "agent-123"; wallet_provider := Some "safe";
         weekly_spending_limit := Some (Finite f100); network_id := None; cdp_network_id := None;
         readonly_wallet_address := None; owner := Some "user_1" |}
      None None (sample_world "safe" (Some (Finite f100)) (sample_data None None (Some "privy")))
    = (inr r, w') /\
    evm_wallet_address r = Some "0x02" /\
    lookup_data (store w') "agent-123" = r /\
    trace w' =
      [EvCreatePrivySafeWallet "agent-123" (JStr "base-mainnet") (Some "http://rpc.url")
         (Some (Finite f100)) (JStr "privy-wallet-1") (JStr "0x01");
       EvPatch "agent-123" [(FEvmWalletAddress, Some "0x02");
                            (FPrivyWalletData, Some "dumped")]].
Proof.
  exact (safe_resumes_from_recorded_wallet (sample_env None)
           {| agent_id := "agent-123"; wallet_provider := Some "safe";
              weekly_spending_limit := Some (Finite f100); network_id := None;
              cdp_network_id := None; readonly_wallet_address := None;
              owner := Some "user_1" |}
           None None (sample_world "safe" (Some (Finite f100)) (sample_data None None (Some "privy")))
           None (Some (Millionths 100000000))
           [("privy_wallet_id", JStr "privy-wallet-1");
            ("privy_wallet_address", JStr "0x01");
            ("network_id", JStr "base-mainnet")]
           {| wd_address := "0x02"; wd_items := [("status", JStr "limit_configured")] |}
           eq_refl eq_refl eq_refl eq_refl eq_refl (or_introl eq_refl) eq_refl eq_refl
           eq_refl).
Defined.

Lemma safe_retry_reuses_privy_wallet_witness :
  exists w1,
    process_agent_wallet recovering_env (sample_agent "safe" (Some (Finite f100))) None None
      empty_world = (inl (ExternalError "IrrecoverableChainError"), w1) /\
    exists r w2,
      process_agent_wallet recovering_env (sample_agent "safe" (Some (Finite f100))) None None w1
      = (inr r, w2) /\
      evm_wallet_address r = Some "0x02" /\
      List.filter is_privy_creation (trace w2)
      = [EvCreateKeyQuorum ["did:privy:user_1"] (Some ["server-key"]) 1
           "intentkit:agent-123";
         EvCreateWallet "quorum-1"] /\
      List.filter is_safe_orchestration (trace w2)
      = [EvCreatePrivySafeWallet "agent-123" (JStr "base-mainnet") None (Some (Finite f100))
           (JStr "privy-wallet-1") (JStr "0x01");
         EvCreatePrivySafeWallet "agent-123" (JStr "base-mainnet") None (Some (Finite f100))
           (JStr "privy-wallet-1") (JStr "0x01")].
Proof.
  eexists.
  exact (safe_retry_reuses_privy_wallet recovering_env (sample_agent "safe" (Some (Finite f100)))
           empty_world (Some (Millionths 100000000)) "quorum-1"
           {| pw_id := "privy-wallet-1"; pw_address := "0x01" |}
           (ExternalError "IrrecoverableChainError")
           {| wd_address := "0x02"; wd_items := [("status", JStr "limit_configured")] |}
           eq_refl eq_refl eq_refl eq_refl eq_refl eq_refl eq_refl
           ltac:(discriminate) ltac:(discriminate) eq_refl eq_refl eq_refl).
Defined.

(** ** The custodial adapter: creation, failure, memo *)

Lemma migrate_v1_skipped E agent agent_data address w :
  has_no_seed E agent_data = true ->
  migrate_v1 E agent agent_data address w = (inr address, w).
Proof.
  unfold has_no_seed, migrate_v1.
  destruct (truthy_str (cdp_wallet_data agent_data)); [|reflexivity].
  destruct (json_loads E _) as [[| | | | |kv]|]; try discriminate.
  intros H. apply negb_true_iff in H. now rewrite H.
Qed.

(** A record without an address and without a version 1 wallet: an
    account is created, the client is closed and the address is saved. *)
Lemma create_or_migrate_new E agent agent_data w a :
  let create := EvCdpCreateAccount (agent_id agent) in
  let saved := set_evm_wallet_address agent_data (Some a) in
  truthy_str (evm_wallet_address agent_data) = false ->
  has_no_seed E agent_data = true ->
  cdp_create_account E (trace w) (agent_id agent) = inr a ->
  cdp_close E (trace w ++ [create]) = inr tt ->
  agent_data_save E (trace w ++ [create; EvCdpClose]) saved = inr tt ->
  create_or_migrate E agent agent_data (evm_wallet_address agent_data) w
  = (inr (Some a),
     {| store := <[data_id agent_data := saved]> (store w);
        agents := agents w;
        _clients := _clients w;
        trace := trace w ++ [create; EvCdpClose; EvSave saved] |}).
Proof.
  intros create saved Haddr Hseed Hcreate Hclose Hsave.
  unfold create_or_migrate. unfold bind at 1.
  rewrite (migrate_v1_skipped _ _ _ _ _ Hseed), Haddr. cbn [negb].
  unfold bind at 1. unfold bind at 1. rewrite call_run, Hcreate. fold create.
  unfold ret at 1. unfold bind at 1. rewrite call_run. cbn [trace]. rewrite Hclose.
  unfold bind at 1. rewrite AgentData_save_run. cbn [trace store agents _clients].
  fold saved. rewrite <- app_assoc. cbn [app]. rewrite Hsave. unfold ret.
  rewrite <- app_assoc. cbn [app].
  replace (data_id saved) with (data_id agent_data) by reflexivity. reflexivity.
Qed.

(** X9: a client without a memoised provider, for an agent whose record
    has no address and no version 1 wallet to migrate (no [cdp_wallet_data],
    or one without a seed or without a [default_address_id]): when
    [create_account], the closing of the client, the save and the two
    constructors succeed, the call creates one account under the agent's
    id, closes the client, saves the account's address in the record,
    leaving [cdp_wallet_data] as it was, loads a provider on that address
    and on the agent's network, else its CDP network, and memoises it. *)
Theorem new_account_is_persisted E self agent w a :
  let data := lookup_data (store w) (_agent_id self) in
  let create := EvCdpCreateAccount (agent_id agent) in
  let saved := set_evm_wallet_address data (Some a) in
  let config := provider_config E agent (Some a) in
  _wallet_provider self = None ->
  agents w !! _agent_id self = Some agent ->
  truthy_str (evm_wallet_address data) = false ->
  has_no_seed E data = true ->
  cdp_create_account E (trace w) (agent_id agent) = inr a ->
  cdp_close E (trace w ++ [create]) = inr tt ->
  agent_data_save E (trace w ++ [create; EvCdpClose]) saved = inr tt ->
  CdpEvmServerWalletProviderConfig_init E config = inr tt ->
  CdpEvmServerWalletProvider_init E (trace w ++ [create; EvCdpClose; EvSave saved]) config
  = inr tt ->
  exists self' w',
    get_wallet_provider E (self, w) = (inr config, (self', w')) /\
    cfg_address config = Some a /\
    cfg_network_id config = or_str (network_id agent) (cdp_network_id agent) /\
    _wallet_provider self' = Some config /\
    _wallet_provider_config self' = Some config /\
    lookup_data (store w') (_agent_id self) = saved /\
    trace w' =
      (trace w ++ [create; EvCdpClose; EvSave saved; EvCdpWalletProvider config])%list.
Proof.
  intros data create saved config Hmemo Hagent Haddr Hseed Hcreate Hclose Hsave Hc Hp.
  rewrite (get_wallet_provider_load _ _ _ _ Hmemo Hagent), load_wallet_provider_run.
  cbv zeta. fold data. rewrite Haddr.
  rewrite (create_or_migrate_new _ _ _ _ _ Haddr Hseed Hcreate Hclose Hsave).
  fold create saved config. rewrite build_wallet_provider_run, Hc. cbn [trace]. rewrite Hp.
  do 2 eexists. split; [reflexivity|].
  cbn [with_provider logged cfg_address cfg_network_id provider_config config
       _wallet_provider _wallet_provider_config store trace].
  repeat split.
  - replace (data_id data) with (_agent_id self) by (symmetry; apply lookup_data_id).
    apply lookup_data_insert. apply lookup_data_id.
  - now rewrite <- app_assoc.
Qed.

(** A version 1 dictionary with a seed and no [default_address_id] is not
    migrated: a new account is created. *)
Lemma new_account_is_persisted_witness :
  let config :=
    {| cfg_api_key_id := Some "key"; cfg_api_key_secret := Some "secret";
       cfg_network_id := Some "base-mainnet"; cfg_address := Some "0xC3";
       cfg_wallet_secret := Some "wallet-secret" |} in
  exists self' w',
    get_wallet_provider
      seed_only_env
      (new_client "agent-123",
       sample_world "cdp" None (sample_data None (Some "v1-no-address") None))
    = (inr config, (self', w')) /\
    cfg_address config = Some "0xC3" /\
    cfg_network_id config = Some "base-mainnet" /\
    _wallet_provider self' = Some config /\
    _wallet_provider_config self' = Some config /\
    lookup_data (store w') "agent-123"
    = sample_data (Some "0xC3") (Some "v1-no-address") None /\
    trace w' =
      [EvCdpCreateAccount "agent-123"; EvCdpClose;
       EvSave (sample_data (Some "0xC3") (Some "v1-no-address") None);
       EvCdpWalletProvider config].
Proof.
  exact (new_account_is_persisted seed_only_env (new_client "agent-123") (sample_agent "cdp" None)
           (sample_world "cdp" None (sample_data None (Some "v1-no-address") None)) "0xC3"
           eq_refl eq_refl eq_refl eq_refl eq_refl eq_refl eq_refl eq_refl eq_refl).
Defined.

(** X10: when the record has no address and its [cdp_wallet_data] is not
    JSON, the call raises JSONDecodeError; when it is JSON but not a
    dictionary, it raises the invalid-format ValueError; either way before
    any account is created or imported, with the client and the world as
    they were. *)
Theorem malformed_legacy_data_is_refused E self agent w parsed :
  let data := lookup_data (store w) (_agent_id self) in
  _wallet_provider self = None ->
  agents w !! _agent_id self = Some agent ->
  truthy_str (evm_wallet_address data) = false ->
  truthy_str (cdp_wallet_data data) = true ->
  json_loads E (default EmptyString (cdp_wallet_data data)) = parsed ->
  (forall kv, parsed <> Some (JDict kv)) ->
  get_wallet_provider E (self, w)
  = (inl match parsed with
         | None => JSONDecodeError
         | Some _ => invalid_wallet_data
         end, (self, w)).
Proof.
  intros data Hmemo Hagent Haddr Hblob Hjson Hdict.
  rewrite (get_wallet_provider_load _ _ _ _ Hmemo Hagent), load_wallet_provider_run.
  cbv zeta. fold data. rewrite Haddr.
  unfold create_or_migrate. unfold bind at 1. unfold migrate_v1. rewrite Hblob, Hjson.
  destruct parsed as [[| | | | |kv]|]; try reflexivity.
  now destruct (Hdict kv).
Qed.

Lemma malformed_legacy_data_is_refused_witness :
  get_wallet_provider (sample_env (Some "key"))
    (new_client "agent-123",
     sample_world "cdp" None (sample_data None (Some "not json") None))
  = (inl JSONDecodeError,
     (new_client "agent-123",
      sample_world "cdp" None (sample_data None (Some "not json") None))).
Proof.
  exact (malformed_legacy_data_is_refused (sample_env (Some "key")) (new_client "agent-123")
           (sample_agent "cdp" None)
           (sample_world "cdp" None (sample_data None (Some "not json") None)) None
           eq_refl eq_refl eq_refl eq_refl eq_refl ltac:(discriminate)).
Defined.

(** What the constructors leave of the client. *)
Lemma build_wallet_provider_client E config self w res self' w' :
  build_wallet_provider E config (self, w) = (res, (self', w')) ->
  _agent_id self' = _agent_id self /\
  match res with
  | inr p => p = config /\ self' = with_provider self config
  | inl _ => _wallet_provider self' = _wallet_provider self
  end.
Proof.
  rewrite build_wallet_provider_run.
  destruct (CdpEvmServerWalletProviderConfig_init E config) as [e|[]].
  { intros [= <- <- <-]. auto. }
  destruct (CdpEvmServerWalletProvider_init E (trace w) config) as [e|[]];
    intros [= <- <- <-]; auto.
Qed.

Lemma load_wallet_provider_client E agent self w res self' w' :
  load_wallet_provider E agent (self, w) = (res, (self', w')) ->
  _agent_id self' = _agent_id self /\
  match res with
  | inr p => self' = with_provider self p
  | inl _ => _wallet_provider self' = _wallet_provider self
  end.
Proof.
  rewrite load_wallet_provider_run. cbv zeta.
  destruct (truthy_str _).
  - intros H. apply build_wallet_provider_client in H as [Hid H].
    split; [exact Hid|]. destruct res as [e|p]; [exact H | now destruct H as [-> ->]].
  - destruct (create_or_migrate E agent _ _ w) as [[e|address] w1].
    + intros [= <- <- <-]. auto.
    + intros H. apply build_wallet_provider_client in H as [Hid H].
      split; [exact Hid|]. destruct res as [e|p]; [exact H | now destruct H as [-> ->]].
Qed.

(** X11: when the provider constructor raises after a new account was
    created and saved, the call raises that exception, and it leaves the
    address in the store, [_wallet_provider_config] assigned and
    [_wallet_provider] empty. The account is not lost: a later call on what
    was left, under any configuration, creates and imports nothing, leaves
    the store as it is, and when the two constructors succeed it returns the
    provider of the saved address. *)
Theorem failed_construction_keeps_account E self agent w a e :
  let data := lookup_data (store w) (_agent_id self) in
  let create := EvCdpCreateAccount (agent_id agent) in
  let saved := set_evm_wallet_address data (Some a) in
  let config := provider_config E agent (Some a) in
  let self1 := with_config self config in
  let w1 :=
    {| store := <[_agent_id self := saved]> (store w);
       agents := agents w;
       _clients := _clients w;
       trace := trace w ++ [create; EvCdpClose; EvSave saved; EvCdpWalletProvider config] |} in
  _wallet_provider self = None ->
  agents w !! _agent_id self = Some agent ->
  truthy_str (evm_wallet_address data) = false ->
  has_no_seed E data = true ->
  cdp_create_account E (trace w) (agent_id agent) = inr a ->
  a <> EmptyString ->
  cdp_close E (trace w ++ [create]) = inr tt ->
  agent_data_save E (trace w ++ [create; EvCdpClose]) saved = inr tt ->
  CdpEvmServerWalletProviderConfig_init E config = inr tt ->
  CdpEvmServerWalletProvider_init E (trace w ++ [create; EvCdpClose; EvSave saved]) config
  = inl e ->
  get_wallet_provider E (self, w) = (inl e, (self1, w1)) /\
  _wallet_provider self1 = None /\
  _wallet_provider_config self1 = Some config /\
  evm_wallet_address (lookup_data (store w1) (_agent_id self)) = Some a /\
  forall E2,
    let config2 := provider_config E2 agent (Some a) in
    exists res self2 w2,
      get_wallet_provider E2 (self1, w1) = (res, (self2, w2)) /\
      store w2 = store w1 /\
      List.filter is_cdp_creation (trace w2) = List.filter is_cdp_creation (trace w1) /\
      (CdpEvmServerWalletProviderConfig_init E2 config2 = inr tt ->
       CdpEvmServerWalletProvider_init E2 (trace w1) config2 = inr tt ->
       res = inr config2 /\ _wallet_provider self2 = Some config2).
Proof.
  intros data create saved config self1 w1
    Hmemo Hagent Haddr Hseed Hcreate Ha Hclose Hsave Hc Hp.
  assert (Hstored : lookup_data (store w1) (_agent_id self) = saved).
  { cbn [w1 store]. apply lookup_data_insert. apply lookup_data_id. }
  split; [|split; [exact Hmemo|split; [reflexivity|split]]].
  - rewrite (get_wallet_provider_load _ _ _ _ Hmemo Hagent), load_wallet_provider_run.
    cbv zeta. fold data. rewrite Haddr.
    rewrite (create_or_migrate_new _ _ _ _ _ Haddr Hseed Hcreate Hclose Hsave).
    fold create saved config. rewrite build_wallet_provider_run, Hc. cbn [trace].
    rewrite Hp. unfold logged. cbn [store agents _clients trace].
    rewrite <- app_assoc. cbn [app].
    replace (data_id data) with (_agent_id self) by (symmetry; apply lookup_data_id).
    reflexivity.
  - now rewrite Hstored.
  - intros E2 config2.
    assert (Hmemo1 : _wallet_provider self1 = None) by exact Hmemo.
    assert (Hagent1 : agents w1 !! _agent_id self1 = Some agent) by exact Hagent.
    rewrite (get_wallet_provider_load _ _ _ _ Hmemo1 Hagent1).
    assert (Haddr1 : evm_wallet_address (lookup_data (store w1) (_agent_id self1)) = Some a).
    { change (_agent_id self1) with (_agent_id self). now rewrite Hstored. }
    rewrite load_wallet_provider_has_address.
    2: { rewrite Haddr1. cbn. destruct a; [now destruct Ha | reflexivity]. }
    rewrite Haddr1. fold config2.
    destruct (build_wallet_provider E2 config2 (self1, w1)) as [res [self2 w2]] eqn:Hrun.
    exists res, self2, w2. split; [reflexivity|].
    eapply build_wallet_provider_effects, Hrun.
Qed.

Lemma failed_construction_keeps_account_witness :
  let config :=
    {| cfg_api_key_id := Some "key"; cfg_api_key_secret := Some "secret";
       cfg_network_id := Some "base-mainnet"; cfg_address := Some "0xC3";
       cfg_wallet_secret := Some "wallet-secret" |} in
  fst (get_wallet_provider failing_provider_env
         (new_client "agent-123", sample_world "cdp" None (sample_data None None None)))
  = inl (ExternalError "account not found") /\
  _wallet_provider_config
    (fst (snd (get_wallet_provider failing_provider_env
                 (new_client "agent-123",
                  sample_world "cdp" None (sample_data None None None)))))
  = Some config.
Proof.
  pose proof (failed_construction_keeps_account failing_provider_env (new_client "agent-123")
                (sample_agent "cdp" None)
                (sample_world "cdp" None (sample_data None None None)) "0xC3"
                (ExternalError "account not found")
                eq_refl eq_refl eq_refl eq_refl eq_refl ltac:(discriminate)
                eq_refl eq_refl eq_refl eq_refl) as (Hrun & _ & Hcfg & _).
  rewrite Hrun. split; [reflexivity | exact Hcfg].
Defined.

(** A call that returns leaves the provider in the memo of the client. *)
Lemma returned_provider_is_in_memo E self w p self' w' :
  get_wallet_provider E (self, w) = (inr p, (self', w')) ->
  _wallet_provider self' = Some p /\
  _wallet_provider_config self' = match _wallet_provider self with
                                  | Some _ => _wallet_provider_config self
                                  | None => Some p
                                  end /\
  _agent_id self' = _agent_id self.
Proof.
  destruct (_wallet_provider self) as [p0|] eqn:Hmemo.
  { rewrite (get_wallet_provider_memo _ _ _ _ Hmemo). intros [= <- <- <-]. auto. }
  destruct (agents w !! _agent_id self) as [agent|] eqn:Hagent.
  2: { now rewrite (get_wallet_provider_no_agent _ _ _ Hmemo Hagent). }
  rewrite (get_wallet_provider_load _ _ _ _ Hmemo Hagent). intros H.
  apply load_wallet_provider_client in H as [Hid ->]. auto.
Qed.

(** A call that raises leaves the client without a provider. *)
Lemma raising_call_has_no_provider E self w e self' w' :
  get_wallet_provider E (self, w) = (inl e, (self', w')) ->
  _wallet_provider self' = None.
Proof.
  destruct (_wallet_provider self) as [p0|] eqn:Hmemo.
  { now rewrite (get_wallet_provider_memo _ _ _ _ Hmemo). }
  destruct (agents w !! _agent_id self) as [agent|] eqn:Hagent.
  2: { rewrite (get_wallet_provider_no_agent _ _ _ Hmemo Hagent).
       now intros [= <- <- <-]. }
  rewrite (get_wallet_provider_load _ _ _ _ Hmemo Hagent). intros H.
  apply load_wallet_provider_client in H as [_ H]. now rewrite H.
Qed.

(** X12: the provider a client has returned once is the one it returns
    from then on, in any world and under any configuration, without
    reading the store or calling a service: the client and the world are
    left as they are. *)
Theorem provider_is_memoised E self w p self' w' :
  get_wallet_provider E (self, w) = (inr p, (self', w')) ->
  forall E2 w2, get_wallet_provider E2 (self', w2) = (inr p, (self', w2)).
Proof.
  intros H E2 w2. apply returned_provider_is_in_memo in H as (Hmemo & _).
  now apply get_wallet_provider_memo.
Qed.

Lemma provider_is_memoised_witness :
  let config :=
    {| cfg_api_key_id := Some "key"; cfg_api_key_secret := Some "secret";
       cfg_network_id := Some "base-mainnet"; cfg_address := Some "0xC3";
       cfg_wallet_secret := Some "wallet-secret" |} in
  get_wallet_provider (sample_env None)
    (with_provider (new_client "agent-123") config,
     sample_world "readonly" None (sample_data None None None))
  = (inr config,
     (with_provider (new_client "agent-123") config,
      sample_world "readonly" None (sample_data None None None))).
Proof.
  exact (provider_is_memoised (sample_env (Some "key")) (new_client "agent-123")
           (sample_world "cdp" None (sample_data None None None)) _ _ _ eq_refl
           (sample_env None)
           (sample_world "readonly" None (sample_data None None None))).
Defined.

(** X13: on a client whose two memo fields agree, [get_provider_config]
    does what [get_wallet_provider] does: it raises when it raises, and
    otherwise returns the configuration of the provider it returns, and it
    leaves the same client and the same world in both cases. After a call
    that returns, the two fields both hold the provider returned; after a
    call that raises, the client has no provider. *)
Theorem provider_config_agrees E self w :
  _wallet_provider_config self = _wallet_provider self ->
  get_provider_config E (self, w) =
    match get_wallet_provider E (self, w) with
    | (inl e, s') => (inl e, s')
    | (inr p, s') => (inr (Some p), s')
    end
  /\ (forall p self' w',
        get_wallet_provider E (self, w) = (inr p, (self', w')) ->
        _wallet_provider self' = Some p /\ _wallet_provider_config self' = Some p)
  /\ (forall e self' w',
        get_wallet_provider E (self, w) = (inl e, (self', w')) ->
        _wallet_provider self' = None).
Proof.
  intros Hco.
  assert (Hret : forall p self' w',
             get_wallet_provider E (self, w) = (inr p, (self', w')) ->
             _wallet_provider self' = Some p /\ _wallet_provider_config self' = Some p).
  { intros p self' w' Hrun.
    pose proof Hrun as Hrun'.
    apply returned_provider_is_in_memo in Hrun as (Hp & Hcfg & _).
    split; [exact Hp|]. rewrite Hcfg.
    destruct (_wallet_provider self) as [p0|] eqn:Hmemo; [|reflexivity].
    rewrite (get_wallet_provider_memo _ _ _ _ Hmemo) in Hrun'.
    injection Hrun' as <- <- <-. now rewrite Hco. }
  split; [|split; [exact Hret | apply raising_call_has_no_provider]].
  unfold get_provider_config, bind at 1, gets. cbn [fst]. rewrite Hco.
  destruct (_wallet_provider self) as [p0|] eqn:Hmemo.
  - now rewrite (get_wallet_provider_memo _ _ _ _ Hmemo).
  - unfold bind.
    destruct (get_wallet_provider E (self, w)) as [[e|p] [self' w']] eqn:Hrun;
      [reflexivity|].
    destruct (Hret _ _ _ eq_refl) as [_ Hcfg]. cbn [fst]. now rewrite Hcfg.
Qed.

Lemma provider_config_agrees_witness :
  get_provider_config (sample_env (Some "key"))
    (new_client "agent-123", sample_world "cdp" None (sample_data (Some "0xC3") None None))
  = (inr (Some (provider_config (sample_env (Some "key")) (sample_agent "cdp" None)
                  (Some "0xC3"))),
     snd (get_wallet_provider (sample_env (Some "key"))
            (new_client "agent-123",
             sample_world "cdp" None (sample_data (Some "0xC3") None None)))).
Proof.
  exact (proj1 (provider_config_agrees (sample_env (Some "key")) (new_client "agent-123")
                  (sample_world "cdp" None (sample_data (Some "0xC3") None None)) eq_refl)).
Defined.

(** X14: [get_cdp_client] keeps one client per agent id: it returns the
    client the table holds for the id afterwards, leaves the clients of the
    other ids, the store and the trace as they were, and asked again it
    returns the same client and changes nothing. *)
Theorem one_client_per_agent id w :
  exists client w',
    get_cdp_client id w = (inr client, w') /\
    _clients w' !! id = Some client /\
    (forall id', id' <> id -> _clients w' !! id' = _clients w !! id') /\
    store w' = store w /\
    trace w' = trace w /\
    get_cdp_client id w' = (inr client, w').
Proof.
  unfold get_cdp_client, bind, gets, set_clients, modify, ret.
  destruct (_clients w !! id) as [c|] eqn:Hc.
  - exists c, w. rewrite Hc. auto 10.
  - eexists. eexists. split; [reflexivity|]. cbn.
    rewrite lookup_insert_eq. repeat split.
    intros id' Hne. now rewrite lookup_insert_ne.
Qed.

(** X15: two requests in a row for the provider of an agent through
    [get_cdp_client]: when the first returns, the second returns the same
    provider and leaves the world as the first left it, so it creates or
    imports no account and writes nothing, under any configuration. *)
Theorem second_request_creates_nothing E id w p w1 :
  client_wallet_provider E id w = (inr p, w1) ->
  forall E2, client_wallet_provider E2 id w1 = (inr p, w1).
Proof.
  unfold client_wallet_provider. intros H E2.
  apply bind_inr in H as (client & w0 & Hclient & H).
  unfold on_client in H.
  destruct (get_wallet_provider E (client, w0)) as [res [self' w2]] eqn:Hrun.
  injection H as -> <-.
  apply returned_provider_is_in_memo in Hrun as (Hmemo & _).
  unfold bind at 1, get_cdp_client, bind at 1, gets. cbn [_clients].
  rewrite lookup_insert_eq. unfold ret at 1.
  unfold on_client. rewrite (get_wallet_provider_memo _ _ _ _ Hmemo).
  cbn [store agents _clients trace].
  now rewrite insert_insert_eq.
Qed.

Lemma second_request_creates_nothing_witness :
    client_wallet_provider (sample_env None) "agent-123"
      (snd (client_wallet_provider (sample_env (Some "key")) "agent-123"
              (sample_world "cdp" None (sample_data None None None))))
    = (inr {| cfg_api_key_id := Some "key"; cfg_api_key_secret := Some "secret";
              cfg_network_id := Some "base-mainnet"; cfg_address := Some "0xC3";
              cfg_wallet_secret := Some "wallet-secret" |},
       snd (client_wallet_provider (sample_env (Some "key")) "agent-123"
              (sample_world "cdp" None (sample_data None None None)))).
Proof.
  apply (second_request_creates_nothing (sample_env (Some "key")) "agent-123"
           (sample_world "cdp" None (sample_data None None None))).
  vm_compute. reflexivity.
Defined.

(** ** The RPC URL and the limit of a token, at the level of the agent *)

Lemma chain_configs_get_error cfgs network e :
  chain_configs_get cfgs network = inl e -> e = type_error.
Proof. destruct network; simpl; congruence. Qed.

(** X16: a URL that [_resolve_safe_rpc_url] returns is never empty, and it
    is the one stored with the wallet, or the one of the chain provider, or
    the one of the table for that network. *)
Theorem resolved_rpc_url_is_usable E cfgs network kv url :
  _resolve_safe_rpc_url E cfgs network kv = inr url ->
  truthy url = true /\
  (url = dict_get kv "rpc_url"
   \/ (exists u, url = JStr u /\ chain_rpc_url E network = Some u)
   \/ (exists s u, url = JStr u /\ network = JStr s /\ cfgs !! s = Some (Some u))).
Proof.
  unfold _resolve_safe_rpc_url.
  set (stored := dict_get kv "rpc_url").
  set (first := if negb (truthy stored) then _ else stored).
  assert (Hfirst : first = stored
                   \/ exists u, first = JStr u /\ chain_rpc_url E network = Some u).
  { subst first. destruct (negb (truthy stored)); [|now left].
    destruct (chain_rpc_url E network); eauto. }
  destruct (truthy first) eqn:Ht; cbn [negb].
  - rewrite Ht. cbn [negb]. intros [= <-]. split; [exact Ht|].
    destruct Hfirst as [-> | ?]; auto.
  - destruct (chain_configs_get cfgs network) as [e|[[u2|]|]] eqn:Hcfg;
      try discriminate; try (rewrite Ht; discriminate).
    destruct (truthy (JStr u2)) eqn:Hu2; [|rewrite Ht; discriminate].
    rewrite Hu2. cbn [negb]. intros [= <-]. split; [exact Hu2|]. right. right.
    destruct network; try discriminate. injection Hcfg as Hcfg. eauto.
Qed.

Lemma resolved_rpc_url_is_usable_witness :
  truthy (JStr "http://rpc.url") = true /\
  (JStr "http://rpc.url" = dict_get [] "rpc_url"
   \/ (exists u, JStr "http://rpc.url" = JStr u
                 /\ chain_rpc_url (sample_env None) (JStr "base-mainnet") = Some u)
   \/ (exists s u, JStr "http://rpc.url" = JStr u /\ JStr "base-mainnet" = JStr s
                   /\ (∅ : gmap string (option string)) !! s = Some (Some u))).
Proof.
  exact (resolved_rpc_url_is_usable (sample_env None) ∅ (JStr "base-mainnet") []
           (JStr "http://rpc.url") eq_refl).
Defined.

(** X17: for a network given by its name, [_resolve_safe_rpc_url] raises
    RpcUrlNotConfigured exactly when no URL is stored with the wallet, the
    chain provider gives none for the network and the table has none for
    it; it raises nothing else. *)
Theorem rpc_url_not_configured_iff E cfgs s kv e :
  _resolve_safe_rpc_url E cfgs (JStr s) kv = inl e <->
  e = rpc_url_not_configured /\
  truthy (dict_get kv "rpc_url") = false /\
  truthy_str (chain_rpc_url E (JStr s)) = false /\
  truthy_str (default None (cfgs !! s)) = false.
Proof.
  unfold _resolve_safe_rpc_url, chain_configs_get.
  set (stored := dict_get kv "rpc_url").
  set (first := if negb (truthy stored) then _ else stored).
  assert (Hfirst : truthy first
                   = truthy stored || truthy_str (chain_rpc_url E (JStr s))).
  { subst first. destruct (truthy stored) eqn:Hs; [exact Hs|]. cbn [negb orb].
    destruct (chain_rpc_url E (JStr s)); [reflexivity | exact Hs]. }
  destruct (truthy first) eqn:Ht; cbn [negb].
  - rewrite Ht. cbn [negb]. symmetry in Hfirst. apply orb_true_iff in Hfirst.
    split; [discriminate|]. intros (_ & H1 & H2 & _). destruct Hfirst; congruence.
  - symmetry in Hfirst. apply orb_false_iff in Hfirst as [H1 H2].
    destruct (cfgs !! s) as [[u2|]|]; cbn [default].
    + change (truthy (JStr u2)) with (truthy_str (Some u2)).
      destruct (truthy_str (Some u2)) eqn:Hu2.
      * change (truthy (JStr u2)) with (truthy_str (Some u2)). rewrite Hu2.
        cbn [negb]. split; [discriminate | intros (_ & _ & _ & H);
                                         change (truthy_str (Some u2) = false) in H;
                                         congruence].
      * rewrite Ht. cbn [negb]. split; [intros [= <-]; auto | now intros (-> & _)].
    + rewrite Ht. cbn [negb]. split; [intros [= <-]; auto | now intros (-> & _)].
    + rewrite Ht. cbn [negb]. split; [intros [= <-]; auto | now intros (-> & _)].
Qed.

Lemma rpc_url_not_configured_iff_witness :
  _resolve_safe_rpc_url test_limit_env ∅ (JStr "base-mainnet") [("rpc_url", JStr "")]
  = inl rpc_url_not_configured.
Proof.
  exact (proj2 (rpc_url_not_configured_iff test_limit_env ∅ "base-mainnet"
                  [("rpc_url", JStr "")] rpc_url_not_configured)
           (conj eq_refl (conj eq_refl (conj eq_refl eq_refl)))).
Defined.

Lemma resolved_rpc_url_truthy E cfgs network kv url :
  _resolve_safe_rpc_url E cfgs network kv = inr url -> truthy url = true.
Proof.
  unfold _resolve_safe_rpc_url.
  match goal with
  | |- match ?x with _ => _ end = _ -> _ => destruct x as [e|r]
  end; [discriminate|].
  destruct (truthy r) eqn:H; cbn [negb]; [intros [= <-]; exact H | discriminate].
Qed.

(** A URL stored with the wallet is returned, whatever the network. *)
Lemma stored_rpc_url_wins E cfgs network kv :
  truthy (dict_get kv "rpc_url") = true ->
  _resolve_safe_rpc_url E cfgs network kv = inr (dict_get kv "rpc_url").
Proof.
  intros H. unfold _resolve_safe_rpc_url.
  repeat (rewrite H; cbn [negb]). reflexivity.
Qed.

Lemma py_subscript_found v k x :
  py_subscript v k = Found x -> exists kv, v = JDict kv /\ dict_find kv k = Some x.
Proof.
  destruct v; simpl; try discriminate.
  destruct (dict_find kv k) eqn:H; [|discriminate]. intros [= <-]. eauto.
Qed.

(** X18: [set_agent_safe_token_spending_limit] either raises one of its
    seven errors, with the state as it was and the limit setter not run, or
    it is the run of the limit setter, and then the agent exists and is a
    "safe" agent, its wallet data is a dictionary that holds the wallet id,
    the wallet address and the Safe address passed on, the token and the
    amount are passed unchanged, and the RPC URL passed is not empty. *)
Theorem limit_setter_is_guarded {S R} E cfgs (world_of : S -> World)
    (setter : SetLimitCall -> M S R) id token_address spending_limit s :
  let run :=
    set_agent_safe_token_spending_limit E cfgs world_of setter id token_address
      spending_limit s in
  (exists e, run = (inl e, s) /\ In e safe_limit_errors)
  \/ (exists args agent kv,
        run = setter args s /\
        agents (world_of s) !! id = Some agent /\
        wallet_provider agent = Some "safe" /\
        json_loads E (default EmptyString
                        (privy_wallet_data (lookup_data (store (world_of s)) id)))
        = Some (JDict kv) /\
        dict_find kv "privy_wallet_id" = Some (arg_privy_wallet_id args) /\
        dict_find kv "privy_wallet_address" = Some (arg_privy_wallet_address args) /\
        dict_find kv "smart_wallet_address" = Some (arg_safe_address args) /\
        arg_token_address args = token_address /\
        arg_spending_limit args = spending_limit /\
        truthy (arg_network_id args) = true /\
        truthy (arg_rpc_url args) = true).
Proof.
  intros run. subst run.
  unfold set_agent_safe_token_spending_limit, bind, safe_limit_call, safe_limit_errors.
  set (w := world_of s).
  destruct (agents w !! id) as [agent|] eqn:Hagent;
    [|left; eexists; split; [reflexivity | simpl; auto]].
  destruct (provider_is (wallet_provider agent) "safe") eqn:Hp; cbn [negb];
    [|left; eexists; split; [reflexivity | simpl; auto]].
  destruct (truthy_str (privy_wallet_data (lookup_data (store w) id))) eqn:Hdata;
    cbn [negb]; [|left; eexists; split; [reflexivity | simpl; auto]].
  destruct (json_loads E _) as [v|] eqn:Hjson;
    [|left; eexists; split; [reflexivity | simpl; auto 10]].
  destruct (py_subscript v "privy_wallet_id") as [x1| |] eqn:H1;
    [|left; eexists; split; [reflexivity | simpl; auto 10]..].
  destruct (py_subscript v "privy_wallet_address") as [x2| |] eqn:H2;
    [|left; eexists; split; [reflexivity | simpl; auto 10]..].
  destruct (py_subscript v "smart_wallet_address") as [x3| |] eqn:H3;
    [|left; eexists; split; [reflexivity | simpl; auto 10]..].
  apply py_subscript_found in H1 as (kv & -> & H1).
  apply py_subscript_found in H2 as (kv2 & [= <-] & H2).
  apply py_subscript_found in H3 as (kv3 & [= <-] & H3).
  destruct (_resolve_safe_rpc_url E cfgs _ kv) as [e|url] eqn:Hrpc.
  - left. exists e. split; [reflexivity|].
    unfold _resolve_safe_rpc_url in Hrpc.
    destruct (negb (truthy _)) in Hrpc.
    + destruct (chain_configs_get cfgs _) as [e'|[[u|]|]] eqn:Hcfg.
      * injection Hrpc as <-. apply chain_configs_get_error in Hcfg as ->.
        simpl. auto 10.
      * destruct (negb _) in Hrpc; [|discriminate]. injection Hrpc as <-. simpl. auto 10.
      * destruct (negb _) in Hrpc; [|discriminate]. injection Hrpc as <-. simpl. auto 10.
      * destruct (negb _) in Hrpc; [|discriminate]. injection Hrpc as <-. simpl. auto 10.
    + destruct (negb _) in Hrpc; [|discriminate]. injection Hrpc as <-. simpl. auto 10.
  - right. eexists. exists agent, kv. split; [reflexivity|]. cbn.
    apply opt_str_eqb_eq in Hp.
    apply resolved_rpc_url_truthy in Hrpc.
    repeat split; auto.
    unfold py_or.
    match goal with
    | |- truthy (if truthy ?x then _ else _) = true =>
        destruct (truthy x) eqn:Hn; [exact Hn | reflexivity]
    end.
Qed.

(** X19: for a "safe" agent whose wallet data is a dictionary with the
    wallet id, the wallet address, the Safe address, a network and an RPC
    URL, [set_agent_safe_token_spending_limit] is the limit setter run on
    exactly these recorded values: the recorded network is used whatever
    the network of the agent is, the recorded URL whatever the chain
    provider says, and no token precision is passed. *)
Theorem limit_call_uses_recorded_wallet {S R} E cfgs (world_of : S -> World)
    (setter : SetLimitCall -> M S R) id token_address spending_limit s agent kv x1 x2 x3 :
  let data := lookup_data (store (world_of s)) id in
  agents (world_of s) !! id = Some agent ->
  wallet_provider agent = Some "safe" ->
  truthy_str (privy_wallet_data data) = true ->
  json_loads E (default EmptyString (privy_wallet_data data)) = Some (JDict kv) ->
  dict_find kv "privy_wallet_id" = Some x1 ->
  dict_find kv "privy_wallet_address" = Some x2 ->
  dict_find kv "smart_wallet_address" = Some x3 ->
  truthy (dict_get kv "network_id") = true ->
  truthy (dict_get kv "rpc_url") = true ->
  set_agent_safe_token_spending_limit E cfgs world_of setter id token_address
    spending_limit s
  = setter {| arg_privy_wallet_id := x1;
              arg_privy_wallet_address := x2;
              arg_safe_address := x3;
              arg_token_address := token_address;
              arg_spending_limit := spending_limit;
              arg_network_id := dict_get kv "network_id";
              arg_rpc_url := dict_get kv "rpc_url" |} s.
Proof.
  intros data Hagent Hp Hdata Hjson H1 H2 H3 Hnet Hrpc.
  unfold set_agent_safe_token_spending_limit, bind, safe_limit_call.
  rewrite Hagent. unfold provider_is. rewrite Hp.
  change (opt_str_eqb (Some "safe") (Some "safe")) with true. cbn [negb].
  fold data. rewrite Hdata. cbn [negb]. rewrite Hjson.
  unfold py_subscript. rewrite H1, H2, H3.
  unfold py_or. rewrite !Hnet.
  now rewrite (stored_rpc_url_wins _ _ _ _ Hrpc).
Qed.

(** The call of [test_set_agent_safe_token_spending_limit_success]. *)
Lemma limit_call_uses_recorded_wallet_witness :
  set_agent_safe_token_spending_limit test_limit_env ∅ (fun w : World => w)
    (fun args w => (inr args, w)) "agent-123"
    "0x1111111111111111111111111111111111111111" (Finite f123_45) test_limit_world
  = (inr {| arg_privy_wallet_id := JStr "privy-wallet-1";
            arg_privy_wallet_address := JStr "0x0000000000000000000000000000000000000001";
            arg_safe_address := JStr "0x0000000000000000000000000000000000000002";
            arg_token_address := "0x1111111111111111111111111111111111111111";
            arg_spending_limit := Finite f123_45;
            arg_network_id := JStr "base-mainnet";
            arg_rpc_url := JStr "http://rpc.url" |},
     test_limit_world).
Proof.
  exact (limit_call_uses_recorded_wallet test_limit_env ∅ (fun w : World => w)
           (fun args w => (inr args, w)) "agent-123"
           "0x1111111111111111111111111111111111111111" (Finite f123_45) test_limit_world
           (sample_agent "safe" (Some (Finite f200))) test_wallet_data _ _ _
           eq_refl eq_refl eq_refl eq_refl eq_refl eq_refl eq_refl eq_refl eq_refl).
Defined.

(** The second test: an agent on "cdp" is refused. *)
Example limit_requires_safe_wallet :
  set_agent_safe_token_spending_limit test_limit_env ∅ (fun w : World => w)
    (fun args w => (inr args, w)) "agent-123"
    "0x1111111111111111111111111111111111111111" (Finite {| coef := 100; exp := -1 |})
    (sample_world "cdp" (Some (Finite f200)) (sample_data None None None))
  = (inl (IntentKitAPIError 400 "SafeWalletRequired"),
     sample_world "cdp" (Some (Finite f200)) (sample_data None None None)).
Proof. vm_compute. reflexivity. Qed.

(** ** The Web3 client cache *)

Module Web3Facts.
Import Web3.

(** X20: a client that [get_async_web3_client] has returned for a network
    is the one every later call returns for it, under any chain provider,
    even none, and without asking it: the state is left as it is. *)
Theorem cached_client_is_reused chain_provider network_id s client s1 :
  get_async_web3_client chain_provider network_id s = (inr client, s1) ->
  forall chain_provider2,
    get_async_web3_client chain_provider2 network_id s1 = (inr client, s1).
Proof.
  unfold get_async_web3_client, bind at 1, gets.
  destruct (_async_web3_client_cache s !! network_id) as [c|] eqn:Hc.
  - intros [= <- <-] cp2. unfold bind, gets. now rewrite Hc.
  - destruct chain_provider as [get_chain_config|]; [|discriminate].
    unfold bind, modify, lift, ret. cbn.
    destruct (get_chain_config network_id) as [e|rpc_url]; [discriminate|].
    intros [= <- <-] cp2. cbn. now rewrite lookup_insert_eq.
Qed.

Lemma cached_client_is_reused_witness :
    get_async_web3_client None "base-mainnet"
      {| _async_web3_client_cache :=
           {[ "base-mainnet" :=
                {| endpoint := Some "http://rpc.url";
                   retry_errors :=
                     ["aiohttp.ClientError"; "asyncio.TimeoutError"; "TimeoutError"];
                   retries := 5 |} ]};
         asked := ["base-mainnet"] |}
    = (inr {| endpoint := Some "http://rpc.url";
              retry_errors := ["aiohttp.ClientError"; "asyncio.TimeoutError"; "TimeoutError"];
              retries := 5 |},
       {| _async_web3_client_cache :=
            {[ "base-mainnet" :=
                 {| endpoint := Some "http://rpc.url";
                    retry_errors :=
                      ["aiohttp.ClientError"; "asyncio.TimeoutError"; "TimeoutError"];
                    retries := 5 |} ]};
          asked := ["base-mainnet"] |}).
Proof.
  exact (cached_client_is_reused (Some (fun _ => inr (Some "http://rpc.url")))
           "base-mainnet" {| _async_web3_client_cache := ∅; asked := [] |} _ _ eq_refl None).
Defined.

(** X21: a call that raises caches nothing: the network had no client and
    still has none, and the cache is as it was, so the next call asks the
    chain provider again. *)
Theorem failed_lookup_caches_nothing chain_provider network_id s e s1 :
  get_async_web3_client chain_provider network_id s = (inl e, s1) ->
  _async_web3_client_cache s1 = _async_web3_client_cache s /\
  _async_web3_client_cache s1 !! network_id = None.
Proof.
  unfold get_async_web3_client, bind at 1, gets.
  destruct (_async_web3_client_cache s !! network_id) as [c|] eqn:Hc; [discriminate|].
  destruct chain_provider as [get_chain_config|].
  - unfold bind, modify, lift, ret. cbn.
    destruct (get_chain_config network_id) as [e'|rpc_url]; [|discriminate].
    intros [= <- <-]. cbn. auto.
  - intros [= <- <-]. auto.
Qed.

Lemma failed_lookup_caches_nothing_witness :
  let s1 := snd (get_async_web3_client None "base-mainnet"
                   {| _async_web3_client_cache := ∅; asked := [] |}) in
  _async_web3_client_cache s1 = ∅ /\
  _async_web3_client_cache s1 !! "base-mainnet" = None.
Proof.
  exact (failed_lookup_caches_nothing None "base-mainnet"
           {| _async_web3_client_cache := ∅; asked := [] |} AttributeError _ eq_refl).
Defined.

(** X22: for a network without a cached client, when the chain provider
    gives a configuration, the client returned is on its RPC URL with five
    retries on the three network errors; it is cached under this network
    and the clients of the other networks are as they were; the provider
    was asked once, for this network. *)
Theorem new_client_retries_five_times get_chain_config network_id s rpc_url :
  _async_web3_client_cache s !! network_id = None ->
  get_chain_config network_id = inr rpc_url ->
  exists client s1,
    get_async_web3_client (Some get_chain_config) network_id s = (inr client, s1) /\
    endpoint client = rpc_url /\
    retries client = 5 /\
    retry_errors client = ["aiohttp.ClientError"; "asyncio.TimeoutError"; "TimeoutError"] /\
    _async_web3_client_cache s1 !! network_id = Some client /\
    (forall other, other <> network_id ->
       _async_web3_client_cache s1 !! other = _async_web3_client_cache s !! other) /\
    asked s1 = (asked s ++ [network_id])%list.
Proof.
  intros Hc Hcfg.
  unfold get_async_web3_client, bind, gets, modify, lift, ret. cbn.
  rewrite Hc, Hcfg. do 2 eexists. split; [reflexivity|]. cbn.
  rewrite lookup_insert_eq. repeat split.
  intros other Hne. now rewrite lookup_insert_ne.
Qed.

Lemma new_client_retries_five_times_witness :
  exists client s1,
    get_async_web3_client (Some (fun _ => inr (Some "http://rpc.url"))) "base-mainnet"
      {| _async_web3_client_cache := ∅; asked := [] |} = (inr client, s1) /\
    endpoint client = Some "http://rpc.url" /\
    retries client = 5 /\
    retry_errors client = ["aiohttp.ClientError"; "asyncio.TimeoutError"; "TimeoutError"] /\
    _async_web3_client_cache s1 !! "base-mainnet" = Some client /\
    (forall other, other <> "base-mainnet" ->
       _async_web3_client_cache s1 !! other
       = (∅ : gmap string AsyncWeb3) !! other) /\
    asked s1 = ["base-mainnet"].
Proof.
  exact (new_client_retries_five_times (fun _ => inr (Some "http://rpc.url"))
           "base-mainnet" {| _async_web3_client_cache := ∅; asked := [] |}
           (Some "http://rpc.url") eq_refl eq_refl).
Defined.

End Web3Facts.

(** ** The CDP skills *)

Module CdpSkillsFacts.
Import CdpSkills.

(** What one item of the configuration contributes. *)
Lemma add_skill_app is_private tools item :
  add_skill is_private tools item
  = (tools ++ add_skill is_private [] item)%list.
Proof.
  unfold add_skill.
  destruct (String.eqb (snd item) "disabled"); [now rewrite app_nil_r|].
  destruct (_ || _); [|now rewrite app_nil_r].
  destruct (_cache !! fst item); [reflexivity | now rewrite app_nil_r].
Qed.

(** The loop as one pass over the items. *)
Lemma fold_add_skill is_private states acc :
  fold_left (add_skill is_private) states acc
  = (acc ++ flat_map (add_skill is_private []) states)%list.
Proof.
  revert acc. induction states as [|item states IH]; intros acc; cbn [fold_left flat_map].
  - now rewrite app_nil_r.
  - rewrite IH, add_skill_app, <- app_assoc. reflexivity.
Qed.

Lemma get_skills_flat_map states is_private :
  get_skills states is_private = flat_map (add_skill is_private []) states.
Proof. unfold get_skills. now rewrite fold_add_skill. Qed.

Lemma add_skill_one is_private item :
  add_skill is_private [] item
  = if lets_through is_private (snd item) then
      match _cache !! fst item with
      | Some tool => [tool]
      | None => []
      end
    else [].
Proof.
  unfold add_skill, lets_through.
  destruct (String.eqb_spec (snd item) "disabled") as [->|]; reflexivity.
Qed.

Lemma lets_through_true is_private state :
  lets_through is_private state = true <->
  state = "public" \/ (state = "private" /\ is_private = true).
Proof.
  unfold lets_through.
  rewrite orb_true_iff, andb_true_iff, !String.eqb_eq. reflexivity.
Qed.

(** The cache holds three skills under three names. *)
Lemma _cache_lookup skill_name tool :
  _cache !! skill_name = Some tool <->
  (skill_name = "cdp_get_balance" /\ tool = CDPGetBalance)
  \/ (skill_name = "cdp_get_wallet_details" /\ tool = CDPGetWalletDetails)
  \/ (skill_name = "cdp_native_transfer" /\ tool = CDPNativeTransfer).
Proof.
  unfold _cache. rewrite !lookup_insert_Some, lookup_singleton_Some.
  split.
  - intros [[<- <-] | [_ [[<- <-] | [_ [<- <-]]]]]; auto.
  - intros [[-> ->] | [[-> ->] | [-> ->]]].
    + now left.
    + right. split; [discriminate|]. now left.
    + right. split; [discriminate|]. right. split; [discriminate|]. auto.
Qed.

Lemma skill_membership states is_private tool :
  In tool (get_skills states is_private) <->
  exists skill_name state,
    In (skill_name, state) states /\
    _cache !! skill_name = Some tool /\
    (state = "public" \/ (state = "private" /\ is_private = true)).
Proof.
  rewrite get_skills_flat_map, in_flat_map. split.
  - intros ([skill_name state] & Hin & Htool). rewrite add_skill_one in Htool.
    cbn [fst snd] in Htool.
    destruct (lets_through is_private state) eqn:Hs; [|destruct Htool].
    destruct (_cache !! skill_name) as [t|] eqn:Hc; [|destruct Htool].
    destruct Htool as [<- | []]. exists skill_name, state.
    apply lets_through_true in Hs. auto.
  - intros (skill_name & state & Hin & Hc & Hs).
    exists (skill_name, state). split; [exact Hin|].
    rewrite add_skill_one. cbn [fst snd].
    apply lets_through_true in Hs. rewrite Hs, Hc. now left.
Qed.

(** X23: a skill is returned by [get_skills] exactly when the configuration
    has an item that names it, by a name of the cache, in the state
    "public", or in the state "private" when private skills are asked for.
    A disabled skill, a skill in any other state and a name the cache does
    not know are left out. *)
Theorem skill_is_returned_iff states is_private tool :
  In tool (get_skills states is_private) <->
  exists skill_name state,
    In (skill_name, state) states /\
    _cache !! skill_name = Some tool /\
    (state = "public" \/ (state = "private" /\ is_private = true)).
Proof. apply skill_membership. Qed.

(** X24: the skills of a public caller are among those of a private
    caller, in the same order: [get_skills config False] is a sublist of
    [get_skills config True]. *)
Theorem public_skills_within_private states :
  sublist (get_skills states false) (get_skills states true).
Proof.
  rewrite !get_skills_flat_map.
  induction states as [|[skill_name state] states IH]; cbn [flat_map]; [constructor|].
  apply sublist_app; [|exact IH].
  rewrite !add_skill_one. cbn [fst snd]. unfold lets_through.
  rewrite andb_false_r, andb_true_r, orb_false_r.
  destruct (String.eqb state "public"); cbn [orb]; [reflexivity|].
  apply sublist_nil_l.
Qed.

(** X25: when the configuration names no skill twice, as the items of a
    dictionary do, no skill is returned twice. *)
Theorem no_skill_is_returned_twice states is_private :
  NoDup (map fst states) ->
  NoDup (get_skills states is_private).
Proof.
  intros Hnd. rewrite get_skills_flat_map.
  induction states as [|[skill_name state] states IH]; cbn [flat_map]; [constructor|].
  cbn [map fst] in Hnd. apply NoDup_cons in Hnd as [Hnot Hnd].
  specialize (IH Hnd).
  rewrite add_skill_one. cbn [fst snd].
  destruct (lets_through is_private state); [|exact IH].
  destruct (_cache !! skill_name) as [tool|] eqn:Hc; [|exact IH].
  cbn [app]. apply NoDup_cons. split; [|exact IH].
  intros Hin. apply list_elem_of_In in Hin.
  rewrite <- get_skills_flat_map in Hin.
  apply skill_membership in Hin as (name' & state' & Hin' & Hc' & _).
  assert (name' = skill_name).
  { apply _cache_lookup in Hc, Hc'.
    destruct Hc as [[-> ->] | [[-> ->] | [-> ->]]];
      destruct Hc' as [[-> [=]] | [[-> [=]] | [-> [=]]]]; reflexivity. }
  subst name'. apply Hnot. apply list_elem_of_In.
  apply (in_map fst) in Hin'. exact Hin'.
Qed.

Lemma no_skill_is_returned_twice_witness :
  NoDup (get_skills [("cdp_get_balance", "public");
                     ("cdp_native_transfer", "private");
                     ("cdp_get_wallet_details", "disabled")] true).
Proof.
  apply no_skill_is_returned_twice. cbn [map fst].
  repeat (apply NoDup_cons_2;
          [intros H; apply list_elem_of_In in H; cbn [In] in H;
           repeat (destruct H as [H|H]; [discriminate H|]); exact H|]).
  apply NoDup_nil_2.
Defined.

End CdpSkillsFacts.

(** ** Quantization of the weekly limit *)

Lemma half_even_bound n d :
  0 < d -> 0 <= n -> 2 * Z.abs (n - half_even n d * d) <= d.
Proof.
  intros Hd Hn. unfold half_even.
  pose proof (Z.div_mod n d ltac:(lia)) as Hdm.
  pose proof (Z.mod_pos_bound n d Hd) as Hr.
  set (q := n / d) in *. set (r := n mod d) in *.
  destruct (2 * r <? d) eqn:H1; [apply Z.ltb_lt in H1; nia|].
  apply Z.ltb_ge in H1.
  destruct (d <? 2 * r) eqn:H2; [apply Z.ltb_lt in H2; nia|].
  apply Z.ltb_ge in H2.
  destruct (Z.even q); nia.
Qed.

Lemma to_millionths_error x : within_half_a_millionth x (to_millionths x).
Proof.
  unfold within_half_a_millionth, in_units, to_millionths. cbv zeta.
  destruct (0 <=? exp x + 6) eqn:He.
  - apply Z.leb_le in He. rewrite Z.min_r by lia.
    replace (-6 - -6) with 0 by lia. replace (exp x - -6) with (exp x + 6) by lia.
    rewrite Z.pow_0_r, Z.mul_1_r, Z.sub_diag. cbn. lia.
  - apply Z.leb_gt in He. rewrite Z.min_l by lia.
    rewrite Z.sub_diag, Z.pow_0_r, Z.mul_1_r.
    replace (- (exp x + 6)) with (-6 - exp x) by lia.
    set (d := 10 ^ (-6 - exp x)).
    assert (Hd : 0 < d) by (apply Z.pow_pos_nonneg; lia).
    pose proof (half_even_bound (Z.abs (coef x)) d Hd (Z.abs_nonneg _)) as Hb.
    set (h := half_even (Z.abs (coef x)) d) in *.
    destruct (Z.sgn_spec (coef x)) as [[Hc Hs] | [[Hc Hs] | [Hc Hs]]];
      rewrite Hs; lia.
Qed.

Lemma quantize_inr x m : quantize x = inr m ->
  m = to_millionths x /\ Z.abs m < 10 ^ context_prec.
Proof.
  unfold quantize. cbv zeta.
  destruct (Z.abs (to_millionths x) <? 10 ^ context_prec) eqn:Hlt; [|discriminate].
  intros [= <-]. apply Z.ltb_lt in Hlt. auto.
Qed.

(** The bound of [within_half_a_millionth], counted in finer units. *)
Lemma within_half_in_units x m e :
  e <= exp x -> e <= -6 ->
  within_half_a_millionth x m ->
  2 * Z.abs (in_units e x - m * 10 ^ (-6 - e)) <= 10 ^ (-6 - e).
Proof.
  unfold within_half_a_millionth, in_units. cbv zeta.
  intros H1 H2. set (e0 := Z.min (exp x) (-6)).
  assert (He0 : e <= e0) by (unfold e0; lia).
  assert (He1 : e0 <= exp x) by (unfold e0; lia).
  assert (He2 : e0 <= -6) by (unfold e0; lia).
  intros Hb.
  replace (exp x - e) with ((exp x - e0) + (e0 - e)) by lia.
  replace (-6 - e) with ((-6 - e0) + (e0 - e)) by lia.
  rewrite !Z.pow_add_r by lia.
  assert (Hk : 0 < 10 ^ (e0 - e)) by (apply Z.pow_pos_nonneg; lia).
  set (k := 10 ^ (e0 - e)) in *.
  set (U := 10 ^ (-6 - e0)) in *.
  set (p := 10 ^ (exp x - e0)) in *.
  replace (coef x * (p * k) - m * (U * k)) with ((coef x * p - m * U) * k) by ring.
  rewrite Z.abs_mul, (Z.abs_eq k) by lia. nia.
Qed.

(** X26: the quantized limit is the given limit rounded to the nearest
    millionth: whenever the quantization of lines 32-41 returns, its result
    is within half a millionth of the exact decimal value of the limit. *)
Theorem quantized_limit_is_nearest x m :
  quantize x = inr m -> within_half_a_millionth x m.
Proof.
  intros H. apply quantize_inr in H as [-> _]. apply to_millionths_error.
Qed.

Lemma quantized_limit_is_nearest_witness :
  within_half_a_millionth f6e_07 1.
Proof.
  exact (quantized_limit_is_nearest f6e_07 1 eq_refl).
Defined.

(** X27: limits that the provisioner treats as equal are close: when the
    old and the new limit quantize to the same value, so that
    [old_limit != new_limit] is false, they differ by at most one
    millionth. *)
Theorem equal_quantized_limits_are_close a b qa qb :
  quantize_opt (Some (Finite a)) = inr qa ->
  quantize_opt (Some (Finite b)) = inr qb ->
  limit_ne qa qb = false ->
  differ_by_at_most_a_millionth a b.
Proof.
  unfold quantize_opt, quantize_float.
  destruct (quantize a) as [?|ma] eqn:Ha; [discriminate|].
  destruct (quantize b) as [?|mb] eqn:Hb; [discriminate|].
  intros [= <-] [= <-]. cbn [limit_ne decimal_ne]. intros Hne.
  apply negb_false_iff, Z.eqb_eq in Hne. subst mb.
  apply quantize_inr in Ha as [Ha _], Hb as [Hb _].
  pose proof (to_millionths_error a) as Ea. rewrite <- Ha in Ea.
  pose proof (to_millionths_error b) as Eb. rewrite <- Hb in Eb.
  unfold differ_by_at_most_a_millionth. cbv zeta.
  set (e := Z.min (Z.min (exp a) (exp b)) (-6)).
  apply (within_half_in_units a ma e) in Ea; [|unfold e; lia..].
  apply (within_half_in_units b ma e) in Eb; [|unfold e; lia..].
  lia.
Qed.

Lemma equal_quantized_limits_are_close_witness :
  differ_by_at_most_a_millionth f4e_07 {| coef := 5; exp := -7 |}.
Proof.
  exact (equal_quantized_limits_are_close f4e_07 {| coef := 5; exp := -7 |}
           (Some (Millionths 0)) (Some (Millionths 0)) eq_refl eq_refl eq_refl).
Defined.

(** X28: the quantization of lines 32-41 raises for no limit of at most 28
    digits: every limit of absolute value at most
    9999999999999999999999.999999 quantizes, to a value of the same
    bound. *)
Theorem limit_within_context_quantizes x :
  fits_the_context x ->
  exists m,
    quantize_opt (Some (Finite x)) = inr (Some (Millionths m)) /\
    Z.abs m < 10 ^ context_prec.
Proof.
  intros Hx. exists (to_millionths x).
  assert (Hm : Z.abs (to_millionths x) < 10 ^ context_prec).
  { pose proof (to_millionths_error x) as Eb.
    unfold within_half_a_millionth, fits_the_context in *. cbv zeta in *.
    set (e := Z.min (exp x) (-6)) in *.
    assert (Hu : 0 < 10 ^ (-6 - e)) by (apply Z.pow_pos_nonneg; unfold e; lia).
    set (u := 10 ^ (-6 - e)) in *. set (X := in_units e x) in *.
    set (m := to_millionths x) in *. set (P := 10 ^ context_prec) in *.
    assert (2 * (Z.abs m * u) <= (2 * P - 1) * u).
    { replace (Z.abs m * u) with (Z.abs (m * u)) by (rewrite Z.abs_mul; f_equal; lia).
      lia. }
    nia. }
  split; [|exact Hm].
  unfold quantize_opt, quantize_float, quantize. cbv zeta.
  apply Z.ltb_lt in Hm. rewrite Hm. reflexivity.
Qed.

Lemma limit_within_context_quantizes_witness :
  exists m,
    quantize_opt (Some (Finite f100)) = inr (Some (Millionths m)) /\
    Z.abs m < 10 ^ context_prec.
Proof.
  apply (limit_within_context_quantizes f100).
  unfold fits_the_context, in_units. vm_compute. discriminate.
Defined.
